(** * Greeting dispatch scheduler: a shallow embedding and its properties

    The development follows the layout of the repository:

    - [Js]         the few JavaScript primitives the code relies on
                   (truthiness, [String.prototype.replace], [padStart],
                   [split], [trim], [parseInt]);
    - [Bitrix]     the data exchanged with the messaging platform;
    - [Config]     [utils/config.js];
    - [Eff]        the world the program runs in (tables, clock, network)
                   and a state-and-exception monad over it;
    - [Database]   [utils/database.js];
    - [Bot]        [functions/bot.js];
    - [Users]      [functions/users.js];
    - [Greetings]  [functions/greetings.js];
    - [Cron]       the cron library, as far as the scheduler uses it;
    - [Scheduler]  [utils/scheduler.js];
    - [Api]        the schedule route and the webhook of [index.js].

    Definitions come first; the statements about them follow, in two
    parts. *)

From Stdlib Require Import ZArith QArith Qround String Ascii List Lia OrdersEx.
From stdpp Require Import base option list gmap strings sorting pretty.

Local Open Scope string_scope.

(* ================================================================== *)
(** * Part I: the program *)
(* ================================================================== *)

(** ** JavaScript primitives *)

Module Js.

(** A string is falsy exactly when it is empty; [null]/[undefined]
    are represented by [None]. *)
Definition truthy (o : option string) : bool :=
  match o with
  | Some s => negb (String.eqb s "")
  | None => false
  end.

(** [a || b] on possibly-null strings. *)
Definition or_else (a : option string) (b : option string) : option string :=
  if truthy a then a else b.

Definition nl : string := String (ascii_of_nat 10) EmptyString.

Fixpoint repeat_char (c : ascii) (n : nat) : string :=
  match n with
  | O => ""
  | S k => String c (repeat_char c k)
  end.

(** [s.padStart(n, c)] for a one-character pad string. *)
Definition padStart (n : nat) (c : ascii) (s : string) : string :=
  repeat_char c (n - String.length s) ++ s.

(** [String(z)] for an integer. *)
Definition string_of_int (z : Z) : string := pretty z.

(** The replacement patterns of [String.prototype.replace] when the
    pattern is a string (no capture groups): [$$], [$&], [$`], [$'];
    any other [$] is literal. *)
Fixpoint getSubstitution (matched before after : string) (repl : string)
  : string :=
  match repl with
  | EmptyString => ""
  | String c rest =>
      if Ascii.eqb c "$" then
        match rest with
        | String d rest' =>
            if Ascii.eqb d "$" then
              "$" ++ getSubstitution matched before after rest'
            else if Ascii.eqb d "&" then
              matched ++ getSubstitution matched before after rest'
            else if Ascii.eqb d "`" then
              before ++ getSubstitution matched before after rest'
            else if Ascii.eqb d "'" then
              after ++ getSubstitution matched before after rest'
            else
              String c (getSubstitution matched before after rest)
        | EmptyString => String c ""
        end
      else String c (getSubstitution matched before after rest)
  end.

Definition drop_str (n : nat) (s : string) : string :=
  substring n (String.length s - n) s.

(** [s.replace(pat, repl)] with a string pattern: only the first
    occurrence is replaced. *)
Definition replace (pat repl s : string) : string :=
  match String.index 0 pat s with
  | Some i =>
      let before := substring 0 i s in
      let after := drop_str (i + String.length pat) s in
      before ++ getSubstitution pat before after repl ++ after
  | None => s
  end.

(** ASCII white space; [trim] also strips the non-ASCII white space of
    Unicode, which does not occur in the settings handled here. *)
Definition is_space (c : ascii) : bool :=
  let n := nat_of_ascii c in
  (n =? 32)%nat || ((9 <=? n)%nat && (n <=? 13)%nat).

Fixpoint trimStart (s : string) : string :=
  match s with
  | String c rest => if is_space c then trimStart rest else s
  | EmptyString => ""
  end.

Fixpoint rev_str (acc s : string) : string :=
  match s with
  | EmptyString => acc
  | String c rest => rev_str (String c acc) rest
  end.

Definition trim (s : string) : string :=
  rev_str "" (trimStart (rev_str "" (trimStart s))).

(** [s.split(sep)] for a one-character separator: never empty, the
    empty string splits into one empty piece. *)
Fixpoint split (sep : ascii) (s : string) : list string :=
  match s with
  | EmptyString => [""]
  | String c rest =>
      if Ascii.eqb c sep then "" :: split sep rest
      else match split sep rest with
           | piece :: pieces => String c piece :: pieces
           | [] => [String c ""]
           end
  end.

(** Numbers as [parseInt] yields them: an integer or [NaN]. *)
Inductive num : Type :=
| NaN
| Int (z : Z).

Definition digit_of (radix : Z) (c : ascii) : option Z :=
  let n := Z.of_nat (nat_of_ascii c) in
  let v :=
    if (48 <=? n)%Z && (n <=? 57)%Z then Some (n - 48)%Z
    else if (97 <=? n)%Z && (n <=? 122)%Z then Some (n - 87)%Z
    else if (65 <=? n)%Z && (n <=? 90)%Z then Some (n - 55)%Z
    else None in
  match v with
  | Some d => if (d <? radix)%Z then Some d else None
  | None => None
  end.

(** The longest prefix of digits, as a number; [None] when the prefix
    is empty. *)
Fixpoint digits (radix : Z) (acc : option Z) (s : string) : option Z :=
  match s with
  | EmptyString => acc
  | String c rest =>
      match digit_of radix c with
      | Some d =>
          digits radix
            (Some (match acc with Some a => a * radix + d | None => d end)%Z)
            rest
      | None => acc
      end
  end.

Definition strip_hex_prefix (s : string) : option string :=
  match s with
  | String a (String b rest) =>
      if Ascii.eqb a "0" && (Ascii.eqb b "x" || Ascii.eqb b "X")
      then Some rest else None
  | _ => None
  end.

Definition parse_unsigned (s : string) : option Z :=
  match strip_hex_prefix s with
  | Some rest => digits 16 None rest
  | None => digits 10 None s
  end.

(** [parseInt(s)] without a radix (exact on the integers a double
    represents exactly). *)
Definition parseInt (s : string) : num :=
  let s := trimStart s in
  let (neg, body) :=
    match s with
    | String c rest =>
        if Ascii.eqb c "-" then (true, rest)
        else if Ascii.eqb c "+" then (false, rest)
        else (false, s)
    | EmptyString => (false, s)
    end in
  match parse_unsigned body with
  | Some z => Int (if neg then - z else z)%Z
  | None => NaN
  end.

(** [xs[i]] for an integer index: [undefined] out of range. *)
Definition index {A : Type} (xs : list A) (i : Z) : option A :=
  if (0 <=? i)%Z then xs !! Z.to_nat i else None.

(** [xs.join(sep)]. *)
Fixpoint join (sep : string) (xs : list string) : string :=
  match xs with
  | [] => ""
  | [x] => x
  | x :: rest => x ++ sep ++ join sep rest
  end.

(** [s.startsWith(p)]. *)
Definition startsWith (p s : string) : bool := String.prefix p s.

(** [s.includes(p)]. *)
Definition includes (p s : string) : bool :=
  match String.index 0 p s with
  | Some _ => true
  | None => false
  end.

End Js.

(** ** The messaging platform's data *)

Module Bitrix.

(** One keyboard button of [imbot.message.add]. *)
Record Button : Type := {
  TEXT : string;
  COMMAND : string;
  COMMAND_PARAMS : string;
  BG_COLOR : string;
  TEXT_COLOR : string
}.

Definition Keyboard : Type := list (list Button).

(** Parameters of [imbot.message.add] as [sendMessage] builds them. *)
Record MessageParams : Type := {
  BOT_ID : string;
  DIALOG_ID : string;
  MESSAGE : string;
  KEYBOARD : option Keyboard
}.

(** What one REST call does: it answers with a payload ([getData()],
    a message id; falsy payloads are represented by [0]) or throws an
    error with the given [message]. *)
Inductive Reply : Type :=
| Data (messageId : Z)
| Fault (message : string).

End Bitrix.

(** ** utils/config.js *)

Module Config.

Record MorningGreeting : Type := {
  hour : Z;
  minute : Z;
  daysOfWeek : list Js.num;
  timezone : string
}.

Record Messages : Type := {
  greetings : list string;
  tips : list string;
  holidays : gmap string string
}.

Record BotSettings : Type := {
  (** [parseInt(env) || 10]: never zero; a negative value would make
      the batch loop run forever and is excluded by the type. *)
  maxUsersPerBatch : positive;
  delayBetweenMessages : Z;
  retryAttempts : Z;
  retryDelay : Z
}.

Record t : Type := {
  bitrix_botId : option string;
  schedule_morningGreeting : MorningGreeting;
  messages : Messages;
  bot : BotSettings
}.

Definition tip (body : string) : string :=
  "[b]💡 Совет дня:[/b]" ++ Js.nl ++ body.

Definition default_messages : Messages := {|
  greetings := [
    "🌞 Доброе утро, {name}! Желаю вам продуктивного дня!";
    "☀️ Привет, {name}! Пусть этот день принесет только хорошее!";
    "🌅 С добрым утром, {name}! Отличного настроения и успехов в работе!";
    "💫 Добрый день, {name}! Начинаем день с позитива!";
    "🌈 Приветствую, {name}! Пусть день будет ярким и успешным!";
    "🌸 Доброе утро, {name}! Хорошего дня и отличных результатов!";
    "⭐ Привет, {name}! Новый день - новые возможности!";
    "🎯 С добрым утром, {name}! Пусть все задачи решаются легко!";
    "🚀 Доброе утро, {name}! Энергии и вдохновения на весь день!";
    "☕ Привет, {name}! Начнём день с улыбки и чашки кофе!"
  ];
  tips := [
    tip "Начните день с самой важной задачи - это повысит вашу продуктивность!";
    tip "Не забудьте сделать короткие перерывы между задачами для восстановления энергии.";
    tip "Составьте список из 3 главных целей на день - это поможет сфокусироваться.";
    tip "Выпейте стакан воды прямо сейчас - гидратация важна для продуктивности!";
    tip "Уделите 5 минут планированию дня - это сэкономит часы работы.";
    tip "Помните о правиле 2 минут: если задача занимает меньше 2 минут - сделайте её сразу!";
    tip "Используйте технику Pomodoro: 25 минут работы, 5 минут отдыха.";
    tip "Начните день с благодарности - это настроит на позитивный лад.";
    tip "Отключите уведомления на время важной работы - фокус превыше всего!";
    tip "Сделайте несколько глубоких вдохов - это поможет сосредоточиться."
  ];
  holidays :=
    <["01-01" := "🎄 С Новым годом, {name}! Пусть этот год будет полон успехов!"]>
    (<["23-02" := "🎖️ С Днём защитника Отечества, {name}!"]>
    (<["08-03" := "🌷 С Международным женским днём, {name}!"]>
    (<["01-05" := "🌺 С праздником Весны и Труда, {name}!"]>
    (<["09-05" := "🎗️ С Днём Победы, {name}!"]>
    (<["12-06" := "🇷🇺 С Днём России, {name}!"]>
    (<["04-11" := "🤝 С Днём народного единства, {name}!"]> ∅))))))
|}.

(** The configuration obtained with no environment variable set. *)
Definition default : t := {|
  bitrix_botId := None;
  schedule_morningGreeting := {|
    hour := 9;
    minute := 0;
    daysOfWeek := [Js.Int 1; Js.Int 2; Js.Int 3; Js.Int 4; Js.Int 5];
    timezone := "Europe/Moscow"
  |};
  messages := default_messages;
  bot := {|
    maxUsersPerBatch := 10;
    delayBetweenMessages := 1000;
    retryAttempts := 3;
    retryDelay := 5000
  |}
|}.

End Config.

(** ** The world and its effects *)

Module Eff.

(** A row of the [users] table. [is_active] is SQLite's integer
    rendering of the BOOLEAN column; [last_greeting_sent] is the UTC
    time written by [CURRENT_TIMESTAMP], in seconds since the epoch. *)
Record UserRow : Type := {
  u_id : Z;
  u_bitrix_id : string;
  u_name : option string;
  u_first_name : option string;
  u_last_name : option string;
  u_email : option string;
  u_work_position : option string;
  u_department : option string;
  u_is_active : Z;
  u_last_greeting_sent : option Z;
  u_created_at : Z;
  u_updated_at : Z
}.

(** A row of the [message_history] table. *)
Record HistoryRow : Type := {
  h_user_id : string;
  h_message_text : string;
  h_status : string;
  h_error_message : option string;
  h_sent_at : Z
}.

(** The calendar fields [Date] exposes in the host's local time. *)
Record JsDate : Type := {
  getMonth : Z;
  getDate : Z
}.

(** What the program does to the outside, in the order it happens. *)
Inductive Event : Type :=
| EvCall (params : Bitrix.MessageParams) (completed_at : Z)
         (reply : Bitrix.Reply)
| EvSleep (ms : Z).

(** Everything the program does not decide: the platform's answers
    and latency, statement failures of the store, the random source,
    and the host's calendar. Calls, statements and draws are numbered
    in the order the program issues them. Time passes during a call to
    the platform and during a pause; statements of the store and local
    computation are instantaneous. *)
Record Env : Type := {
  b24_callMethod : nat -> Bitrix.MessageParams -> Bitrix.Reply;
  net_latency : nat -> N;
  db_fault : nat -> option string;
  random : nat -> Q;
  local_date : Z -> JsDate;
  server_time_fault : option string
}.

Record World : Type := {
  clock : Z;                          (* milliseconds since the epoch *)
  rng_seq : nat;
  net_seq : nat;
  db_seq : nat;
  botId : option string;
  isInitialized : bool;
  bot_config : option string;         (* bot_id of the active bot_config row *)
  users : list UserRow;
  message_history : list HistoryRow;
  trace : list Event
}.

Definition set_clock (t : Z) (w : World) : World :=
  {| clock := t; rng_seq := rng_seq w; net_seq := net_seq w;
     db_seq := db_seq w; botId := botId w;
     isInitialized := isInitialized w; bot_config := bot_config w;
     users := users w; message_history := message_history w;
     trace := trace w |}.

Definition set_rng_seq (n : nat) (w : World) : World :=
  {| clock := clock w; rng_seq := n; net_seq := net_seq w;
     db_seq := db_seq w; botId := botId w;
     isInitialized := isInitialized w; bot_config := bot_config w;
     users := users w; message_history := message_history w;
     trace := trace w |}.

Definition set_net_seq (n : nat) (w : World) : World :=
  {| clock := clock w; rng_seq := rng_seq w; net_seq := n;
     db_seq := db_seq w; botId := botId w;
     isInitialized := isInitialized w; bot_config := bot_config w;
     users := users w; message_history := message_history w;
     trace := trace w |}.

Definition set_db_seq (n : nat) (w : World) : World :=
  {| clock := clock w; rng_seq := rng_seq w; net_seq := net_seq w;
     db_seq := n; botId := botId w;
     isInitialized := isInitialized w; bot_config := bot_config w;
     users := users w; message_history := message_history w;
     trace := trace w |}.

Definition set_botId (b : option string) (w : World) : World :=
  {| clock := clock w; rng_seq := rng_seq w; net_seq := net_seq w;
     db_seq := db_seq w; botId := b;
     isInitialized := isInitialized w; bot_config := bot_config w;
     users := users w; message_history := message_history w;
     trace := trace w |}.

Definition set_isInitialized (b : bool) (w : World) : World :=
  {| clock := clock w; rng_seq := rng_seq w; net_seq := net_seq w;
     db_seq := db_seq w; botId := botId w;
     isInitialized := b; bot_config := bot_config w;
     users := users w; message_history := message_history w;
     trace := trace w |}.

Definition set_users (us : list UserRow) (w : World) : World :=
  {| clock := clock w; rng_seq := rng_seq w; net_seq := net_seq w;
     db_seq := db_seq w; botId := botId w;
     isInitialized := isInitialized w; bot_config := bot_config w;
     users := us; message_history := message_history w;
     trace := trace w |}.

Definition set_message_history (hs : list HistoryRow) (w : World) : World :=
  {| clock := clock w; rng_seq := rng_seq w; net_seq := net_seq w;
     db_seq := db_seq w; botId := botId w;
     isInitialized := isInitialized w; bot_config := bot_config w;
     users := users w; message_history := hs;
     trace := trace w |}.

Definition set_trace (tr : list Event) (w : World) : World :=
  {| clock := clock w; rng_seq := rng_seq w; net_seq := net_seq w;
     db_seq := db_seq w; botId := botId w;
     isInitialized := isInitialized w; bot_config := bot_config w;
     users := users w; message_history := message_history w;
     trace := tr |}.

(** How a JavaScript computation ends: with a value, with a thrown
    error (its [message]), or not at all. *)
Inductive Completion (A : Type) : Type :=
| Normal (a : A)
| Abrupt (message : string)
| Diverge.
Arguments Normal {A} a.
Arguments Abrupt {A} message.
Arguments Diverge {A}.

(** Computations over a state [S]; the state a computation reached
    when it threw is kept. *)
Definition M (S A : Type) : Type := S -> Completion A * S.

Definition ret {S A : Type} (a : A) : M S A := fun s => (Normal a, s).

Definition bind {S A B : Type} (m : M S A) (k : A -> M S B) : M S B :=
  fun s =>
    match m s with
    | (Normal a, s') => k a s'
    | (Abrupt e, s') => (Abrupt e, s')
    | (Diverge, s') => (Diverge, s')
    end.

Definition throw {S A : Type} (message : string) : M S A :=
  fun s => (Abrupt message, s).

Definition diverge {S A : Type} : M S A := fun s => (Diverge, s).

(** [try { m } catch (error) { h(error.message) }]. *)
Definition try_catch {S A : Type} (m : M S A) (h : string -> M S A) : M S A :=
  fun s =>
    match m s with
    | (Abrupt e, s') => h e s'
    | r => r
    end.

Definition get {S : Type} : M S S := fun s => (Normal s, s).

Definition modify {S : Type} (f : S -> S) : M S unit :=
  fun s => (Normal tt, f s).

End Eff.

Declare Scope eff_scope.
Delimit Scope eff_scope with eff.
Notation "'let*' x := m 'in' k" := (Eff.bind m (fun x => k))
  (at level 10, x name, m at level 100, k at level 200) : eff_scope.
Notation "m ;; k" := (Eff.bind m (fun _ => k))
  (at level 100, k at level 200, right associativity) : eff_scope.

(** ** utils/database.js *)

Module Database.
Import Eff.
Local Open Scope eff_scope.

(** [CURRENT_TIMESTAMP]: the UTC time, to the second. *)
Definition CURRENT_TIMESTAMP (w : World) : Z := (clock w / 1000)%Z.

(** SQLite's [DATE(t)] of a stored UTC time. Dates are represented by
    their day number since the epoch; the [YYYY-MM-DD] texts SQLite
    compares are ordered as these numbers are. *)
Definition DATE (t : Z) : Z := (t / 86400)%Z.

(** [new Date().toISOString().split('T')[0]]: the UTC date of an
    instant given in milliseconds. *)
Definition toISODate (ms : Z) : Z := ((ms / 1000) / 86400)%Z.

Definition set_last_greeting_sent (t : option Z) (u : UserRow) : UserRow :=
  {| u_id := u_id u; u_bitrix_id := u_bitrix_id u; u_name := u_name u;
     u_first_name := u_first_name u; u_last_name := u_last_name u;
     u_email := u_email u; u_work_position := u_work_position u;
     u_department := u_department u; u_is_active := u_is_active u;
     u_last_greeting_sent := t;
     u_created_at := u_created_at u; u_updated_at := u_updated_at u |}.

(** [ORDER BY name]: ascending, [NULL] first, texts compared byte by
    byte (the BINARY collation). *)
Definition null_first_le (a b : option string) : Prop :=
  match a, b with
  | None, _ => True
  | Some _, None => False
  | Some x, Some y => String.leb x y = true
  end.

#[global] Instance null_first_le_dec (a b : option string) :
  Decision (null_first_le a b).
Proof. destruct a, b; simpl; apply _. Defined.

Definition name_le (u v : UserRow) : Prop :=
  null_first_le (u_name u) (u_name v).

#[global] Instance name_le_dec (u v : UserRow) : Decision (name_le u v).
Proof. unfold name_le. apply _. Defined.

Definition order_by_name (rows : list UserRow) : list UserRow :=
  merge_sort name_le rows.

(** The [WHERE] clause of [getUsersForMorningGreeting]; [today] is the
    bound parameter. *)
Definition where_morning_greeting (today : Z) (u : UserRow) : bool :=
  (u_is_active u =? 1)%Z &&
  match u_last_greeting_sent u with
  | None => true
  | Some t => (DATE t <? today)%Z
  end.

Section WithEnv.
Variable env : Env.

(** One statement sent to SQLite: it is numbered, and fails as a
    whole, with no effect, when the environment says so. *)
Definition statement : M World unit :=
  fun w =>
    let n := db_seq w in
    let w' := set_db_seq (S n) w in
    match db_fault env n with
    | Some e => (Abrupt e, w')
    | None => (Normal tt, w')
    end.

Definition getActiveBotConfig : M World (option string) :=
  statement;;
  let* w := get in
  ret (bot_config w).

Definition getUsersForMorningGreeting : M World (list UserRow) :=
  let* w0 := get in
  let today := toISODate (clock w0) in
  statement;;
  let* w := get in
  ret (order_by_name (List.filter (where_morning_greeting today) (users w))).

Definition updateLastGreeting (userId : string) : M World unit :=
  statement;;
  modify (fun w =>
    set_users
      (map (fun u =>
              if String.eqb (u_bitrix_id u) userId
              then set_last_greeting_sent (Some (CURRENT_TIMESTAMP w)) u
              else u)
           (users w)) w).

(** [INSERT INTO message_history]; [user_id] references
    [users(bitrix_id)] and foreign keys are enforced. *)
Definition saveMessageHistory (userId messageText status : string)
    (errorMessage : option string) : M World unit :=
  statement;;
  let* w := get in
  if existsb (fun u => String.eqb (u_bitrix_id u) userId) (users w) then
    modify (fun w =>
      set_message_history
        (message_history w ++
           [{| h_user_id := userId; h_message_text := messageText;
               h_status := status; h_error_message := errorMessage;
               h_sent_at := CURRENT_TIMESTAMP w |}]) w)
  else throw "SQLITE_CONSTRAINT: FOREIGN KEY constraint failed".

(** The profile [saveUser] receives. *)
Record UserData : Type := {
  d_bitrix_id : string;
  d_name : option string;
  d_first_name : option string;
  d_last_name : option string;
  d_email : option string;
  d_work_position : option string;
  d_department : option string
}.

(** The [UPDATE] of [saveUser]: the profile columns and [updated_at]. *)
Definition update_profile (d : UserData) (now : Z) (u : UserRow) : UserRow :=
  {| u_id := u_id u; u_bitrix_id := u_bitrix_id u; u_name := d_name d;
     u_first_name := d_first_name d; u_last_name := d_last_name d;
     u_email := d_email d; u_work_position := d_work_position d;
     u_department := d_department d; u_is_active := u_is_active u;
     u_last_greeting_sent := u_last_greeting_sent u;
     u_created_at := u_created_at u; u_updated_at := now |}.

(** The rowid SQLite gives a new row of an [INTEGER PRIMARY KEY] table:
    one more than the largest in use, 1 in an empty table. *)
Definition next_rowid (rows : list UserRow) : Z :=
  match map u_id rows with
  | [] => 1
  | i :: ids => fold_left Z.max ids i + 1
  end%Z.

(** The row of the [INSERT] of [saveUser]: the columns not listed take
    their defaults ([is_active = 1], no greeting yet, both time stamps
    [CURRENT_TIMESTAMP]). *)
Definition insert_row (d : UserData) (id now : Z) : UserRow :=
  {| u_id := id; u_bitrix_id := d_bitrix_id d; u_name := d_name d;
     u_first_name := d_first_name d; u_last_name := d_last_name d;
     u_email := d_email d; u_work_position := d_work_position d;
     u_department := d_department d; u_is_active := 1;
     u_last_greeting_sent := None;
     u_created_at := now; u_updated_at := now |}.

Definition has_bitrix_id (userId : string) (u : UserRow) : bool :=
  String.eqb (u_bitrix_id u) userId.

Definition saveUser (userData : UserData) : M World unit :=
  statement;;
  let* w := get in
  let existing := List.find (has_bitrix_id (d_bitrix_id userData)) (users w) in
  match existing with
  | Some _ =>
      statement;;
      modify (fun w =>
        set_users
          (map (fun u =>
                  if has_bitrix_id (d_bitrix_id userData) u
                  then update_profile userData (CURRENT_TIMESTAMP w) u
                  else u)
               (users w)) w)
  | None =>
      statement;;
      modify (fun w =>
        set_users
          (users w ++
             [insert_row userData (next_rowid (users w)) (CURRENT_TIMESTAMP w)])
          w)
  end.

Definition getActiveUsers : M World (list UserRow) :=
  statement;;
  let* w := get in
  ret (order_by_name (List.filter (fun u => (u_is_active u =? 1)%Z) (users w))).

(** [db.get('SELECT * FROM users WHERE bitrix_id = ?', userId)]. *)
Definition getUserByBitrixId (userId : string) : M World (option UserRow) :=
  statement;;
  let* w := get in
  ret (List.find (has_bitrix_id userId) (users w)).

Definition set_is_active (a : Z) (u : UserRow) : UserRow :=
  {| u_id := u_id u; u_bitrix_id := u_bitrix_id u; u_name := u_name u;
     u_first_name := u_first_name u; u_last_name := u_last_name u;
     u_email := u_email u; u_work_position := u_work_position u;
     u_department := u_department u; u_is_active := a;
     u_last_greeting_sent := u_last_greeting_sent u;
     u_created_at := u_created_at u; u_updated_at := u_updated_at u |}.

(** [db.run('UPDATE users SET is_active = ? WHERE bitrix_id = ?')]. *)
Definition setUserActive (a : Z) (userId : string) : M World unit :=
  statement;;
  modify (fun w =>
    set_users
      (map (fun u => if has_bitrix_id userId u then set_is_active a u else u)
           (users w)) w).

(** ASCII case folding, as SQLite's [LIKE] applies it. *)
Definition fold_case (c : ascii) : ascii :=
  let n := nat_of_ascii c in
  if (65 <=? n)%nat && (n <=? 90)%nat then ascii_of_nat (n + 32) else c.

Definition is_continuation (c : ascii) : bool :=
  let n := nat_of_ascii c in (128 <=? n)%nat && (n <=? 191)%nat.

Fixpoint skip_continuation (s : string) : string :=
  match s with
  | String c rest => if is_continuation c then skip_continuation rest else s
  | EmptyString => ""
  end.

(** SQLite's [text LIKE pattern] on UTF-8 texts: [%] stands for any
    sequence of characters, [_] for one character, letters of ASCII
    match without regard to case. *)
Fixpoint like (pattern text : string) {struct pattern} : bool :=
  match pattern with
  | EmptyString =>
      match text with EmptyString => true | String _ _ => false end
  | String c pattern' =>
      if Ascii.eqb c "%" then
        (fix any (t : string) : bool :=
           like pattern' t ||
           match t with
           | String _ t' => any t'
           | EmptyString => false
           end) text
      else if Ascii.eqb c "_" then
        match text with
        | String _ t' => like pattern' (skip_continuation t')
        | EmptyString => false
        end
      else
        match text with
        | String d t' => Ascii.eqb (fold_case c) (fold_case d) && like pattern' t'
        | EmptyString => false
        end
  end.

(** [column LIKE ?] on a nullable column. *)
Definition column_like (pattern : string) (column : option string) : bool :=
  match column with
  | Some text => like pattern text
  | None => false
  end.

End WithEnv.
End Database.

(** ** functions/bot.js *)

Module Bot.
Import Eff Bitrix.
Local Open Scope eff_scope.

Section WithEnv.
Variable env : Env.
Variable cfg : Config.t.

Definition loadBotId : M World (option string) :=
  let* botConfig := Database.getActiveBotConfig env in
  if Js.truthy botConfig then
    modify (set_botId botConfig);;
    ret botConfig
  else if Js.truthy (Config.bitrix_botId cfg) then
    modify (set_botId (Config.bitrix_botId cfg));;
    ret (Config.bitrix_botId cfg)
  else ret None.

(** The connection itself is the platform's business; what matters
    here is whether the [server.time] probe throws. *)
Definition initialize : M World bool :=
  let* w := get in
  if isInitialized w then ret true
  else
    try_catch
      ((match server_time_fault env with
        | Some e => throw e
        | None => ret tt
        end);;
       loadBotId;;
       modify (set_isInitialized true);;
       ret true)
      (fun e => throw e).

(** [this.$b24.callMethod('imbot.message.add', params)]. *)
Definition callMethod (params : MessageParams) : M World Z :=
  fun w =>
    let n := net_seq w in
    let t := (clock w + Z.of_N (net_latency env n))%Z in
    let reply := b24_callMethod env n params in
    let w' :=
      set_trace (trace w ++ [EvCall params t reply])
        (set_clock t (set_net_seq (S n) w)) in
    match reply with
    | Data messageId => (Normal messageId, w')
    | Fault e => (Abrupt e, w')
    end.

(** [sendMessage(userId, message, { keyboard })]; the result is the
    message id, or [undefined] when the platform answered with a
    falsy payload. *)
Definition sendMessage (userId message : string)
    (keyboard : option Keyboard) : M World (option Z) :=
  let* w := get in
  if negb (Js.truthy (botId w)) then
    throw "Бот не инициализирован. ID бота отсутствует."
  else
    try_catch
      (let params :=
         {| BOT_ID := default "" (botId w); DIALOG_ID := userId;
            MESSAGE := message; KEYBOARD := keyboard |} in
       let* messageId := callMethod params in
       if negb (messageId =? 0)%Z then
         Database.saveMessageHistory env userId message "sent" None;;
         ret (Some messageId)
       else ret None)
      (fun e =>
         Database.saveMessageHistory env userId message "error" (Some e);;
         throw e).

(** [sendMessage(userId, text)], as [handleCommand] calls it. *)
Definition reply_to (userId text : string) : M World unit :=
  sendMessage userId text None;;
  ret tt.

Definition handleCommand (command params userId : string) : M World unit :=
  if String.eqb command "thanks" then
    reply_to userId "Всегда пожалуйста! 😊 Хорошего дня!"
  else if String.eqb command "tasks" then
    reply_to userId "Загружаю ваши задачи на сегодня...";;
    reply_to userId
      ("📋 Ваши задачи на сегодня:" ++ Js.nl ++ "1. Проверить почту" ++ Js.nl ++
       "2. Подготовить отчёт" ++ Js.nl ++ "3. Созвон с командой")
  else if String.eqb command "help" then
    reply_to userId
      ("Я бот для утренних приветствий! 🤖" ++ Js.nl ++ Js.nl ++
       "Каждое утро в рабочие дни я буду отправлять вам приветствие и полезный совет." ++
       Js.nl ++ Js.nl ++
       "Доступные команды:" ++ Js.nl ++
       "/help - эта справка" ++ Js.nl ++
       "/stop - отписаться от рассылки" ++ Js.nl ++
       "/start - подписаться на рассылку" ++ Js.nl ++
       "/status - проверить статус подписки")
  else if String.eqb command "stop" then
    Database.setUserActive env 0 userId;;
    reply_to userId
      "✅ Вы отписались от утренних приветствий. Чтобы подписаться снова, используйте команду /start"
  else if String.eqb command "start" then
    Database.setUserActive env 1 userId;;
    reply_to userId
      "✅ Вы подписались на утренние приветствия! Увидимся завтра утром! 🌅"
  else if String.eqb command "status" then
    let* user := Database.getUserByBitrixId env userId in
    match user with
    | Some u =>
        if negb (u_is_active u =? 0)%Z then
          reply_to userId "✅ Вы подписаны на утренние приветствия"
        else
          reply_to userId
            "❌ Вы не подписаны на утренние приветствия. Используйте /start для подписки"
    | None =>
        reply_to userId
          "❌ Вы не подписаны на утренние приветствия. Используйте /start для подписки"
    end
  else
    reply_to userId "Неизвестная команда. Используйте /help для справки".

End WithEnv.
End Bot.

(** ** functions/users.js *)

Module Users.
Import Eff.
Local Open Scope eff_scope.

Definition getActiveUsersForGreeting (env : Env) : M World (list UserRow) :=
  try_catch
    (let* users := Database.getUsersForMorningGreeting env in
     ret users)
    (fun e => throw e).

(** A user as [user.get] of the platform returns it. *)
Inductive Department : Type :=
| DepartmentList (ids : list Z)
| DepartmentValue (value : option string).

Record BitrixUser : Type := {
  ID : string;
  NAME : option string;
  LAST_NAME : option string;
  EMAIL : option string;
  WORK_POSITION : option string;
  UF_DEPARTMENT : Department;
  ACTIVE : bool
}.

(** The answer of [user.get]: the list of users, or a thrown error. *)
Inductive UserGetReply : Type :=
| UserList (data : list BitrixUser)
| UserGetFault (message : string).

(** [user.EMAIL?.includes(part)], read as a condition. *)
Definition email_includes (part : string) (user : BitrixUser) : bool :=
  match EMAIL user with
  | Some email => Js.includes part email
  | None => false
  end.

(** The filter of [fetchUsersFromBitrix]. *)
Definition is_employee (user : BitrixUser) : bool :=
  negb (email_includes "no-reply@" user) &&
  negb (email_includes "bot@" user) &&
  negb (email_includes "system@" user) &&
  ACTIVE user &&
  negb (String.eqb (ID user) "0").

(** [x || ''] on a possibly-null string. *)
Definition or_empty (x : option string) : string :=
  default "" (Js.or_else x (Some "")).

(** The profile [syncUsers] saves for a platform user. *)
Definition profile_of (user : BitrixUser) : Database.UserData :=
  {| Database.d_bitrix_id := ID user;
     Database.d_name :=
       Js.or_else
         (Some (Js.trim (or_empty (NAME user) ++ " " ++ or_empty (LAST_NAME user))))
         (Some "Пользователь");
     Database.d_first_name := Some (or_empty (NAME user));
     Database.d_last_name := Some (or_empty (LAST_NAME user));
     Database.d_email := Some (or_empty (EMAIL user));
     Database.d_work_position := Some (or_empty (WORK_POSITION user));
     Database.d_department :=
       Some (match UF_DEPARTMENT user with
             | DepartmentList ids => Js.join "," (map Js.string_of_int ids)
             | DepartmentValue v => or_empty v
             end) |}.

(** The object [syncUsers] returns. *)
Record SyncResult : Type := {
  sync_total : nat;
  synced : nat;
  sync_errors : nat
}.

(** The fields [updateUser] may be given; [None] is a field left
    [undefined]. *)
Record Updates : Type := {
  up_name : option (option string);
  up_is_active : option bool;
  up_email : option (option string);
  up_work_position : option (option string)
}.

Definition no_updates (updates : Updates) : bool :=
  match up_name updates, up_is_active updates, up_email updates,
        up_work_position updates with
  | None, None, None, None => true
  | _, _, _, _ => false
  end.

Definition apply_updates (updates : Updates) (now : Z) (u : UserRow) : UserRow :=
  {| u_id := u_id u; u_bitrix_id := u_bitrix_id u;
     u_name := default (u_name u) (up_name updates);
     u_first_name := u_first_name u; u_last_name := u_last_name u;
     u_email := default (u_email u) (up_email updates);
     u_work_position := default (u_work_position u) (up_work_position updates);
     u_department := u_department u;
     u_is_active :=
       match up_is_active updates with
       | Some true => 1
       | Some false => 0
       | None => u_is_active u
       end%Z;
     u_last_greeting_sent := u_last_greeting_sent u;
     u_created_at := u_created_at u; u_updated_at := now |}.

Section WithEnv.
Variable env : Env.
Variable cfg : Config.t.

Definition fetchUsersFromBitrix (reply : UserGetReply)
  : M World (list BitrixUser) :=
  try_catch
    (Bot.initialize env cfg;;
     match reply with
     | UserGetFault e => throw e
     | UserList users => ret (List.filter is_employee users)
     end)
    (fun e => throw e).

(** The loop of [syncUsers]. *)
Fixpoint sync_each (bitrixUsers : list BitrixUser) (synced errors : nat)
  : M World (nat * nat) :=
  match bitrixUsers with
  | [] => ret (synced, errors)
  | user :: rest =>
      let* saved :=
        try_catch
          (Database.saveUser env (profile_of user);;
           ret true)
          (fun _ => ret false) in
      if saved then sync_each rest (S synced) errors
      else sync_each rest synced (S errors)
  end.

Definition syncUsers (reply : UserGetReply) : M World SyncResult :=
  try_catch
    (let* bitrixUsers := fetchUsersFromBitrix reply in
     let* counts := sync_each bitrixUsers 0 0 in
     ret {| sync_total := length bitrixUsers; synced := fst counts;
            sync_errors := snd counts |})
    (fun e => throw e).

Definition updateUser (userId : string) (updates : Updates) : M World bool :=
  try_catch
    (if no_updates updates then ret false
     else
       Database.statement env;;
       modify (fun w =>
         set_users
           (map (fun u =>
                   if Database.has_bitrix_id userId u
                   then apply_updates updates (Database.CURRENT_TIMESTAMP w) u
                   else u)
                (users w)) w);;
       ret true)
    (fun e => throw e).

Definition findUserById (userId : string) : M World (option UserRow) :=
  try_catch (Database.getUserByBitrixId env userId) (fun e => throw e).

End WithEnv.

End Users.

(** ** functions/greetings.js *)

Module Greetings.
Import Eff Bitrix.
Local Open Scope eff_scope.

(** One entry of [results.details]. *)
Record Detail : Type := {
  success : bool;
  userId : string;
  error : option string
}.

(** The object [sendMorningGreetings] returns; [details] is absent
    from the object returned when there is nobody to greet. *)
Record Results : Type := {
  total : nat;
  sent : nat;
  errors : nat;
  details : option (list Detail)
}.

Definition generateKeyboard : Keyboard :=
  [ [ {| TEXT := "👍 Спасибо!"; COMMAND := "thanks";
         COMMAND_PARAMS := "morning"; BG_COLOR := "#29619b";
         TEXT_COLOR := "#ffffff" |};
      {| TEXT := "📅 Мои задачи"; COMMAND := "tasks";
         COMMAND_PARAMS := "today"; BG_COLOR := "#2a9b05";
         TEXT_COLOR := "#ffffff" |} ];
    [ {| TEXT := "❓ Помощь"; COMMAND := "help";
         COMMAND_PARAMS := ""; BG_COLOR := "#555555";
         TEXT_COLOR := "#ffffff" |} ] ].

(** The [MM-DD] key [generateGreeting] looks up in [holidays]. *)
Definition monthDay (today : JsDate) : string :=
  Js.padStart 2 "0" (Js.string_of_int (getMonth today + 1)) ++ "-" ++
  Js.padStart 2 "0" (Js.string_of_int (getDate today)).

(** [Math.floor(r * xs.length)]. *)
Definition random_index {A : Type} (r : Q) (xs : list A) : Z :=
  Qfloor (r * inject_Z (Z.of_nat (length xs))).

Section WithEnv.
Variable env : Env.
Variable cfg : Config.t.

(** [new Date()] read through the local-time accessors. *)
Definition today_local : M World JsDate :=
  let* w := get in
  ret (local_date env (clock w)).

(** [Math.random()]. *)
Definition math_random : M World Q :=
  fun w =>
    let n := rng_seq w in
    (Normal (random env n), set_rng_seq (S n) w).

Definition generateGreeting (userName : string) : M World string :=
  let* today := today_local in
  let holiday := Config.holidays (Config.messages cfg) !! monthDay today in
  if Js.truthy holiday then
    ret (Js.replace "{name}" userName (default "" holiday))
  else
    let greetings := Config.greetings (Config.messages cfg) in
    let* r1 := math_random in
    let randomGreeting := Js.index greetings (random_index r1 greetings) in
    let tips := Config.tips (Config.messages cfg) in
    let* r2 := math_random in
    let randomTip := Js.index tips (random_index r2 tips) in
    match randomGreeting with
    | None =>
        throw "Cannot read properties of undefined (reading 'replace')"
    | Some g =>
        let greeting := Js.replace "{name}" userName g in
        ret (greeting ++ Js.nl ++ Js.nl ++ default "undefined" randomTip)
    end.

(** [user.name || user.first_name || 'Коллега']. *)
Definition userName_of (user : UserRow) : string :=
  default "Коллега"
    (Js.or_else (Js.or_else (u_name user) (u_first_name user))
                (Some "Коллега")).

Definition sendGreetingToUser (user : UserRow) : M World Detail :=
  try_catch
    (let userName := userName_of user in
     let* message := generateGreeting userName in
     let keyboard := generateKeyboard in
     Bot.sendMessage env (u_bitrix_id user) message (Some keyboard);;
     Database.updateLastGreeting env (u_bitrix_id user);;
     ret {| success := true; userId := u_bitrix_id user; error := None |})
    (fun e =>
       ret {| success := false; userId := u_bitrix_id user;
              error := Some e |}).

(** [await new Promise(resolve => setTimeout(resolve, ms))]. *)
Definition sleep (ms : Z) : M World unit :=
  modify (fun w =>
    set_trace (trace w ++ [EvSleep ms])
      (set_clock (clock w + Z.max ms 0)%Z w)).

(** [results.details.push(result)] and the two counters. *)
Definition record_result (results : Results) (result : Detail) : Results :=
  {| total := total results;
     sent := if success result then S (sent results) else sent results;
     errors := if success result then errors results
               else S (errors results);
     details := Some (default [] (details results) ++ [result])%list |}.

(** The inner loop, [for (const user of batch)]. *)
Fixpoint send_batch (batch : list UserRow) (results : Results)
  : M World Results :=
  match batch with
  | [] => ret results
  | user :: rest =>
      let* result := sendGreetingToUser user in
      let results := record_result results result in
      (if (0 <? Config.delayBetweenMessages (Config.bot cfg))%Z
       then sleep (Config.delayBetweenMessages (Config.bot cfg))
       else ret tt);;
      send_batch rest results
  end.

(** [users.slice(i, j)] for [0 <= i <= j]. *)
Definition slice {A : Type} (i j : nat) (xs : list A) : list A :=
  take (j - i) (drop i xs).

(** The outer loop, [for (let i = 0; i < users.length; i += batchSize)],
    entered at index [i]. *)
Fixpoint batch_loop (fuel : nat) (users : list UserRow) (i : nat)
    (results : Results) : M World Results :=
  match fuel with
  | O => diverge
  | S fuel' =>
      let batchSize := Pos.to_nat (Config.maxUsersPerBatch (Config.bot cfg)) in
      let delay := Config.delayBetweenMessages (Config.bot cfg) in
      if (i <? length users)%nat then
        let batch := slice i (i + batchSize) users in
        let* results := send_batch batch results in
        (if (i + batchSize <? length users)%nat
         then sleep (delay * 2)
         else ret tt);;
        batch_loop fuel' users (i + batchSize) results
      else ret results
  end.

(** The loop of [saveGreetingStats]. *)
Fixpoint save_errors (ds : list Detail) : M World unit :=
  match ds with
  | [] => ret tt
  | detail :: rest =>
      (if negb (success detail) && Js.truthy (error detail) then
         Database.saveMessageHistory env (userId detail)
           "Morning greeting" "error" (error detail)
       else ret tt);;
      save_errors rest
  end.

Definition saveGreetingStats (results : Results) : M World unit :=
  try_catch
    (match details results with
     | Some ds => save_errors ds
     | None => throw "results.details is not iterable"
     end)
    (fun _ => ret tt).

(** The body of [sendMorningGreetings] once the recipients are
    known: the early return, the batches, the statistics. *)
Definition dispatch (users : list UserRow) : M World Results :=
  if (length users =? 0)%nat then
    ret {| total := 0; sent := 0; errors := 0; details := None |}
  else
    let results :=
      {| total := length users; sent := 0; errors := 0;
         details := Some [] |} in
    let* results := batch_loop (S (length users)) users 0 results in
    saveGreetingStats results;;
    ret results.

Definition sendMorningGreetings : M World Results :=
  try_catch
    (Bot.initialize env cfg;;
     let* w := get in
     if negb (Js.truthy (botId w)) then
       throw "Бот не зарегистрирован. Необходима регистрация бота."
     else
       let* users := Users.getActiveUsersForGreeting env in
       dispatch users)
    (fun e => throw e).

(** The object [sendTestGreeting] returns. *)
Record TestResult : Type := {
  test_userId : string;
  test_userName : string;
  test_message : string
}.

Definition sendTestGreeting (userId : string) (customMessage : option string)
  : M World TestResult :=
  try_catch
    (Bot.initialize env cfg;;
     let* w := get in
     if negb (Js.truthy (botId w)) then
       throw "Бот не зарегистрирован"
     else
       let* user := Database.getUserByBitrixId env userId in
       match user with
       | None =>
           throw ("Пользователь " ++ userId ++ " не найден в базе данных")
       | Some user =>
           let userName := userName_of user in
           let* message :=
             if Js.truthy customMessage then ret (default "" customMessage)
             else generateGreeting userName in
           let keyboard := generateKeyboard in
           Bot.sendMessage env userId message (Some keyboard);;
           ret {| test_userId := userId; test_userName := userName;
                  test_message := message |}
       end)
    (fun e => throw e).

(** The filter [sendBroadcastMessage] may be given. *)
Record UserFilter : Type := {
  f_department : option string;
  f_position : option string
}.

(** The [WHERE] clause [sendBroadcastMessage] assembles. *)
Definition where_broadcast (userFilter : option UserFilter) (u : UserRow)
  : bool :=
  (u_is_active u =? 1)%Z &&
  match userFilter with
  | None => true
  | Some f =>
      (if Js.truthy (f_department f)
       then Database.column_like
              ("%" ++ default "" (f_department f) ++ "%") (u_department u)
       else true) &&
      (if Js.truthy (f_position f)
       then Database.column_like
              ("%" ++ default "" (f_position f) ++ "%") (u_work_position u)
       else true)
  end.

(** The object [sendBroadcastMessage] returns. *)
Record BroadcastResult : Type := {
  b_total : nat;
  b_sent : nat;
  b_errors : nat
}.

(** The loop of [sendBroadcastMessage]. *)
Fixpoint broadcast_each (message : string) (users : list UserRow)
    (sent errors : nat) : M World (nat * nat) :=
  match users with
  | [] => ret (sent, errors)
  | user :: rest =>
      let* delivered :=
        try_catch
          (Bot.sendMessage env (u_bitrix_id user) message None;;
           sleep (Config.delayBetweenMessages (Config.bot cfg));;
           ret true)
          (fun _ => ret false) in
      if delivered then broadcast_each message rest (S sent) errors
      else broadcast_each message rest sent (S errors)
  end.

Definition sendBroadcastMessage (message : string)
    (userFilter : option UserFilter) : M World BroadcastResult :=
  try_catch
    (Bot.initialize env cfg;;
     let* w := get in
     if negb (Js.truthy (botId w)) then
       throw "Бот не зарегистрирован"
     else
       Database.statement env;;
       let* w := get in
       let users := List.filter (where_broadcast userFilter) (users w) in
       let* counts := broadcast_each message users 0 0 in
       ret {| b_total := length users; b_sent := fst counts;
              b_errors := snd counts |})
    (fun e => throw e).

End WithEnv.
End Greetings.

(** ** The cron library *)

Module Cron.
Import Eff.
Local Open Scope eff_scope.
Local Open Scope Z_scope.

(** The day-of-week field of a pattern: [*] or a comma-separated list. *)
Inductive DayField : Type :=
| AnyDay
| DayList (tokens : list Js.num).

(** The patterns the scheduler builds, [`${minute} ${hour} * * ${days}`],
    kept in parsed form: day of month and month are always [*]. *)
Record Expr : Type := {
  e_minute : Z;
  e_hour : Z;
  e_days : DayField
}.

(** The closures handed to [scheduleJob]. *)
Inductive Handler : Type :=
| MorningGreetingTask
| MorningGreetingFromConfigTask
| UserSyncTask
| LogCleanupTask.

(** A task object returned by [cron.schedule]. [t_label] is not a
    field of the object: it records the scheduler name the task was
    created for, so that statements can speak of "the triggers of a
    name". *)
Record Task : Type := {
  t_label : string;
  t_expr : Expr;
  t_handler : Handler;
  t_timezone : string;
  t_running : bool
}.

Definition set_running (b : bool) (t : Task) : Task :=
  {| t_label := t_label t; t_expr := t_expr t; t_handler := t_handler t;
     t_timezone := t_timezone t; t_running := b |}.

(** A wall-clock minute in the task's time zone. *)
Record WallClock : Type := {
  w_minute : Z;
  w_hour : Z;
  w_weekday : Z
}.

Definition is_weekday (n : Js.num) : bool :=
  match n with
  | Js.Int z => (0 <=? z) && (z <=? 6)
  | Js.NaN => false
  end.

(** Modelled from the spec: the pattern check of the cron library
    ([cron.schedule] of node-cron), which is not part of the
    repository. A definition is rejected when [hour] is outside 0-23,
    [minute] is outside 0-59, or the days of the week are empty; days
    are integers 0-6. *)
Definition valid (e : Expr) : bool :=
  (0 <=? e_hour e) && (e_hour e <=? 23) &&
  (0 <=? e_minute e) && (e_minute e <=? 59) &&
  match e_days e with
  | AnyDay => true
  | DayList tokens =>
      negb (bool_decide (tokens = [])) && forallb is_weekday tokens
  end.

#[global] Instance num_eq_dec : EqDecision Js.num.
Proof. solve_decision. Defined.

(** Modelled from the spec: when an occurrence is due, namely at the
    wall-clock [hour:minute] on a weekday of the definition. *)
Definition matches (e : Expr) (now : WallClock) : bool :=
  (w_minute now =? e_minute e) && (w_hour now =? e_hour e) &&
  match e_days e with
  | AnyDay => true
  | DayList tokens => bool_decide (Js.Int (w_weekday now) ∈ tokens)
  end.

Definition InvalidSchedule : string := "InvalidSchedule".

Section Library.
(** The library's task objects live in a store of the client's
    state [S]; a task is referred to by its position there. *)
Context {S : Type}.
Variable tasks : S -> list Task.
Variable set_tasks : list Task -> S -> S.

(** Modelled from the spec: [cron.schedule(expression, handler,
    { scheduled: true, timezone })] of the cron library, which is not
    part of the repository. A definition that passes the check yields a
    new trigger object, live at once; any other fails with
    [InvalidSchedule] and creates nothing. *)
Definition schedule (label : string) (e : Expr) (handler : Handler)
    (timezone : string) : M S nat :=
  if valid e then
    let* s := get in
    let job := length (tasks s) in
    modify (set_tasks
              (tasks s ++ [{| t_label := label; t_expr := e;
                              t_handler := handler;
                              t_timezone := timezone;
                              t_running := true |}]));;
    ret job
  else throw InvalidSchedule.

(** Modelled from the spec: [job.stop()] of the cron library cancels the
    future firings of that trigger object, and is idempotent. *)
Definition stop (job : nat) : M S unit :=
  modify (fun s => set_tasks (alter (set_running false) job (tasks s)) s).

(** Modelled from the spec: what the cron library invokes when a
    wall-clock minute elapses, namely the handler of every live trigger
    object whose occurrence is due, once each; the task's label is kept
    with it. *)
Definition due (s : S) (now : WallClock) : list (string * Handler) :=
  map (fun t => (t_label t, t_handler t))
      (List.filter (fun t => t_running t && matches (t_expr t) now)
                   (tasks s)).
End Library.
End Cron.

(** ** utils/scheduler.js *)

Module Scheduler.
Import Eff Cron.
Local Open Scope eff_scope.
Local Open Scope Z_scope.

(** The row of [schedule_settings] for one schedule type. *)
Record Settings : Type := {
  s_hour : Z;
  s_minute : Z;
  s_days_of_week : option string;
  s_timezone : option string;
  s_is_active : Z
}.

(** The scheduler object ([jobs], [isRunning]), the task objects of
    the cron library, the [morning_greeting] row of the settings
    table, and the log of handler invocations. *)
Record State : Type := {
  jobs : gmap string nat;
  isRunning : bool;
  tasks : list Task;
  schedule_settings : option Settings;
  invoked : list (string * Handler)
}.

Definition set_jobs (j : gmap string nat) (s : State) : State :=
  {| jobs := j; isRunning := isRunning s; tasks := tasks s;
     schedule_settings := schedule_settings s; invoked := invoked s |}.

Definition set_isRunning (b : bool) (s : State) : State :=
  {| jobs := jobs s; isRunning := b; tasks := tasks s;
     schedule_settings := schedule_settings s; invoked := invoked s |}.

Definition set_tasks (ts : list Task) (s : State) : State :=
  {| jobs := jobs s; isRunning := isRunning s; tasks := ts;
     schedule_settings := schedule_settings s; invoked := invoked s |}.

Definition set_schedule_settings (r : option Settings) (s : State) : State :=
  {| jobs := jobs s; isRunning := isRunning s; tasks := tasks s;
     schedule_settings := r; invoked := invoked s |}.

Definition set_invoked (l : list (string * Handler)) (s : State) : State :=
  {| jobs := jobs s; isRunning := isRunning s; tasks := tasks s;
     schedule_settings := schedule_settings s; invoked := l |}.

(** [new Scheduler()]. *)
Definition init (row : option Settings) : State :=
  {| jobs := ∅; isRunning := false; tasks := [];
     schedule_settings := row; invoked := [] |}.

(** [database.getScheduleSettings()]: the row, when it is active. *)
Definition getScheduleSettings : M State (option Settings) :=
  let* s := get in
  ret (match schedule_settings s with
       | Some row => if s_is_active row =? 1 then Some row else None
       | None => None
       end).

Section WithConfig.
Variable cfg : Config.t.

Definition timezone : string :=
  Config.timezone (Config.schedule_morningGreeting cfg).

(** [scheduleJob(name, cronExpression, handler)]. The look-ahead
    [getNextRunTime] that follows only logs and is left out. *)
Definition scheduleJob (name : string) (cronExpression : Expr)
    (handler : Handler) : M State unit :=
  let* s := get in
  (match jobs s !! name with
   | Some job => stop tasks set_tasks job
   | None => ret tt
   end);;
  let* job := schedule tasks set_tasks name cronExpression handler timezone in
  modify (fun s => set_jobs (<[name := job]> (jobs s)) s).

Definition scheduleMorningGreeting (settings : Settings) : M State unit :=
  match s_days_of_week settings with
  | None => throw "Cannot read properties of null (reading 'split')"
  | Some days_of_week =>
      let daysArray :=
        map (fun d => Js.parseInt (Js.trim d)) (Js.split "," days_of_week) in
      let cronExpression :=
        {| e_minute := s_minute settings; e_hour := s_hour settings;
           e_days := DayList daysArray |} in
      scheduleJob "morning_greeting" cronExpression MorningGreetingTask
  end.

Definition scheduleMorningGreetingFromConfig : M State unit :=
  let mg := Config.schedule_morningGreeting cfg in
  let cronExpression :=
    {| e_minute := Config.minute mg; e_hour := Config.hour mg;
       e_days := DayList (Config.daysOfWeek mg) |} in
  scheduleJob "morning_greeting" cronExpression MorningGreetingFromConfigTask.

Definition start : M State unit :=
  let* s := get in
  if isRunning s then ret tt
  else
    modify (set_isRunning true);;
    let* scheduleSettings := getScheduleSettings in
    match scheduleSettings with
    | Some row => scheduleMorningGreeting row
    | None => scheduleMorningGreetingFromConfig
    end.

(** ['0 2 * * *']. *)
Definition scheduleDailyUserSync : M State unit :=
  scheduleJob "user_sync"
    {| e_minute := 0; e_hour := 2; e_days := AnyDay |} UserSyncTask.

(** ['0 3 * * 0']. *)
Definition scheduleLogCleanup : M State unit :=
  scheduleJob "log_cleanup"
    {| e_minute := 0; e_hour := 3; e_days := DayList [Js.Int 0] |}
    LogCleanupTask.

End WithConfig.

(** [runJob(name)]: [job.now()] runs the handler at once. *)
Definition runJob (name : string) : M State unit :=
  let* s := get in
  match jobs s !! name with
  | Some job =>
      match tasks s !! job with
      | Some t =>
          modify (fun s => set_invoked (invoked s ++ [(name, t_handler t)]) s)
      | None => ret tt
      end
  | None => ret tt
  end.

Definition stopJob (name : string) : M State unit :=
  let* s := get in
  match jobs s !! name with
  | Some job =>
      stop tasks set_tasks job;;
      modify (fun s => set_jobs (delete name (jobs s)) s)
  | None => ret tt
  end.

Fixpoint stop_each (js : list (string * nat)) : M State unit :=
  match js with
  | [] => ret tt
  | (_, job) :: rest => stop tasks set_tasks job;; stop_each rest
  end.

Definition stopAll : M State unit :=
  let* s := get in
  stop_each (map_to_list (jobs s));;
  modify (set_jobs ∅);;
  modify (set_isRunning false).

(** A wall-clock minute elapses: the library invokes what is due. *)
Definition tick (now : WallClock) : M State unit :=
  modify (fun s => set_invoked (invoked s ++ due tasks s now) s).

End Scheduler.

(** ** index.js: the schedule route and the webhook *)

Module Api.
Import Eff Cron Scheduler.
Local Open Scope eff_scope.

(** The body of [PUT /api/schedule]. *)
Record ScheduleBody : Type := {
  b_hour : Z;
  b_minute : Z;
  b_days_of_week : option string;
  b_timezone : option string
}.

Inductive Response : Type :=
| Success (settings : Settings)
| Status500 (error : string).

(** [UPDATE schedule_settings SET hour = ?, ... WHERE schedule_type =
    'morning_greeting']. *)
Definition update_settings (body : ScheduleBody) (row : Settings) : Settings :=
  {| s_hour := b_hour body; s_minute := b_minute body;
     s_days_of_week := b_days_of_week body;
     s_timezone := b_timezone body;
     s_is_active := s_is_active row |}.

Definition put_schedule (cfg : Config.t) (body : ScheduleBody)
  : M State Response :=
  try_catch
    (modify (fun s =>
       set_schedule_settings
         (update_settings body <$> schedule_settings s) s);;
     stopJob "morning_greeting";;
     let* settings := getScheduleSettings in
     match settings with
     | Some row =>
         scheduleMorningGreeting cfg row;;
         ret (Success row)
     | None =>
         throw "Cannot destructure property 'hour' of 'settings' as it is undefined."
     end)
    (fun e => ret (Status500 e)).

(** The text-command branch of the webhook ([ONIMBOTMESSAGEADD]): a
    message that starts with [/] is split at spaces into the command
    (the first piece without its slash) and its parameters (the other
    pieces, joined by spaces again). *)
Definition text_command (MESSAGE : string) : option (string * string) :=
  if Js.startsWith "/" MESSAGE then
    let parts := Js.split " " MESSAGE in
    let command := Js.drop_str 1 (default "" (head parts)) in
    let params := Js.join " " (tail parts) in
    Some (command, params)
  else None.

(** The webhook on [ONIMBOTMESSAGEADD]: the answer is [200] with
    [success: true], or [500] with the error's message. *)
Inductive WebhookResponse : Type :=
| WebhookOk
| WebhookError (error : string).

Definition onBotMessageAdd (env : Env) (MESSAGE FROM_USER_ID : string)
  : M World WebhookResponse :=
  try_catch
    (match text_command MESSAGE with
     | Some (command, params) =>
         Bot.handleCommand env command params FROM_USER_ID
     | None => ret tt
     end;;
     ret WebhookOk)
    (fun e => ret (WebhookError e)).

(** The webhook on [ONIMBOTJOINCHAT]: the bot greets the chat it was
    added to. *)
Definition onBotJoinChat (env : Env) (CHAT_ID : string)
  : M World WebhookResponse :=
  try_catch
    (Bot.sendMessage env ("chat" ++ CHAT_ID)
       "Привет! Я бот для утренних приветствий. Используйте /help для получения справки."
       None;;
     ret WebhookOk)
    (fun e => ret (WebhookError e)).

End Api.

(* ================================================================== *)
(** * Part II: properties *)
(* ================================================================== *)

Import Eff Bitrix.
Local Open Scope Z_scope.
Local Open Scope list_scope.

(** Unfolding one recipient's processing down to the primitives, and
    splitting on every branch it takes. *)
Ltac unfold_step :=
  unfold Greetings.sendGreetingToUser, Greetings.generateGreeting,
    Greetings.today_local, Greetings.math_random, Bot.sendMessage,
    Bot.callMethod, Database.updateLastGreeting, Database.saveMessageHistory,
    Database.statement, try_catch, bind, get, ret, throw, modify in *.

Ltac split_cases := repeat (case_match; simpl in *; simplify_eq).

(** ** The message composer *)

(** An environment whose random source yields 0, 1/10, 2/10, ... and whose
    host calendar always reads 14 June. *)
Definition sample_env : Env := {|
  b24_callMethod := fun _ _ => Data 1;
  net_latency := fun _ => 0%N;
  db_fault := fun _ => None;
  random := fun n => Z.of_nat n # 10;
  local_date := fun _ => {| getMonth := 5; getDate := 14 |};
  server_time_fault := None
|}.

(** As [sample_env], on New Year's Day. *)
Definition new_year_env : Env := {|
  b24_callMethod := fun _ _ => Data 1;
  net_latency := fun _ => 0%N;
  db_fault := fun _ => None;
  random := fun n => Z.of_nat n # 10;
  local_date := fun _ => {| getMonth := 0; getDate := 1 |};
  server_time_fault := None
|}.

Definition empty_world : World := {|
  clock := 1704175200000;
  rng_seq := 0; net_seq := 0; db_seq := 0;
  botId := Some "42"; isInitialized := true; bot_config := Some "42";
  users := []; message_history := []; trace := []
|}.

(** The composer claim: whatever the state of the program, two
    invocations with the same name on the same date yield the same
    text. (The keyboard is a constant of the program: [generateKeyboard]
    takes no argument and reads nothing.) *)
Definition composer_deterministic (cfg : Config.t) : Prop :=
  forall (env : Env) (w1 w2 : World) (userName : string),
    local_date env (clock w1) = local_date env (clock w2) ->
    fst (Greetings.generateGreeting env cfg userName w1) =
    fst (Greetings.generateGreeting env cfg userName w2).

Lemma generateGreeting_second_call_differs :
  let w1 := empty_world in
  let w2 := snd (Greetings.generateGreeting sample_env Config.default "Анна" w1) in
  local_date sample_env (clock w1) = local_date sample_env (clock w2) /\
  fst (Greetings.generateGreeting sample_env Config.default "Анна" w1) <>
  fst (Greetings.generateGreeting sample_env Config.default "Анна" w2).
Proof.
  split; [reflexivity|].
  vm_compute. intros H. discriminate H.
Qed.

(** C8, as stated, fails: on an ordinary day the text depends on two
    random draws, so the second of two successive invocations for the
    same name differs from the first. *)
Lemma composer_not_deterministic : ~ composer_deterministic Config.default.
Proof.
  intros H.
  destruct generateGreeting_second_call_differs as [Hdate Hne].
  apply Hne. apply H. exact Hdate.
Qed.

(** C8, amended: the text is determined by the name, the date and, on a
    date without an entry in the holiday table, by the greeting and the
    tip the two random draws select; and every message placed for a
    recipient carries the same keyboard, the constant
    [generateKeyboard]. *)
Theorem generateGreeting_determined (cfg : Config.t) (env1 env2 : Env)
    (w1 w2 : World) (userName : string) :
  local_date env1 (clock w1) = local_date env2 (clock w2) ->
  Js.truthy (Config.holidays (Config.messages cfg)
               !! Greetings.monthDay (local_date env1 (clock w1))) = true \/
  (let gs := Config.greetings (Config.messages cfg) in
   let ts := Config.tips (Config.messages cfg) in
   Greetings.random_index (random env1 (rng_seq w1)) gs =
   Greetings.random_index (random env2 (rng_seq w2)) gs /\
   Greetings.random_index (random env1 (S (rng_seq w1))) ts =
   Greetings.random_index (random env2 (S (rng_seq w2))) ts) ->
  fst (Greetings.generateGreeting env1 cfg userName w1) =
  fst (Greetings.generateGreeting env2 cfg userName w2) /\
  forall (env : Env) (u : UserRow) (w : World),
  exists evs,
    trace (snd (Greetings.sendGreetingToUser env cfg u w)) = trace w ++ evs /\
    forall p t r, EvCall p t r ∈ evs ->
                  KEYBOARD p = Some Greetings.generateKeyboard.
Proof.
  intros Hdate Hcase. split.
  - unfold Greetings.generateGreeting, Greetings.today_local,
      Greetings.math_random, bind, get, ret, throw. simpl.
    rewrite <- Hdate.
    destruct (Js.truthy _) eqn:Hholiday; simpl; [reflexivity|].
    destruct Hcase as [Habsurd | [Hg Ht]]; [discriminate|].
    simpl in Hg, Ht. rewrite Hg, Ht.
    destruct (Js.index _ _); reflexivity.
  - intros env u w. unfold_step. simpl.
    split_cases; eexists;
      (split; [first [reflexivity | symmetry; apply app_nil_r]|]);
      intros p t r Hin;
      first [ apply list_elem_of_singleton in Hin; simplify_eq; reflexivity
            | inversion Hin ].
Qed.

Lemma generateGreeting_determined_witness :
  fst (Greetings.generateGreeting new_year_env Config.default "Анна" empty_world) =
  fst (Greetings.generateGreeting new_year_env Config.default "Анна"
         (set_rng_seq 7 empty_world)).
Proof.
  apply (generateGreeting_determined Config.default new_year_env new_year_env
           empty_world (set_rng_seq 7 empty_world) "Анна").
  - reflexivity.
  - left. vm_compute. reflexivity.
Defined.

(** ** Eligibility *)

Lemma string_leb_trans (a b c : string) :
  String.leb a b = true -> String.leb b c = true -> String.leb a c = true.
Proof.
  unfold String.leb. intros Hab Hbc.
  destruct (String.compare a b) eqn:Eab; try discriminate.
  - apply String.compare_eq_iff in Eab. subst b. exact Hbc.
  - destruct (String.compare b c) eqn:Ebc; try discriminate.
    + apply String.compare_eq_iff in Ebc. subst c. rewrite Eab. reflexivity.
    + assert (Hlt : String_as_OT.lt a c).
      { pose proof String_as_OT.lt_strorder as [_ Htrans].
        apply (Htrans a b c); [exact Eab | exact Ebc]. }
      unfold String_as_OT.lt in Hlt.
      change (String_as_OT.compare a c) with (String.compare a c) in Hlt.
      rewrite Hlt. reflexivity.
Qed.

#[local] Instance null_first_le_trans : Transitive Database.null_first_le.
Proof.
  intros [a|] [b|] [c|]; simpl; try tauto.
  apply string_leb_trans.
Qed.

#[local] Instance null_first_le_total : Total Database.null_first_le.
Proof.
  intros [a|] [b|]; simpl; try tauto.
  apply String.leb_total.
Qed.

#[local] Instance name_le_trans : Transitive Database.name_le.
Proof.
  intros u v x. unfold Database.name_le. apply null_first_le_trans.
Qed.

#[local] Instance name_le_total : Total Database.name_le.
Proof.
  intros u v. unfold Database.name_le. apply null_first_le_total.
Qed.

Lemma getActiveUsersForGreeting_run (env : Env) (w : World) :
  db_fault env (db_seq w) = None ->
  Users.getActiveUsersForGreeting env w =
    (Normal (Database.order_by_name
               (List.filter
                  (Database.where_morning_greeting (Database.toISODate (clock w)))
                  (users w))),
     set_db_seq (S (db_seq w)) w).
Proof.
  intros Hok.
  unfold Users.getActiveUsersForGreeting, Database.getUsersForMorningGreeting,
    Database.statement, try_catch, bind, get, ret. simpl.
  rewrite Hok. reflexivity.
Qed.

Lemma getActiveUsersForGreeting_fault (env : Env) (w : World) (e : string) :
  db_fault env (db_seq w) = Some e ->
  Users.getActiveUsersForGreeting env w =
    (Abrupt e, set_db_seq (S (db_seq w)) w).
Proof.
  intros Hko.
  unfold Users.getActiveUsersForGreeting, Database.getUsersForMorningGreeting,
    Database.statement, try_catch, bind, get, ret, throw. simpl.
  rewrite Hko. reflexivity.
Qed.

Lemma elem_of_order_by_name (u : UserRow) (rows : list UserRow) :
  u ∈ Database.order_by_name rows <-> u ∈ rows.
Proof.
  unfold Database.order_by_name.
  rewrite (merge_sort_Permutation Database.name_le rows). reflexivity.
Qed.

(** The calendar date (as a day number) of the UTC instant [t], in
    seconds, read in a zone [offset] seconds east of UTC. *)
Definition calendarDate (offset t : Z) : Z := (t + offset) / 86400.

(** Europe/Moscow, the default [TIMEZONE]: UTC+3 all year. *)
Definition Europe_Moscow : Z := 10800.

(** The eligibility predicate of the specification for a run at instant
    [now] (milliseconds), with dates read in the zone [offset]. *)
Definition eligible_in_zone (offset now : Z) (u : UserRow) : Prop :=
  u_is_active u = 1 /\
  match u_last_greeting_sent u with
  | None => True
  | Some t => calendarDate offset t < calendarDate offset (now / 1000)
  end.

Definition eligibility_claim (offset : Z) : Prop :=
  forall (env : Env) (w w' : World) (rows : list UserRow),
    Users.getActiveUsersForGreeting env w = (Normal rows, w') ->
    forall u, u ∈ rows <-> u ∈ users w /\ eligible_in_zone offset (clock w) u.

(** A user greeted on 2024-01-01 at 22:00 UTC, which is 01:00 on
    2 January in Moscow. *)
Definition night_owl : UserRow := {|
  u_id := 1; u_bitrix_id := "1"; u_name := Some "Анна";
  u_first_name := Some "Анна"; u_last_name := None; u_email := None;
  u_work_position := None; u_department := None;
  u_is_active := 1; u_last_greeting_sent := Some 1704146400;
  u_created_at := 1700000000; u_updated_at := 1700000000
|}.

(** 2024-01-02 06:00 UTC, that is 09:00 in Moscow. *)
Definition morning_world : World := {|
  clock := 1704175200000;
  rng_seq := 0; net_seq := 0; db_seq := 0;
  botId := Some "42"; isInitialized := true; bot_config := Some "42";
  users := [night_owl]; message_history := []; trace := []
|}.

(** C1, as stated, fails: the query compares UTC dates. A user greeted
    at 01:00 Moscow time is selected again at 09:00 the same Moscow
    day, because the two instants fall on different UTC days. *)
Lemma eligibility_not_in_configured_zone : ~ eligibility_claim Europe_Moscow.
Proof.
  intros H.
  specialize (H sample_env morning_world _ _
                (getActiveUsersForGreeting_run sample_env morning_world eq_refl)
                night_owl).
  destruct H as [H _].
  assert (Hin : night_owl ∈ Database.order_by_name
            (List.filter
               (Database.where_morning_greeting
                  (Database.toISODate (clock morning_world)))
               (users morning_world))).
  { vm_compute. apply list_elem_of_here. }
  destruct (H Hin) as [_ [_ Hdate]].
  vm_compute in Hdate. discriminate Hdate.
Qed.

(** C1, amended: the eligible set of a run is the set of rows with
    [is_active = 1] whose last greeting is absent or fell on an earlier
    UTC calendar date than the run. *)
Theorem eligible_set_utc (env : Env) (w : World) :
  db_fault env (db_seq w) = None ->
  exists rows w',
    Users.getActiveUsersForGreeting env w = (Normal rows, w') /\
    forall u, u ∈ rows <-> u ∈ users w /\ eligible_in_zone 0 (clock w) u.
Proof.
  intros Hok. eexists _, _. split.
  - apply getActiveUsersForGreeting_run. exact Hok.
  - intros u. rewrite elem_of_order_by_name.
    rewrite list_elem_of_In, filter_In, <- list_elem_of_In.
    unfold Database.where_morning_greeting, eligible_in_zone, calendarDate,
      Database.DATE, Database.toISODate.
    rewrite andb_true_iff, Z.eqb_eq.
    destruct (u_last_greeting_sent u) as [t|].
    + rewrite Z.ltb_lt, Z.add_0_r, Z.add_0_r. tauto.
    + tauto.
Qed.

Lemma eligible_set_utc_witness :
  exists rows w',
    Users.getActiveUsersForGreeting sample_env morning_world = (Normal rows, w') /\
    forall u, u ∈ rows <->
              u ∈ users morning_world /\
              eligible_in_zone 0 (clock morning_world) u.
Proof.
  apply (eligible_set_utc sample_env morning_world). reflexivity.
Defined.

(** ** The batch dispatcher *)

(** The outcome sequence of a run; the object returned for an empty run
    carries none. *)
Definition outcomes (res : Greetings.Results) : list Greetings.Detail :=
  default [] (Greetings.details res).

(** The effect of [updateLastGreeting] on the table. *)
Definition stamp (id : string) (t : Z) (rows : list UserRow) : list UserRow :=
  map (fun u => if String.eqb (u_bitrix_id u) id
                then Database.set_last_greeting_sent (Some t) u else u) rows.

(** The pauses of a trace, in order. *)
Definition pauses (evs : list Event) : list Z :=
  omap (fun ev => match ev with EvSleep ms => Some ms | EvCall _ _ _ => None end)
       evs.

(** [sendGreetingToUser] never throws and never hangs: every failure
    inside it becomes a failed outcome for that recipient. *)
Lemma sendGreetingToUser_returns (env : Env) (cfg : Config.t)
    (u : UserRow) (w : World) :
  exists d w',
    Greetings.sendGreetingToUser env cfg u w = (Normal d, w') /\
    Greetings.userId d = u_bitrix_id u.
Proof. unfold_step. simpl. split_cases; eauto. Qed.

(** What one recipient's processing does to the table and the trace. *)
Lemma sendGreetingToUser_users (env : Env) (cfg : Config.t)
    (u : UserRow) (w : World) (d : Greetings.Detail) (w' : World) :
  Greetings.sendGreetingToUser env cfg u w = (Normal d, w') ->
  (Greetings.success d = true /\
   exists p id,
     trace w' = trace w ++ [EvCall p (clock w') (Data id)] /\
     b24_callMethod env (net_seq w) p = Data id /\
     DIALOG_ID p = u_bitrix_id u /\
     users w' = stamp (u_bitrix_id u) (clock w' / 1000) (users w)) \/
  (Greetings.success d = false /\ users w' = users w /\
   exists evs, trace w' = trace w ++ evs /\ pauses evs = []).
Proof.
  unfold_step. simpl. intros H.
  split_cases;
    try (left; split; [reflexivity|]; eexists _, _;
         split; [reflexivity|]; split; [eassumption|]; split; reflexivity);
    try (right; split; [reflexivity|]; split; [reflexivity|];
         first [ exists []; rewrite app_nil_r; split; reflexivity
               | eexists; split; reflexivity ]).
Qed.

Lemma save_errors_frame (env : Env) (ds : list Greetings.Detail) (w : World) :
  exists r w',
    Greetings.save_errors env ds w = (r, w') /\ r <> Diverge /\
    users w' = users w /\ trace w' = trace w /\ clock w' = clock w.
Proof.
  revert w. induction ds as [|d ds IH]; intros w; simpl.
  - eexists _, _. split; [reflexivity|]. repeat split; discriminate.
  - unfold bind at 1.
    destruct (negb (Greetings.success d) && Js.truthy (Greetings.error d)).
    + unfold Database.saveMessageHistory, Database.statement,
        bind, get, ret, throw, modify. simpl.
      split_cases;
        try (eexists _, _; split; [reflexivity|]; repeat split; discriminate).
      match goal with
      | |- context [Greetings.save_errors env ds ?w1] =>
          destruct (IH w1) as (r & w' & Hrun & Hr & Hu & Ht & Hc)
      end.
      eexists _, _. split; [exact Hrun|]. auto.
    + unfold ret at 1.
      destruct (IH w) as (r & w' & Hrun & Hr & Hu & Ht & Hc).
      eexists _, _. split; [exact Hrun|]. auto.
Qed.

(** [saveGreetingStats] swallows its own failures; it touches neither
    the [users] table nor the clock. *)
Lemma saveGreetingStats_frame (env : Env) (res : Greetings.Results) (w : World) :
  exists w',
    Greetings.saveGreetingStats env res w = (Normal tt, w') /\
    users w' = users w /\ trace w' = trace w /\ clock w' = clock w.
Proof.
  unfold Greetings.saveGreetingStats, try_catch.
  destruct (Greetings.details res) as [ds|].
  - destruct (save_errors_frame env ds w) as (r & w' & Hrun & Hr & Hu & Ht & Hc).
    rewrite Hrun. destruct r as [[]| |]; try congruence; eauto.
  - unfold throw, ret. eauto.
Qed.

(** *** Loop invariants

    A property of (recipients processed so far, results so far, world)
    that every iteration and every pause re-establishes holds when the
    loops are done; and the loops are always done. *)
Section DispatchInvariant.
Variable env : Env.
Variable cfg : Config.t.
Variable Inv : list UserRow -> Greetings.Results -> World -> Prop.

Let batchSize := Pos.to_nat (Config.maxUsersPerBatch (Config.bot cfg)).

(** The world after the pause that follows each message. *)
Definition after_delay (w : World) : World :=
  if 0 <? Config.delayBetweenMessages (Config.bot cfg)
  then snd (Greetings.sleep (Config.delayBetweenMessages (Config.bot cfg)) w)
  else w.

Hypothesis Inv_iteration :
  forall pre res w u d w',
    Inv pre res w ->
    Greetings.sendGreetingToUser env cfg u w = (Normal d, w') ->
    Inv (pre ++ [u]) (Greetings.record_result res d) (after_delay w').

Lemma send_batch_invariant (batch pre : list UserRow)
    (res : Greetings.Results) (w : World) :
  Inv pre res w ->
  exists res' w',
    Greetings.send_batch env cfg batch res w = (Normal res', w') /\
    Inv (pre ++ batch) res' w'.
Proof.
  revert pre res w. induction batch as [|u batch IH]; intros pre res w HI.
  - simpl. rewrite app_nil_r. unfold ret. eauto.
  - simpl. unfold bind at 1.
    destruct (sendGreetingToUser_returns env cfg u w) as (d & w1 & Hstep & _).
    rewrite Hstep.
    pose proof (Inv_iteration _ _ _ _ _ _ HI Hstep) as HI'.
    unfold after_delay in HI'. unfold bind at 1.
    replace (pre ++ u :: batch) with ((pre ++ [u]) ++ batch)
      by (rewrite <- app_assoc; reflexivity).
    destruct (0 <? Config.delayBetweenMessages (Config.bot cfg)).
    + unfold Greetings.sleep, modify in *. simpl in *. apply IH. exact HI'.
    + unfold ret at 1. apply IH. exact HI'.
Qed.

Hypothesis Inv_pause :
  forall pre res w,
    Inv pre res w ->
    Inv pre res
      (snd (Greetings.sleep
              (Config.delayBetweenMessages (Config.bot cfg) * 2) w)).

Lemma batch_loop_invariant (users : list UserRow) (fuel i : nat)
    (res : Greetings.Results) (w : World) :
  (length users - i < fuel)%nat ->
  Inv (take i users) res w ->
  exists res' w',
    Greetings.batch_loop env cfg fuel users i res w = (Normal res', w') /\
    Inv users res' w'.
Proof.
  revert i res w. induction fuel as [|fuel IH]; intros i res w Hfuel HI.
  - lia.
  - simpl. destruct (i <? length users)%nat eqn:Hi.
    + apply Nat.ltb_lt in Hi.
      unfold bind at 1.
      destruct (send_batch_invariant
                  (Greetings.slice i (i + batchSize) users) _ _ _ HI)
        as (res1 & w1 & Hbatch & HI1).
      fold batchSize. rewrite Hbatch.
      unfold Greetings.slice in HI1.
      replace (i + batchSize - i)%nat with batchSize in HI1 by lia.
      rewrite take_take_drop in HI1.
      assert (0 < batchSize)%nat by (unfold batchSize; lia).
      unfold bind at 1.
      destruct (i + batchSize <? length users)%nat.
      * unfold Greetings.sleep at 1, modify at 1.
        apply IH; [lia|]. apply (Inv_pause _ _ _ HI1).
      * unfold ret at 1. apply IH; [lia|]. exact HI1.
    + apply Nat.ltb_ge in Hi. unfold ret.
      rewrite take_ge in HI by lia. eauto.
Qed.

Lemma dispatch_invariant (users : list UserRow) (w : World) :
  users <> [] ->
  Inv [] {| Greetings.total := length users; Greetings.sent := 0;
            Greetings.errors := 0; Greetings.details := Some [] |} w ->
  exists res w1 w',
    Greetings.dispatch env cfg users w = (Normal res, w') /\
    Inv users res w1 /\
    Greetings.saveGreetingStats env res w1 = (Normal tt, w').
Proof.
  intros Hne HI. unfold Greetings.dispatch.
  destruct users as [|u users]; [congruence|].
  change (length (u :: users) =? 0)%nat with false. cbv iota.
  destruct (batch_loop_invariant (u :: users) (S (length (u :: users))) 0
              {| Greetings.total := length (u :: users); Greetings.sent := 0;
                 Greetings.errors := 0; Greetings.details := Some [] |} w)
    as (res & w1 & Hloop & HI1); [lia | exact HI |].
  unfold bind at 1. rewrite Hloop.
  destruct (saveGreetingStats_frame env res w1) as (w' & Hsave & _).
  unfold bind at 1. rewrite Hsave. unfold ret. eauto 10.
Qed.
End DispatchInvariant.

(** *** Counts and completion *)


Definition counts_agree (n : nat) (pre : list UserRow)
    (res : Greetings.Results) (w : World) : Prop :=
  Greetings.total res = n /\
  exists ds,
    Greetings.details res = Some ds /\
    map Greetings.userId ds = map u_bitrix_id pre /\
    Greetings.sent res = length (List.filter Greetings.success ds) /\
    Greetings.errors res =
      length (List.filter (fun d => negb (Greetings.success d)) ds).

Lemma counts_agree_iteration (env : Env) (cfg : Config.t) (n : nat)
    (pre : list UserRow) (res : Greetings.Results) (w : World)
    (u : UserRow) (d : Greetings.Detail) (w' : World) :
  counts_agree n pre res w ->
  Greetings.sendGreetingToUser env cfg u w = (Normal d, w') ->
  counts_agree n (pre ++ [u]) (Greetings.record_result res d)
    (after_delay cfg w').
Proof.
  intros (Htotal & ds & Hds & Hids & Hsent & Herr) Hstep.
  destruct (sendGreetingToUser_returns env cfg u w) as (d' & w'' & Hstep' & Hid).
  rewrite Hstep in Hstep'. injection Hstep' as <- <-.
  split; [exact Htotal|].
  exists (ds ++ [d]). simpl. rewrite Hds. simpl.
  split; [reflexivity|].
  rewrite !map_app, Hids. simpl. rewrite Hid.
  split; [reflexivity|].
  rewrite !List.filter_app, !length_app. simpl.
  destruct (Greetings.success d); simpl; lia.
Qed.


(** Under total failure of the platform the run still returns, with
    nothing sent and every recipient counted as an error. *)
Lemma dispatch_under_total_failure (env : Env) (cfg : Config.t)
    (us : list UserRow) (w : World) :
  (forall n p, exists e, b24_callMethod env n p = Fault e) ->
  exists res w',
    Greetings.dispatch env cfg us w = (Normal res, w') /\
    Greetings.sent res = 0%nat /\
    Greetings.errors res = length us.
Proof.
  intros Hfail.
  destruct us as [|u us].
  - eexists _, _. split; [reflexivity|]. split; reflexivity.
  - pose proof (dispatch_invariant env cfg
                  (fun pre res (_ : World) =>
                     Greetings.sent res = 0%nat /\
                     Greetings.errors res = length pre)) as Hinv.
    destruct (Hinv) with (users := u :: us) (w := w)
      as (res & w1 & w' & Hrun & (Hsent & Herr) & _).
    + intros pre res w0 v d w0' (Hsent & Herr) Hstep.
      destruct (sendGreetingToUser_users _ _ _ _ _ _ Hstep)
        as [(_ & p & id & _ & Hreply & _) | (Hko & _)].
      * destruct (Hfail (net_seq w0) p) as (e & He). congruence.
      * unfold Greetings.record_result. rewrite Hko. simpl.
        rewrite length_app. simpl. split; [exact Hsent | lia].
    + intros pre res w0 H. exact H.
    + discriminate.
    + split; reflexivity.
    + exists res, w'. auto.
Qed.

(** *** The empty run *)

(** C5 as stated: the empty run returns zero counts together with an
    empty outcome sequence, and leaves the world as it was. *)
Definition empty_run_claim : Prop :=
  forall (env : Env) (cfg : Config.t) (w : World),
    Greetings.dispatch env cfg [] w =
      (Normal {| Greetings.total := 0; Greetings.sent := 0;
                 Greetings.errors := 0; Greetings.details := Some [] |}, w).

(** C5, as stated, fails: the object returned for an empty run has no
    outcome sequence at all. *)
Lemma empty_run_has_no_outcome_sequence : ~ empty_run_claim.
Proof.
  intros H. specialize (H sample_env Config.default empty_world).
  vm_compute in H. discriminate H.
Qed.

(** C5, amended: the empty run returns [{total: 0, sent: 0, errors: 0}],
    without an outcome sequence, and changes nothing in the world: no
    row is written, no message is sent, no time passes. *)
Theorem dispatch_empty (env : Env) (cfg : Config.t) (w : World) :
  Greetings.dispatch env cfg [] w =
    (Normal {| Greetings.total := 0; Greetings.sent := 0;
               Greetings.errors := 0; Greetings.details := None |}, w).
Proof. reflexivity. Qed.

(** *** Batches and pauses *)





Lemma pauses_app (evs1 evs2 : list Event) :
  pauses (evs1 ++ evs2) = pauses evs1 ++ pauses evs2.
Proof. unfold pauses. apply omap_app. Qed.




Definition recipient (k : Z) (name : string) : UserRow := {|
  u_id := k; u_bitrix_id := pretty k; u_name := Some name;
  u_first_name := None; u_last_name := None; u_email := None;
  u_work_position := None; u_department := None;
  u_is_active := 1; u_last_greeting_sent := None;
  u_created_at := 1700000000; u_updated_at := 1700000000
|}.

Definition twelve_recipients : list UserRow :=
  [ recipient 1 "Анна"; recipient 2 "Борис"; recipient 3 "Вера";
    recipient 4 "Глеб"; recipient 5 "Дарья"; recipient 6 "Егор";
    recipient 7 "Жанна"; recipient 8 "Захар"; recipient 9 "Инна";
    recipient 10 "Кирилл"; recipient 11 "Лариса"; recipient 12 "Максим" ].

Definition twelve_world : World := set_users twelve_recipients empty_world.


(** *** Which rows a run touches *)

Lemma elem_of_map {A B : Type} (f : A -> B) (l : list A) (y : B) :
  y ∈ map f l <-> exists x, y = f x /\ x ∈ l.
Proof. exact (list_elem_of_fmap f l y). Qed.

(** [u'] is [u] up to [last_greeting_sent]. *)
Definition same_but_last_greeting (u u' : UserRow) : Prop :=
  Database.set_last_greeting_sent None u' = Database.set_last_greeting_sent None u.

(** The state of one row of [users] during a run with outcomes [ds] and
    events [evs] so far: untouched while its recipient has only failed
    (or was not processed); stamped with the completion time of its
    call once its recipient has succeeded. *)
Definition row_state (ds : list Greetings.Detail) (evs : list Event)
    (u u' : UserRow) : Prop :=
  same_but_last_greeting u u' /\
  ((u' = u /\
    forall d, d ∈ ds -> Greetings.userId d = u_bitrix_id u ->
              Greetings.success d = false) \/
   ((exists d, d ∈ ds /\ Greetings.userId d = u_bitrix_id u) /\
    (forall d, d ∈ ds -> Greetings.userId d = u_bitrix_id u ->
               Greetings.success d = true) /\
    exists p t mid,
      EvCall p t (Data mid) ∈ evs /\ DIALOG_ID p = u_bitrix_id u /\
      u_last_greeting_sent u' = Some (t / 1000))).

Definition rows_tracked (w0 : World) (pre : list UserRow)
    (res : Greetings.Results) (w : World) : Prop :=
  NoDup (map u_bitrix_id pre) ->
  exists ds evs,
    Greetings.details res = Some ds /\
    map Greetings.userId ds = map u_bitrix_id pre /\
    trace w = trace w0 ++ evs /\
    Forall2 (row_state ds evs) (users w0) (users w).

Lemma same_but_last_greeting_stamp (t : option Z) (u u' : UserRow) :
  same_but_last_greeting u u' ->
  same_but_last_greeting u (Database.set_last_greeting_sent t u').
Proof. unfold same_but_last_greeting. intros <-. reflexivity. Qed.

Lemma after_delay_users (cfg : Config.t) (w : World) :
  users (after_delay cfg w) = users w.
Proof. unfold after_delay. destruct (0 <? _); reflexivity. Qed.

Lemma after_delay_trace (cfg : Config.t) (w : World) :
  exists evs, trace (after_delay cfg w) = trace w ++ evs /\
              forall p t r, EvCall p t r ∉ evs.
Proof.
  unfold after_delay. destruct (0 <? _); simpl.
  - eexists. split; [reflexivity|]. intros p t r Hin.
    apply list_elem_of_singleton in Hin. discriminate.
  - exists []. rewrite app_nil_r. split; [reflexivity|].
    intros p t r Hin. inversion Hin.
Qed.

Lemma rows_tracked_iteration (env : Env) (cfg : Config.t) (w0 : World)
    (pre : list UserRow) (res : Greetings.Results) (w : World)
    (v : UserRow) (d : Greetings.Detail) (w' : World) :
  rows_tracked w0 pre res w ->
  Greetings.sendGreetingToUser env cfg v w = (Normal d, w') ->
  rows_tracked w0 (pre ++ [v]) (Greetings.record_result res d)
    (after_delay cfg w').
Proof.
  intros Hinv Hstep Hnodup.
  rewrite map_app in Hnodup. apply NoDup_app in Hnodup.
  destruct Hnodup as (Hpre & Hfresh & _).
  destruct (Hinv Hpre) as (ds & evs & Hds & Hids & Htrace & Hrows).
  destruct (sendGreetingToUser_returns env cfg v w) as (d' & w'' & Hstep' & Hid).
  rewrite Hstep in Hstep'. injection Hstep' as <- <-.
  assert (Hnew : forall d0, d0 ∈ ds -> Greetings.userId d0 <> u_bitrix_id v).
  { intros d0 Hin Heq. apply (Hfresh (u_bitrix_id v)).
    - rewrite <- Hids, <- Heq. apply elem_of_map. eauto.
    - simpl. apply list_elem_of_here. }
  destruct (after_delay_trace cfg w') as (evs2 & Htrace2 & _).
  exists (ds ++ [d]).
  destruct (sendGreetingToUser_users _ _ _ _ _ _ Hstep)
    as [(Hok & p & mid & Hev & _ & Hdialog & Husers)
       | (Hko & Husers & evs1 & Hev & _)].
  - exists (evs ++ [EvCall p (clock w') (Data mid)] ++ evs2).
    split; [simpl; rewrite Hds; reflexivity|].
    split; [rewrite !map_app, Hids; simpl; rewrite Hid; reflexivity|].
    split; [rewrite Htrace2, Hev, Htrace, <- !app_assoc; reflexivity|].
    rewrite after_delay_users, Husers. unfold stamp.
    apply Forall2_fmap_r.
    eapply Forall2_impl; [exact Hrows|].
    intros u u' (Hsame & Hstate). simpl.
    destruct (String.eqb (u_bitrix_id u') (u_bitrix_id v)) eqn:Heq.
    + apply String.eqb_eq in Heq.
      assert (Hu : u_bitrix_id u = u_bitrix_id v).
      { rewrite <- Heq. unfold same_but_last_greeting in Hsame.
        apply (f_equal u_bitrix_id) in Hsame. simpl in Hsame. congruence. }
      split; [apply same_but_last_greeting_stamp; exact Hsame|].
      right. split; [|split].
      * exists d. split; [apply elem_of_app; right; apply list_elem_of_here|].
        congruence.
      * intros d0 Hin Hd0. apply elem_of_app in Hin.
        destruct Hin as [Hin | Hin].
        -- exfalso. apply (Hnew d0 Hin). congruence.
        -- apply list_elem_of_singleton in Hin. subst d0. exact Hok.
      * exists p, (clock w'), mid. split; [|split].
        -- apply elem_of_app. right. apply list_elem_of_here.
        -- congruence.
        -- reflexivity.
    + apply String.eqb_neq in Heq.
      assert (Hu : u_bitrix_id u <> u_bitrix_id v).
      { unfold same_but_last_greeting in Hsame.
        apply (f_equal u_bitrix_id) in Hsame. simpl in Hsame. congruence. }
      split; [exact Hsame|].
      destruct Hstate as [(Heq' & Hfail) | ((d0 & Hin0 & Hd0) & Hall & p0 & t0 & m0 & Hin & Hp0 & Hlast)].
      * left. split; [exact Heq'|].
        intros d1 Hin1 Hd1. apply elem_of_app in Hin1.
        destruct Hin1 as [Hin1 | Hin1]; [eauto|].
        apply list_elem_of_singleton in Hin1. subst d1. congruence.
      * right. split; [|split].
        -- exists d0. split; [apply elem_of_app; left; exact Hin0 | exact Hd0].
        -- intros d1 Hin1 Hd1. apply elem_of_app in Hin1.
           destruct Hin1 as [Hin1 | Hin1]; [eauto|].
           apply list_elem_of_singleton in Hin1. subst d1. congruence.
        -- exists p0, t0, m0. split; [|auto].
           apply elem_of_app. left. exact Hin.
  - exists (evs ++ evs1 ++ evs2).
    split; [simpl; rewrite Hds; reflexivity|].
    split; [rewrite !map_app, Hids; simpl; rewrite Hid; reflexivity|].
    split; [rewrite Htrace2, Hev, Htrace, <- !app_assoc; reflexivity|].
    rewrite after_delay_users, Husers.
    eapply Forall2_impl; [exact Hrows|].
    intros u u' (Hsame & Hstate). split; [exact Hsame|].
    destruct Hstate as [(Heq' & Hfail) | ((d0 & Hin0 & Hd0) & Hall & p0 & t0 & m0 & Hin & Hp0 & Hlast)].
    + left. split; [exact Heq'|].
      intros d1 Hin1 Hd1. apply elem_of_app in Hin1.
      destruct Hin1 as [Hin1 | Hin1]; [eauto|].
      apply list_elem_of_singleton in Hin1. subst d1. exact Hko.
    + right. split; [|split].
      * exists d0. split; [apply elem_of_app; left; exact Hin0 | exact Hd0].
      * intros d1 Hin1 Hd1. apply elem_of_app in Hin1.
        destruct Hin1 as [Hin1 | Hin1]; [eauto|].
        apply list_elem_of_singleton in Hin1. subst d1.
        exfalso. apply (Hnew d0 Hin0). congruence.
      * exists p0, t0, m0. split; [|auto].
        apply elem_of_app. left. exact Hin.
Qed.

Lemma rows_tracked_pause (cfg : Config.t) (w0 : World)
    (pre : list UserRow) (res : Greetings.Results) (w : World) :
  rows_tracked w0 pre res w ->
  rows_tracked w0 pre res
    (snd (Greetings.sleep (Config.delayBetweenMessages (Config.bot cfg) * 2) w)).
Proof.
  intros Hinv Hnodup.
  destruct (Hinv Hnodup) as (ds & evs & Hds & Hids & Htrace & Hrows).
  exists ds, (evs ++ [EvSleep (Config.delayBetweenMessages (Config.bot cfg) * 2)]).
  simpl. rewrite Htrace, <- app_assoc.
  repeat split; try assumption.
  eapply Forall2_impl; [exact Hrows|].
  intros u u' (Hsame & Hstate). split; [exact Hsame|].
  destruct Hstate as [Hl | (Hd & Hall & p & t & m & Hin & Hrest)]; [left; exact Hl|].
  right. split; [exact Hd|]. split; [exact Hall|].
  exists p, t, m. split; [|exact Hrest].
  apply elem_of_app. left. exact Hin.
Qed.



Definition flaky_env : Env := {|
  b24_callMethod := fun _ p =>
    if String.eqb (DIALOG_ID p) "2" then Fault "Network Error" else Data 1001;
  net_latency := fun _ => 250%N;
  db_fault := fun _ => None;
  random := fun n => Z.of_nat n # 10;
  local_date := fun _ => {| getMonth := 5; getDate := 14 |};
  server_time_fault := None
|}.


(** *** The history table *)

(** The number of ['error'] rows of [message_history] for user [id]. *)
Definition error_rows (id : string) (hs : list HistoryRow) : nat :=
  length (List.filter
            (fun h => String.eqb (h_user_id h) id && String.eqb (h_status h) "error")
            hs).

Lemma error_rows_app (id : string) (hs1 hs2 : list HistoryRow) :
  error_rows id (hs1 ++ hs2) = (error_rows id hs1 + error_rows id hs2)%nat.
Proof. unfold error_rows. rewrite List.filter_app, length_app. reflexivity. Qed.

Lemma error_rows_other (id : string) (hs : list HistoryRow) :
  (forall h, h ∈ hs -> h_user_id h <> id) -> error_rows id hs = 0%nat.
Proof.
  unfold error_rows. induction hs as [|h hs IH]; intros Hne; [reflexivity|].
  simpl. destruct (String.eqb (h_user_id h) id) eqn:Heq.
  - apply String.eqb_eq in Heq. exfalso.
    apply (Hne h); [apply list_elem_of_here | exact Heq].
  - simpl. apply IH. intros h' Hin. apply Hne. apply list_elem_of_further. exact Hin.
Qed.

Lemma existsb_bitrix_id (id : string) (rows : list UserRow) :
  id ∈ map u_bitrix_id rows ->
  existsb (fun u => String.eqb (u_bitrix_id u) id) rows = true.
Proof.
  intros Hin. apply elem_of_map in Hin. destruct Hin as (u & -> & Hu).
  apply existsb_exists. exists u. split.
  - apply list_elem_of_In. exact Hu.
  - apply String.eqb_refl.
Qed.

Lemma stamp_keeps_ids (id : string) (t : Z) (rows : list UserRow) :
  map u_bitrix_id (stamp id t rows) = map u_bitrix_id rows.
Proof.
  unfold stamp. rewrite map_map. apply map_ext.
  intros u. destruct (String.eqb (u_bitrix_id u) id); reflexivity.
Qed.

Ltac close_membership :=
  intros;
  repeat match goal with
         | H : _ ∈ [] |- _ => inversion H
         | H : _ ∈ [_] |- _ => apply list_elem_of_singleton in H; simplify_eq
         end.

(** One recipient's processing, when the store accepts every statement
    and the recipient is a row of [users]: the rows written and the call
    placed are the recipient's own, and a call that threw has left one
    ['error'] row and a failed outcome carrying the error's message. *)
Lemma sendGreetingToUser_history (env : Env) (cfg : Config.t)
    (v : UserRow) (w : World) (d : Greetings.Detail) (w' : World) :
  (forall n, db_fault env n = None) ->
  u_bitrix_id v ∈ map u_bitrix_id (users w) ->
  Greetings.sendGreetingToUser env cfg v w = (Normal d, w') ->
  map u_bitrix_id (users w') = map u_bitrix_id (users w) /\
  exists evs hs,
    trace w' = trace w ++ evs /\
    message_history w' = message_history w ++ hs /\
    (forall h, h ∈ hs -> h_user_id h = u_bitrix_id v) /\
    (forall p t r, EvCall p t r ∈ evs -> DIALOG_ID p = u_bitrix_id v) /\
    (forall p t e, EvCall p t (Fault e) ∈ evs ->
       error_rows (u_bitrix_id v) hs = 1%nat /\
       Greetings.success d = false /\ Greetings.error d = Some e).
Proof.
  intros Hdb Hfk Hstep.
  apply existsb_bitrix_id in Hfk.
  unfold_step. simpl in Hstep. rewrite ?Hdb in Hstep.
  split_cases; rewrite ?Hdb in *; simplify_eq; try congruence;
    try (cbn in *; congruence);
    (split; [first [reflexivity | exact (stamp_keeps_ids _ _ _)]|]);
    eexists; eexists;
    (split; [first [reflexivity | symmetry; apply app_nil_r]|]);
    (split; [first [reflexivity | symmetry; apply app_nil_r]|]);
    (split; [close_membership; reflexivity|]);
    (split; [close_membership; reflexivity|]);
    close_membership;
    unfold error_rows; simpl; rewrite ?String.eqb_refl; simpl; auto.
Qed.

Lemma after_delay_history (cfg : Config.t) (w : World) :
  message_history (after_delay cfg w) = message_history w.
Proof. unfold after_delay. destruct (0 <? _); reflexivity. Qed.

(** The condition under which [saveGreetingStats] writes a row. *)
Definition reported (d : Greetings.Detail) : bool :=
  negb (Greetings.success d) && Js.truthy (Greetings.error d).

(** The loop of [saveGreetingStats], when the store accepts every
    statement and every outcome belongs to a row of [users]: one
    ['error'] row per failed outcome whose error message is truthy. *)
Lemma save_errors_rows (env : Env) (ds : list Greetings.Detail) (w : World) :
  (forall n, db_fault env n = None) ->
  (forall d, d ∈ ds -> Greetings.userId d ∈ map u_bitrix_id (users w)) ->
  exists w' hs,
    Greetings.save_errors env ds w = (Normal tt, w') /\
    message_history w' = message_history w ++ hs /\
    (forall h, h ∈ hs -> h_message_text h = "Morning greeting"%string) /\
    forall id,
      error_rows id hs =
      length (List.filter
                (fun d => String.eqb (Greetings.userId d) id && reported d) ds).
Proof.
  intros Hdb. revert w. induction ds as [|d ds IH]; intros w Hfk.
  - exists w, []. simpl. rewrite app_nil_r.
    repeat split; try reflexivity. intros h Hin. inversion Hin.
  - assert (Hd : existsb (fun u => String.eqb (u_bitrix_id u) (Greetings.userId d))
                   (users w) = true).
    { apply existsb_bitrix_id. apply Hfk. apply list_elem_of_here. }
    assert (Hrest : forall d', d' ∈ ds ->
                      Greetings.userId d' ∈ map u_bitrix_id (users w)).
    { intros d' Hin. apply Hfk. apply list_elem_of_further. exact Hin. }
    simpl. unfold bind at 1. fold (reported d).
    destruct (reported d) eqn:Hrep.
    + unfold Database.saveMessageHistory, Database.statement,
        bind, get, ret, throw, modify. simpl. rewrite Hdb. simpl. rewrite Hd.
      match goal with
      | |- context [Greetings.save_errors env ds ?w1] =>
          destruct (IH w1 Hrest) as (w' & hs & Hrun & Hhist & Htext & Hcount)
      end.
      rewrite Hrun. simpl in Hhist. rewrite <- app_assoc in Hhist.
      eexists _, _. split; [reflexivity|]. split; [exact Hhist|].
      split.
      * intros h Hin. apply elem_of_cons in Hin.
        destruct Hin as [-> | Hin]; [reflexivity | auto].
      * intros id. change (?x :: hs) with ([x] ++ hs).
        rewrite error_rows_app, Hcount. unfold error_rows. simpl.
        rewrite andb_true_r.
        destruct (String.eqb (Greetings.userId d) id); reflexivity.
    + unfold ret at 1.
      destruct (IH w Hrest) as (w' & hs & Hrun & Hhist & Htext & Hcount).
      exists w', hs. split; [exact Hrun|]. split; [exact Hhist|].
      split; [exact Htext|].
      intros id. rewrite Hcount. simpl. rewrite andb_false_r. reflexivity.
Qed.

Lemma filter_unique_key {A : Type} (key : A -> string) (P : A -> bool)
    (l : list A) (x : A) :
  NoDup (map key l) -> x ∈ l -> P x = true ->
  length (List.filter (fun y => String.eqb (key y) (key x) && P y) l) = 1%nat.
Proof.
  induction l as [|y l IH]; intros Hnodup Hin HP; [inversion Hin|].
  simpl in Hnodup. apply NoDup_cons in Hnodup. destruct Hnodup as [Hy Hl].
  apply elem_of_cons in Hin. simpl. destruct Hin as [<- | Hin].
  - rewrite String.eqb_refl, HP. simpl. f_equal.
    apply length_zero_iff_nil.
    match goal with
    | |- ?fl = [] => destruct fl as [|z zs] eqn:Hf
    end; [reflexivity|].
    exfalso. assert (Hz : In z (z :: zs)) by (left; reflexivity).
    rewrite <- Hf in Hz. apply filter_In in Hz. destruct Hz as [Hz Hc].
    apply andb_true_iff in Hc. destruct Hc as [Hk _].
    apply String.eqb_eq in Hk. apply Hy. rewrite <- Hk.
    apply elem_of_map. exists z. split; [reflexivity|].
    apply list_elem_of_In. exact Hz.
  - destruct (String.eqb (key y) (key x)) eqn:Hk.
    + apply String.eqb_eq in Hk. exfalso. apply Hy. rewrite Hk.
      apply elem_of_map. eauto.
    + simpl. apply IH; assumption.
Qed.

(** The history written, and the calls placed, while the recipients
    [pre] were processed. *)
Definition history_tracked (w0 : World) (pre : list UserRow)
    (res : Greetings.Results) (w : World) : Prop :=
  NoDup (map u_bitrix_id pre) ->
  (forall u, u ∈ pre -> u_bitrix_id u ∈ map u_bitrix_id (users w0)) ->
  exists ds evs hs,
    Greetings.details res = Some ds /\
    map Greetings.userId ds = map u_bitrix_id pre /\
    trace w = trace w0 ++ evs /\
    message_history w = message_history w0 ++ hs /\
    map u_bitrix_id (users w) = map u_bitrix_id (users w0) /\
    (forall h, h ∈ hs -> h_user_id h ∈ map u_bitrix_id pre) /\
    (forall p t r, EvCall p t r ∈ evs -> DIALOG_ID p ∈ map u_bitrix_id pre) /\
    (forall p t e, EvCall p t (Fault e) ∈ evs ->
       error_rows (DIALOG_ID p) hs = 1%nat /\
       exists d, d ∈ ds /\ Greetings.userId d = DIALOG_ID p /\
                 Greetings.success d = false /\ Greetings.error d = Some e).

Lemma history_tracked_iteration (env : Env) (cfg : Config.t) (w0 : World)
    (pre : list UserRow) (res : Greetings.Results) (w : World)
    (v : UserRow) (d : Greetings.Detail) (w' : World) :
  (forall n, db_fault env n = None) ->
  history_tracked w0 pre res w ->
  Greetings.sendGreetingToUser env cfg v w = (Normal d, w') ->
  history_tracked w0 (pre ++ [v]) (Greetings.record_result res d)
    (after_delay cfg w').
Proof.
  intros Hdb Hinv Hstep Hnodup Hfk.
  rewrite map_app in Hnodup. apply NoDup_app in Hnodup.
  destruct Hnodup as (Hpre & Hfresh & _).
  assert (Hv : u_bitrix_id v ∉ map u_bitrix_id pre).
  { intros Hin. apply (Hfresh _ Hin). apply list_elem_of_here. }
  destruct Hinv as (ds & evs & hs & Hds & Hids & Htrace & Hhist & Husers
                    & Hrows & Hcalls & Hfaults); [exact Hpre | |].
  { intros u Hu. apply Hfk. apply elem_of_app. left. exact Hu. }
  assert (Hvfk : u_bitrix_id v ∈ map u_bitrix_id (users w)).
  { rewrite Husers. apply Hfk. apply elem_of_app. right. apply list_elem_of_here. }
  destruct (sendGreetingToUser_returns env cfg v w) as (d' & w'' & Hstep' & Hid).
  rewrite Hstep in Hstep'. injection Hstep' as <- <-.
  destruct (sendGreetingToUser_history env cfg v w d w' Hdb Hvfk Hstep)
    as (Husers1 & evs1 & hs1 & Htrace1 & Hhist1 & Hrows1 & Hcalls1 & Hfaults1).
  destruct (after_delay_trace cfg w') as (evs2 & Htrace2 & Hcalls2).
  exists (ds ++ [d]), (evs ++ evs1 ++ evs2), (hs ++ hs1).
  split; [simpl; rewrite Hds; reflexivity|].
  split; [rewrite !map_app, Hids; simpl; rewrite Hid; reflexivity|].
  split; [rewrite Htrace2, Htrace1, Htrace, <- !app_assoc; reflexivity|].
  split; [rewrite after_delay_history, Hhist1, Hhist, <- app_assoc; reflexivity|].
  split; [rewrite after_delay_users, Husers1; exact Husers|].
  rewrite map_app. simpl.
  split; [|split].
  - intros h Hin. apply elem_of_app in Hin. apply elem_of_app.
    destruct Hin as [Hin | Hin]; [left; auto|].
    right. rewrite (Hrows1 h Hin). apply list_elem_of_here.
  - intros p t r Hin. apply elem_of_app.
    apply elem_of_app in Hin. destruct Hin as [Hin | Hin]; [left; eauto|].
    apply elem_of_app in Hin. destruct Hin as [Hin | Hin].
    + right. rewrite (Hcalls1 p t r Hin). apply list_elem_of_here.
    + exfalso. exact (Hcalls2 p t r Hin).
  - intros p t e Hin. rewrite error_rows_app.
    apply elem_of_app in Hin. destruct Hin as [Hin | Hin].
    + destruct (Hfaults p t e Hin) as (Hone & d0 & Hd0 & Hrest).
      split.
      * rewrite Hone, (error_rows_other (DIALOG_ID p) hs1); [reflexivity|].
        intros h Hh Heq. apply Hv. rewrite <- (Hrows1 h Hh), Heq. eauto.
      * exists d0. split; [apply elem_of_app; left; exact Hd0 | exact Hrest].
    + apply elem_of_app in Hin. destruct Hin as [Hin | Hin];
        [|exfalso; exact (Hcalls2 p t (Fault e) Hin)].
      destruct (Hfaults1 p t e Hin) as (Hone & Hko & Herr).
      rewrite (Hcalls1 p t _ Hin).
      split.
      * rewrite Hone, (error_rows_other (u_bitrix_id v) hs); [reflexivity|].
        intros h Hh Heq. apply Hv. rewrite <- Heq. auto.
      * exists d. split; [apply elem_of_app; right; apply list_elem_of_here|].
        auto.
Qed.

Lemma history_tracked_pause (cfg : Config.t) (w0 : World)
    (pre : list UserRow) (res : Greetings.Results) (w : World) :
  history_tracked w0 pre res w ->
  history_tracked w0 pre res
    (snd (Greetings.sleep (Config.delayBetweenMessages (Config.bot cfg) * 2) w)).
Proof.
  intros Hinv Hnodup Hfk.
  destruct (Hinv Hnodup Hfk) as (ds & evs & hs & Hds & Hids & Htrace & Hhist
                                 & Husers & Hrows & Hcalls & Hfaults).
  exists ds, (evs ++ [EvSleep (Config.delayBetweenMessages (Config.bot cfg) * 2)]), hs.
  simpl. rewrite Htrace, <- app_assoc.
  do 6 (split; [first [assumption | reflexivity]|]).
  split.
  - intros p t r Hin. apply elem_of_app in Hin.
    destruct Hin as [Hin | Hin]; [eauto|].
    apply list_elem_of_singleton in Hin. discriminate.
  - intros p t e Hin. apply elem_of_app in Hin.
    destruct Hin as [Hin | Hin]; [exact (Hfaults p t e Hin)|].
    apply list_elem_of_singleton in Hin. discriminate.
Qed.

(** C9 as stated: in a run over distinct recipients that are rows of
    [users], with a store that accepts every statement, every call that
    threw leaves two ['error'] rows for its recipient. *)
Definition two_error_rows_claim : Prop :=
  forall (env : Env) (cfg : Config.t) (us : list UserRow) (w : World)
         (res : Greetings.Results) (w' : World),
    (forall n, db_fault env n = None) ->
    NoDup (map u_bitrix_id us) ->
    (forall u, u ∈ us -> u_bitrix_id u ∈ map u_bitrix_id (users w)) ->
    Greetings.dispatch env cfg us w = (Normal res, w') ->
    forall p t e,
      EvCall p t (Fault e) ∈ drop (length (trace w)) (trace w') ->
      error_rows (DIALOG_ID p)
        (drop (length (message_history w)) (message_history w')) = 2%nat.

(** A platform whose calls throw an error with an empty message. *)
Definition silent_failure_env : Env := {|
  b24_callMethod := fun _ _ => Fault "";
  net_latency := fun _ => 0%N;
  db_fault := fun _ => None;
  random := fun n => Z.of_nat n # 10;
  local_date := fun _ => {| getMonth := 5; getDate := 14 |};
  server_time_fault := None
|}.

Definition one_recipient_world : World :=
  set_users [recipient 1 "Анна"] empty_world.

(** C9, as stated, fails: [saveGreetingStats] skips an outcome whose
    error message is falsy, so a call that threw an error with an empty
    message leaves only the row written by [sendMessage]. *)
Lemma empty_error_message_leaves_one_row : ~ two_error_rows_claim.
Proof.
  intros H.
  pose (run := Greetings.dispatch silent_failure_env Config.default
                 [recipient 1 "Анна"] one_recipient_world).
  pose (res := {| Greetings.total := 1; Greetings.sent := 0;
                  Greetings.errors := 1;
                  Greetings.details :=
                    Some [{| Greetings.success := false;
                             Greetings.userId := "1";
                             Greetings.error := Some ""%string |}] |}).
  pose (p := {| BOT_ID := "42"; DIALOG_ID := "1";
                MESSAGE := "🌞 Доброе утро, Анна! Желаю вам продуктивного дня!"
                           ++ Js.nl ++ Js.nl ++
                           Config.tip "Не забудьте сделать короткие перерывы между задачами для восстановления энергии.";
                KEYBOARD := Some Greetings.generateKeyboard |}%string).
  assert (Hrun : run = (Normal res, snd run)) by (vm_compute; reflexivity).
  assert (Hnodup : NoDup (map u_bitrix_id [recipient 1 "Анна"])).
  { apply (bool_decide_unpack _). vm_compute. exact I. }
  assert (Hfk : forall u, u ∈ [recipient 1 "Анна"] ->
                  u_bitrix_id u ∈ map u_bitrix_id (users one_recipient_world)).
  { intros u Hu. apply list_elem_of_singleton in Hu. subst u.
    apply list_elem_of_here. }
  assert (Hin : EvCall p 1704175200000 (Fault "") ∈
                drop (length (trace one_recipient_world)) (trace (snd run))).
  { vm_compute. apply list_elem_of_here. }
  specialize (H silent_failure_env Config.default [recipient 1 "Анна"]
                one_recipient_world res (snd run) (fun _ => eq_refl)
                Hnodup Hfk Hrun p 1704175200000 ""%string Hin).
  vm_compute in H. discriminate H.
Qed.

(** C9, amended: in a run over distinct recipients that are rows of
    [users], with a store that accepts every statement, every call that
    threw an error with a non-empty message leaves two ['error'] rows
    for its recipient: one written while the batches run (by
    [sendMessage]), one written by [saveGreetingStats] once they are
    over. *)
Theorem failed_call_leaves_two_error_rows (env : Env) (cfg : Config.t)
    (us : list UserRow) (w : World) :
  (forall n, db_fault env n = None) ->
  NoDup (map u_bitrix_id us) ->
  (forall u, u ∈ us -> u_bitrix_id u ∈ map u_bitrix_id (users w)) ->
  exists res w1 w' evs hs_send hs_stats,
    Greetings.dispatch env cfg us w = (Normal res, w') /\
    trace w' = trace w ++ evs /\
    message_history w1 = message_history w ++ hs_send /\
    (us <> [] -> Greetings.saveGreetingStats env res w1 = (Normal tt, w')) /\
    message_history w' = message_history w1 ++ hs_stats /\
    forall p t e,
      EvCall p t (Fault e) ∈ evs -> e <> ""%string ->
      error_rows (DIALOG_ID p) hs_send = 1%nat /\
      error_rows (DIALOG_ID p) hs_stats = 1%nat /\
      error_rows (DIALOG_ID p) (hs_send ++ hs_stats) = 2%nat.
Proof.
  intros Hdb Hnodup Hfk.
  destruct us as [|u0 us].
  { exists {| Greetings.total := 0; Greetings.sent := 0;
              Greetings.errors := 0; Greetings.details := None |},
           w, w, [], [], [].
    rewrite !app_nil_r.
    do 3 (split; [reflexivity|]). split; [congruence|]. split; [reflexivity|].
    intros p t e Hin. inversion Hin. }
  pose proof (dispatch_invariant env cfg (history_tracked w)
                (fun pre res w1 v d w2 =>
                   history_tracked_iteration env cfg w pre res w1 v d w2 Hdb)
                (history_tracked_pause cfg w)) as Hinv.
  destruct Hinv with (users := u0 :: us) (w := w)
    as (res & w1 & w' & Hrun & Htracked & Hsave); [discriminate | |].
  { intros _ _. exists [], [], []. simpl. rewrite !app_nil_r.
    repeat split; try reflexivity;
      intros; match goal with H : _ ∈ [] |- _ => inversion H end. }
  destruct (Htracked Hnodup Hfk)
    as (ds & evs & hs & Hds & Hids & Htrace & Hhist & Husers & _ & _ & Hfaults).
  assert (Hfk1 : forall d, d ∈ ds ->
                   Greetings.userId d ∈ map u_bitrix_id (users w1)).
  { intros d Hd. rewrite Husers.
    assert (Hin : Greetings.userId d ∈ map u_bitrix_id (u0 :: us)).
    { rewrite <- Hids. apply elem_of_map. eauto. }
    apply elem_of_map in Hin. destruct Hin as (u & -> & Hu). auto. }
  destruct (save_errors_rows env ds w1 Hdb Hfk1)
    as (w2 & hs2 & Hrun2 & Hhist2 & _ & Hcount).
  assert (Hw2 : w2 = w').
  { unfold Greetings.saveGreetingStats, try_catch in Hsave.
    rewrite Hds, Hrun2 in Hsave. congruence. }
  subst w2.
  destruct (saveGreetingStats_frame env res w1) as (w3 & Hsave' & _ & Htrace3 & _).
  rewrite Hsave in Hsave'. injection Hsave' as <-.
  exists res, w1, w', evs, hs, hs2.
  split; [exact Hrun|]. split; [rewrite Htrace3; exact Htrace|].
  split; [exact Hhist|]. split; [intros _; exact Hsave|].
  split; [exact Hhist2|].
  intros p t e Hin He.
  destruct (Hfaults p t e Hin) as (Hone & d & Hd & Hid & Hko & Herr).
  assert (Htwo : error_rows (DIALOG_ID p) hs2 = 1%nat).
  { rewrite Hcount, <- Hid.
    apply (filter_unique_key Greetings.userId reported ds d).
    - rewrite Hids. exact Hnodup.
    - exact Hd.
    - unfold reported. rewrite Hko, Herr. simpl.
      destruct (String.eqb e "") eqn:Heq; [|reflexivity].
      apply String.eqb_eq in Heq. contradiction. }
  rewrite error_rows_app, Hone, Htwo. auto.
Qed.

Lemma failed_call_leaves_two_error_rows_witness :
  exists res w1 w' evs hs_send hs_stats,
    Greetings.dispatch flaky_env Config.default twelve_recipients twelve_world
      = (Normal res, w') /\
    trace w' = trace twelve_world ++ evs /\
    message_history w1 = message_history twelve_world ++ hs_send /\
    (twelve_recipients <> [] ->
     Greetings.saveGreetingStats flaky_env res w1 = (Normal tt, w')) /\
    message_history w' = message_history w1 ++ hs_stats /\
    forall p t e,
      EvCall p t (Fault e) ∈ evs -> e <> ""%string ->
      error_rows (DIALOG_ID p) hs_send = 1%nat /\
      error_rows (DIALOG_ID p) hs_stats = 1%nat /\
      error_rows (DIALOG_ID p) (hs_send ++ hs_stats) = 2%nat.
Proof.
  apply (failed_call_leaves_two_error_rows flaky_env Config.default
           twelve_recipients twelve_world).
  - intros n. reflexivity.
  - apply (bool_decide_unpack _). vm_compute. exact I.
  - intros u Hu. apply elem_of_map. exists u. split; [reflexivity | exact Hu].
Defined.

(** ** The whole run *)

Lemma initialize_ready (env : Env) (cfg : Config.t) (w : World) :
  isInitialized w = true -> Bot.initialize env cfg w = (Normal true, w).
Proof.
  intros Hinit. unfold Bot.initialize, bind, get, ret. simpl.
  rewrite Hinit. reflexivity.
Qed.

Lemma dispatch_returns (env : Env) (cfg : Config.t) (us : list UserRow)
    (w : World) :
  exists res w',
    Greetings.dispatch env cfg us w = (Normal res, w') /\
    map Greetings.userId (outcomes res) = map u_bitrix_id us.
Proof.
  destruct us as [|u us].
  - eexists _, _. split; reflexivity.
  - pose proof (dispatch_invariant env cfg (counts_agree (length (u :: us)))
                  (counts_agree_iteration env cfg (length (u :: us)))
                  (fun pre res w H => H)) as Hinv.
    destruct Hinv with (users := u :: us) (w := w)
      as (res & w1 & w' & Hrun & (_ & ds & Hds & Hids & _) & _).
    + discriminate.
    + split; [reflexivity|]. exists []. repeat split.
    + exists res, w'. split; [exact Hrun|].
      unfold outcomes. rewrite Hds. exact Hids.
Qed.

(** With the bot initialised and registered and the store answering,
    [sendMorningGreetings] is [dispatch] on the rows the query selects. *)
Lemma sendMorningGreetings_run (env : Env) (cfg : Config.t) (w : World) :
  isInitialized w = true ->
  Js.truthy (botId w) = true ->
  db_fault env (db_seq w) = None ->
  Greetings.sendMorningGreetings env cfg w =
  Greetings.dispatch env cfg
    (Database.order_by_name
       (List.filter
          (Database.where_morning_greeting (Database.toISODate (clock w)))
          (users w)))
    (set_db_seq (S (db_seq w)) w).
Proof.
  intros Hinit Hbot Hdb.
  unfold Greetings.sendMorningGreetings, try_catch.
  unfold bind at 1. rewrite (initialize_ready env cfg w Hinit).
  unfold bind at 1, get at 1. rewrite Hbot.
  change (negb true) with false. cbv iota.
  unfold bind at 1. rewrite (getActiveUsersForGreeting_run env w Hdb).
  match goal with
  | |- context [Greetings.dispatch env cfg ?us ?w1] =>
      destruct (dispatch_returns env cfg us w1) as (res & w' & Hrun & _)
  end.
  rewrite Hrun. reflexivity.
Qed.

(** The rows the query selects are rows of the table, and distinct when
    the table honours its UNIQUE constraint on [bitrix_id]. *)
Lemma eligible_rows_in_table (today : Z) (rows : list UserRow) (u : UserRow) :
  u ∈ Database.order_by_name
        (List.filter (Database.where_morning_greeting today) rows) ->
  u ∈ rows.
Proof.
  rewrite elem_of_order_by_name, list_elem_of_In, filter_In, <- list_elem_of_In.
  tauto.
Qed.

Lemma eligible_rows_distinct (today : Z) (rows : list UserRow) :
  NoDup (map u_bitrix_id rows) ->
  NoDup (map u_bitrix_id
           (Database.order_by_name
              (List.filter (Database.where_morning_greeting today) rows))).
Proof.
  intros Hnodup. unfold Database.order_by_name.
  change (map u_bitrix_id ?l) with (u_bitrix_id <$> l).
  rewrite (merge_sort_Permutation Database.name_le).
  change (map u_bitrix_id rows) with (u_bitrix_id <$> rows) in Hnodup.
  induction rows as [|r rows IH]; simpl; [constructor|].
  simpl in Hnodup. apply NoDup_cons in Hnodup. destruct Hnodup as [Hr Hrows].
  destruct (Database.where_morning_greeting today r); [|auto].
  simpl. apply NoDup_cons. split; [|auto].
  intros Hin. apply Hr. apply list_elem_of_fmap in Hin.
  destruct Hin as (x & Hx & Hin). rewrite Hx. apply list_elem_of_fmap.
  exists x. split; [reflexivity|].
  apply list_elem_of_In in Hin. apply filter_In in Hin.
  apply list_elem_of_In. tauto.
Qed.

(** C10: the sequence handed to a run is in ascending order of [name]
    ([NULL] first, then byte order), whatever the table holds; and a run
    on an initialised, registered bot processes exactly that sequence,
    in that order. *)
Theorem eligible_sequence_sorted_by_name (env : Env) (cfg : Config.t)
    (w : World) :
  db_fault env (db_seq w) = None ->
  exists rows w1,
    Users.getActiveUsersForGreeting env w = (Normal rows, w1) /\
    StronglySorted Database.name_le rows /\
    (isInitialized w = true -> Js.truthy (botId w) = true ->
     exists res w',
       Greetings.sendMorningGreetings env cfg w = (Normal res, w') /\
       map Greetings.userId (outcomes res) = map u_bitrix_id rows).
Proof.
  intros Hok. eexists _, _. split; [|split].
  - apply getActiveUsersForGreeting_run. exact Hok.
  - unfold Database.order_by_name.
    apply (StronglySorted_merge_sort Database.name_le).
  - intros Hinit Hbot.
    rewrite (sendMorningGreetings_run env cfg w Hinit Hbot Hok).
    apply dispatch_returns.
Qed.

Lemma eligible_sequence_sorted_by_name_witness :
  exists rows w1,
    Users.getActiveUsersForGreeting sample_env twelve_world = (Normal rows, w1) /\
    StronglySorted Database.name_le rows /\
    (isInitialized twelve_world = true -> Js.truthy (botId twelve_world) = true ->
     exists res w',
       Greetings.sendMorningGreetings sample_env Config.default twelve_world
         = (Normal res, w') /\
       map Greetings.userId (outcomes res) = map u_bitrix_id rows).
Proof.
  apply (eligible_sequence_sorted_by_name sample_env Config.default twelve_world).
  reflexivity.
Defined.

(** ** The trigger scheduler *)

Import Cron Scheduler.

(** The live triggers of a name: the running tasks created for it. *)
Definition live_triggers (name : string) (s : State) : list Task :=
  List.filter (fun t => t_running t && String.eqb (t_label t) name) (tasks s).

(** The handlers invoked for a name when a wall-clock minute elapses. *)
Definition fired_for (name : string) (s : State) (now : WallClock)
  : list (string * Handler) :=
  List.filter (fun nh => String.eqb (fst nh) name) (due tasks s now).

(** Every running task is the one the scheduler's map holds under the
    task's name. *)
Definition trigger_invariant (s : State) : Prop :=
  forall k t,
    tasks s !! k = Some t -> t_running t = true ->
    jobs s !! t_label t = Some k.

(** The first half of [scheduleJob]: the job already held under the
    name, if any, is stopped. *)
Definition stop_previous (name : string) (s : State) : State :=
  match jobs s !! name with
  | Some job => set_tasks (alter (set_running false) job (tasks s)) s
  | None => s
  end.

Definition new_task (cfg : Config.t) (name : string) (e : Expr)
    (h : Handler) : Task :=
  {| t_label := name; t_expr := e; t_handler := h;
     t_timezone := Scheduler.timezone cfg; t_running := true |}.

Lemma scheduleJob_valid (cfg : Config.t) (name : string) (e : Expr)
    (h : Handler) (s : State) :
  valid e = true ->
  Scheduler.scheduleJob cfg name e h s =
    (Normal tt,
     set_jobs (<[name := length (tasks s)]> (jobs s))
       (set_tasks (tasks (stop_previous name s) ++ [new_task cfg name e h])
          (stop_previous name s))).
Proof.
  intros Hvalid.
  unfold Scheduler.scheduleJob, stop_previous, schedule, stop, new_task,
    bind, get, ret, modify.
  rewrite Hvalid. destruct (jobs s !! name); simpl.
  - rewrite length_alter. reflexivity.
  - reflexivity.
Qed.

Lemma scheduleJob_invalid (cfg : Config.t) (name : string) (e : Expr)
    (h : Handler) (s : State) :
  valid e = false ->
  Scheduler.scheduleJob cfg name e h s =
    (Abrupt InvalidSchedule, stop_previous name s).
Proof.
  intros Hinvalid.
  unfold Scheduler.scheduleJob, stop_previous, schedule, stop,
    bind, get, ret, modify, throw.
  rewrite Hinvalid. destruct (jobs s !! name); reflexivity.
Qed.

Lemma lookup_stopped (job k : nat) (ts : list Task) (t : Task) :
  alter (set_running false) job ts !! k = Some t ->
  t_running t = true ->
  k <> job /\ ts !! k = Some t.
Proof.
  intros Hlook Hrun.
  destruct (decide (k = job)) as [-> | Hne].
  - rewrite list_lookup_alter_eq in Hlook.
    destruct (ts !! job) as [t0|]; simpl in Hlook; [|discriminate].
    injection Hlook as <-. simpl in Hrun. discriminate Hrun.
  - rewrite list_lookup_alter_ne in Hlook by congruence. auto.
Qed.

Lemma stop_previous_invariant (name : string) (s : State) :
  trigger_invariant s -> trigger_invariant (stop_previous name s).
Proof.
  intros Hinv k t Hlook Hrun. unfold stop_previous in *.
  destruct (jobs s !! name) as [job|] eqn:Hjob; [|auto].
  simpl in *. destruct (lookup_stopped _ _ _ _ Hlook Hrun) as [_ Hold]. auto.
Qed.

(** Once the previous job is stopped, nothing runs under the name. *)
Lemma stop_previous_quiet (name : string) (s : State) :
  trigger_invariant s ->
  forall k t,
    tasks (stop_previous name s) !! k = Some t ->
    t_running t = true -> t_label t <> name.
Proof.
  intros Hinv k t Hlook Hrun Hlabel. unfold stop_previous in *.
  destruct (jobs s !! name) as [job|] eqn:Hjob; simpl in *.
  - destruct (lookup_stopped _ _ _ _ Hlook Hrun) as [Hne Hold].
    pose proof (Hinv k t Hold Hrun) as Hmap. rewrite Hlabel, Hjob in Hmap.
    congruence.
  - pose proof (Hinv k t Hlook Hrun) as Hmap. rewrite Hlabel, Hjob in Hmap.
    discriminate.
Qed.

Lemma stop_previous_length (name : string) (s : State) :
  length (tasks (stop_previous name s)) = length (tasks s).
Proof.
  unfold stop_previous. destruct (jobs s !! name); simpl; [|reflexivity].
  apply length_alter.
Qed.

Lemma stop_previous_jobs (name : string) (s : State) :
  jobs (stop_previous name s) = jobs s.
Proof. unfold stop_previous. destruct (jobs s !! name); reflexivity. Qed.

Lemma scheduleJob_invariant (cfg : Config.t) (name : string) (e : Expr)
    (h : Handler) (s : State) :
  trigger_invariant s ->
  trigger_invariant (snd (Scheduler.scheduleJob cfg name e h s)).
Proof.
  intros Hinv. destruct (valid e) eqn:Hvalid.
  - rewrite scheduleJob_valid by exact Hvalid. simpl.
    intros k t Hlook Hrun. simpl in *.
    rewrite <- (stop_previous_length name s) .
    apply lookup_app_Some in Hlook.
    destruct Hlook as [Hold | [Hlen Hnew]].
    + pose proof (stop_previous_quiet name s Hinv k t Hold Hrun) as Hne.
      rewrite lookup_insert_ne by congruence.
      rewrite <- (stop_previous_jobs name s).
      apply (stop_previous_invariant name s Hinv k t Hold Hrun).
    + destruct (k - length (tasks (stop_previous name s)))%nat eqn:Hk;
        simpl in Hnew; [|discriminate].
      injection Hnew as <-. simpl.
      rewrite lookup_insert_eq. f_equal. lia.
  - rewrite scheduleJob_invalid by exact Hvalid. simpl.
    apply stop_previous_invariant. exact Hinv.
Qed.

Lemma stopJob_invariant (name : string) (s : State) :
  trigger_invariant s -> trigger_invariant (snd (Scheduler.stopJob name s)).
Proof.
  intros Hinv. unfold Scheduler.stopJob, stop, bind, get, ret, modify. simpl.
  destruct (jobs s !! name) as [job|] eqn:Hjob; simpl; [|exact Hinv].
  intros k t Hlook Hrun. simpl in *.
  destruct (lookup_stopped _ _ _ _ Hlook Hrun) as [Hne Hold].
  pose proof (Hinv k t Hold Hrun) as Hmap.
  rewrite lookup_delete_ne; [exact Hmap|].
  intros Heq. rewrite <- Heq, Hjob in Hmap. congruence.
Qed.


Lemma stop_each_spec (js : list (string * nat)) (s : State) :
  exists s',
    Scheduler.stop_each js s = (Normal tt, s') /\
    jobs s' = jobs s /\
    forall k t,
      tasks s' !! k = Some t -> t_running t = true ->
      tasks s !! k = Some t /\ forall n, (n, k) ∉ js.
Proof.
  revert s. induction js as [|[n job] js IH]; intros s; simpl.
  - exists s. repeat split; auto. intros n Hin. inversion Hin.
  - unfold bind at 1, stop at 1, modify at 1.
    destruct (IH (set_tasks (alter (set_running false) job (tasks s)) s))
      as (s' & Hrun & Hjobs & Htasks).
    exists s'. split; [exact Hrun|]. split; [exact Hjobs|].
    intros k t Hlook Hlive.
    destruct (Htasks k t Hlook Hlive) as [Hmid Hnotin]. simpl in Hmid.
    destruct (lookup_stopped _ _ _ _ Hmid Hlive) as [Hne Hold].
    split; [exact Hold|].
    intros n' Hin. apply elem_of_cons in Hin.
    destruct Hin as [Heq | Hin]; [congruence | exact (Hnotin n' Hin)].
Qed.

Lemma stopAll_invariant (s : State) :
  trigger_invariant s -> trigger_invariant (snd (Scheduler.stopAll s)).
Proof.
  intros Hinv. unfold Scheduler.stopAll, bind, get, modify. simpl.
  destruct (stop_each_spec (map_to_list (jobs s)) s)
    as (s' & Hrun & Hjobs & Htasks).
  rewrite Hrun. simpl. intros k t Hlook Hlive. simpl in *.
  destruct (Htasks k t Hlook Hlive) as [Hold Hnotin].
  exfalso. apply (Hnotin (t_label t)).
  apply elem_of_map_to_list. exact (Hinv k t Hold Hlive).
Qed.

Lemma scheduleMorningGreeting_invariant (cfg : Config.t) (row : Settings)
    (s : State) :
  trigger_invariant s ->
  trigger_invariant (snd (Scheduler.scheduleMorningGreeting cfg row s)).
Proof.
  intros Hinv. unfold Scheduler.scheduleMorningGreeting.
  destruct (s_days_of_week row); [|exact Hinv].
  apply scheduleJob_invariant. exact Hinv.
Qed.

Lemma start_invariant (cfg : Config.t) (s : State) :
  trigger_invariant s -> trigger_invariant (snd (Scheduler.start cfg s)).
Proof.
  intros Hinv.
  unfold Scheduler.start, Scheduler.getScheduleSettings,
    Scheduler.scheduleMorningGreetingFromConfig, bind, get, ret, modify.
  simpl. destruct (isRunning s); [exact Hinv|]. simpl.
  destruct (schedule_settings s) as [row|]; simpl.
  - destruct (s_is_active row =? 1).
    + apply scheduleMorningGreeting_invariant. exact Hinv.
    + apply scheduleJob_invariant. exact Hinv.
  - apply scheduleJob_invariant. exact Hinv.
Qed.

Lemma put_schedule_invariant (cfg : Config.t) (body : Api.ScheduleBody)
    (s : State) :
  trigger_invariant s -> trigger_invariant (snd (Api.put_schedule cfg body s)).
Proof.
  intros Hinv.
  unfold Api.put_schedule, Scheduler.getScheduleSettings, try_catch,
    bind, get, ret, modify, throw.
  simpl.
  set (s0 := set_schedule_settings
               (Api.update_settings body <$> schedule_settings s) s).
  assert (H0 : trigger_invariant s0) by exact Hinv.
  pose proof (stopJob_invariant "morning_greeting" s0 H0) as H1.
  destruct (Scheduler.stopJob "morning_greeting" s0) as [[[]|e|] s1] eqn:Hstop;
    simpl in H1; try exact H1.
  assert (Hset : schedule_settings s1 = schedule_settings s0).
  { unfold Scheduler.stopJob, stop, bind, get, ret, modify in Hstop.
    simpl in Hstop. destruct (jobs s !! "morning_greeting"%string);
      simpl in Hstop; injection Hstop as <-; reflexivity. }
  destruct (schedule_settings s1) as [row|]; simpl; [|exact H1].
  destruct (s_is_active row =? 1); simpl; [|exact H1].
  pose proof (scheduleMorningGreeting_invariant cfg row s1 H1) as H2.
  destruct (Scheduler.scheduleMorningGreeting cfg row s1) as [[[]|e|] s2];
    exact H2.
Qed.

(** *** Reachable scheduler states *)

(** What the rest of the program can ask of the scheduler. *)
Inductive Op : Type :=
| OpStart
| OpScheduleJob (name : string) (e : Expr) (h : Handler)
| OpScheduleMorningGreeting (row : Settings)
| OpScheduleMorningGreetingFromConfig
| OpScheduleDailyUserSync
| OpScheduleLogCleanup
| OpRunJob (name : string)
| OpStopJob (name : string)
| OpStopAll
| OpTick (now : WallClock)
| OpPutSchedule (body : Api.ScheduleBody).

Definition run_op (cfg : Config.t) (s : State) (op : Op) : State :=
  match op with
  | OpStart => snd (Scheduler.start cfg s)
  | OpScheduleJob name e h => snd (Scheduler.scheduleJob cfg name e h s)
  | OpScheduleMorningGreeting row =>
      snd (Scheduler.scheduleMorningGreeting cfg row s)
  | OpScheduleMorningGreetingFromConfig =>
      snd (Scheduler.scheduleMorningGreetingFromConfig cfg s)
  | OpScheduleDailyUserSync => snd (Scheduler.scheduleDailyUserSync cfg s)
  | OpScheduleLogCleanup => snd (Scheduler.scheduleLogCleanup cfg s)
  | OpRunJob name => snd (Scheduler.runJob name s)
  | OpStopJob name => snd (Scheduler.stopJob name s)
  | OpStopAll => snd (Scheduler.stopAll s)
  | OpTick now => snd (Scheduler.tick now s)
  | OpPutSchedule body => snd (Api.put_schedule cfg body s)
  end.

Definition run_ops (cfg : Config.t) (s : State) (ops : list Op) : State :=
  fold_left (run_op cfg) ops s.

Lemma run_op_invariant (cfg : Config.t) (s : State) (op : Op) :
  trigger_invariant s -> trigger_invariant (run_op cfg s op).
Proof.
  intros Hinv. destruct op; simpl.
  - apply start_invariant. exact Hinv.
  - apply scheduleJob_invariant. exact Hinv.
  - apply scheduleMorningGreeting_invariant. exact Hinv.
  - apply scheduleJob_invariant. exact Hinv.
  - apply scheduleJob_invariant. exact Hinv.
  - apply scheduleJob_invariant. exact Hinv.
  - unfold Scheduler.runJob, bind, get, ret, modify. simpl.
    destruct (jobs s !! name) as [job|]; [|exact Hinv].
    destruct (tasks s !! job); exact Hinv.
  - apply stopJob_invariant. exact Hinv.
  - apply stopAll_invariant. exact Hinv.
  - exact Hinv.
  - apply put_schedule_invariant. exact Hinv.
Qed.

Lemma run_ops_invariant (cfg : Config.t) (ops : list Op) (s : State) :
  trigger_invariant s -> trigger_invariant (run_ops cfg s ops).
Proof.
  revert s. induction ops as [|op ops IH]; intros s Hinv; [exact Hinv|].
  simpl. apply IH. apply run_op_invariant. exact Hinv.
Qed.

Lemma init_invariant (row : option Settings) :
  trigger_invariant (Scheduler.init row).
Proof. intros k t Hlook. simpl in Hlook. inversion Hlook. Qed.

Lemma filter_at_most_one {A : Type} (P : A -> bool) (l : list A) :
  (forall i j x y,
     l !! i = Some x -> l !! j = Some y ->
     P x = true -> P y = true -> i = j) ->
  (length (List.filter P l) <= 1)%nat.
Proof.
  induction l as [|a l IH]; intros Huniq; simpl; [lia|].
  destruct (P a) eqn:Ha.
  - assert (Hnone : List.filter P l = []).
    { destruct (List.filter P l) as [|b bs] eqn:Hf; [reflexivity|].
      exfalso. assert (Hin : In b (b :: bs)) by (left; reflexivity).
      rewrite <- Hf in Hin. apply filter_In in Hin. destruct Hin as [Hin Hb].
      apply list_elem_of_In, list_elem_of_lookup in Hin. destruct Hin as [j Hj].
      specialize (Huniq 0%nat (S j) a b eq_refl Hj Ha Hb). discriminate. }
    rewrite Hnone. simpl. lia.
  - apply IH. intros i j x y Hi Hj Hx Hy.
    specialize (Huniq (S i) (S j) x y Hi Hj Hx Hy). lia.
Qed.

Lemma at_most_one_live (name : string) (s : State) :
  trigger_invariant s -> (length (live_triggers name s) <= 1)%nat.
Proof.
  intros Hinv. unfold live_triggers. apply filter_at_most_one.
  intros i j x y Hi Hj Hx Hy.
  apply andb_true_iff in Hx. destruct Hx as [Hxrun Hxname].
  apply andb_true_iff in Hy. destruct Hy as [Hyrun Hyname].
  apply String.eqb_eq in Hxname. apply String.eqb_eq in Hyname.
  pose proof (Hinv i x Hi Hxrun) as Hmi.
  pose proof (Hinv j y Hj Hyrun) as Hmj.
  rewrite Hxname in Hmi. rewrite Hyname in Hmj. congruence.
Qed.

(** The handlers fired for a name are those of its live triggers whose
    pattern matches. *)
Lemma fired_for_live (name : string) (s : State) (now : WallClock) :
  fired_for name s now =
  map (fun t => (t_label t, t_handler t))
      (List.filter (fun t => matches (t_expr t) now) (live_triggers name s)).
Proof.
  unfold fired_for, due, live_triggers.
  induction (tasks s) as [|t ts IH]; [reflexivity|].
  simpl. destruct (t_running t); simpl.
  - destruct (matches (t_expr t) now) eqn:Hm; simpl.
    + destruct (String.eqb (t_label t) name); simpl; rewrite ?Hm, IH; reflexivity.
    + destruct (String.eqb (t_label t) name); simpl; rewrite ?Hm, IH; reflexivity.
  - exact IH.
Qed.

Lemma live_after_scheduleJob (cfg : Config.t) (name : string) (e : Expr)
    (h : Handler) (s : State) :
  trigger_invariant s -> valid e = true ->
  live_triggers name (snd (Scheduler.scheduleJob cfg name e h s)) =
  [new_task cfg name e h].
Proof.
  intros Hinv Hvalid. rewrite scheduleJob_valid by exact Hvalid.
  unfold live_triggers. simpl. rewrite List.filter_app. simpl.
  rewrite String.eqb_refl. simpl.
  match goal with
  | |- ?fl ++ _ = _ => destruct fl as [|t ts] eqn:Hf
  end; [reflexivity|].
  exfalso. assert (Hin : In t (t :: ts)) by (left; reflexivity).
  rewrite <- Hf in Hin. apply filter_In in Hin. destruct Hin as [Hin Hcond].
  apply andb_true_iff in Hcond. destruct Hcond as [Hrun Hlabel].
  apply String.eqb_eq in Hlabel.
  apply list_elem_of_In, list_elem_of_lookup in Hin. destruct Hin as [k Hk].
  exact (stop_previous_quiet name s Hinv k t Hk Hrun Hlabel).
Qed.

(** C3: in every state the scheduler can reach, each name has at most
    one live trigger. Registering twice under one name stops the first
    trigger before the second is created: afterwards the name has
    exactly one live trigger, the second, the map holds it, and a
    wall-clock minute matching its pattern invokes its handler exactly
    once for that name. *)
Theorem one_live_trigger_per_name (cfg : Config.t) (row : option Settings)
    (ops : list Op) (name : string) (e1 e2 : Expr) (h1 h2 : Handler) :
  valid e2 = true ->
  let s := run_ops cfg (Scheduler.init row) ops in
  let s1 := snd (Scheduler.scheduleJob cfg name e1 h1 s) in
  let s2 := snd (Scheduler.scheduleJob cfg name e2 h2 s1) in
  (forall n, (length (live_triggers n s) <= 1)%nat) /\
  (forall n, (length (live_triggers n s1) <= 1)%nat) /\
  (forall n, (length (live_triggers n s2) <= 1)%nat) /\
  live_triggers name s2 = [new_task cfg name e2 h2] /\
  jobs s2 !! name = Some (length (tasks s1)) /\
  tasks s2 !! length (tasks s1) = Some (new_task cfg name e2 h2) /\
  forall now, matches e2 now = true -> fired_for name s2 now = [(name, h2)].
Proof.
  intros Hvalid s s1 s2.
  assert (Hs : trigger_invariant s).
  { apply run_ops_invariant. apply init_invariant. }
  assert (Hs1 : trigger_invariant s1).
  { apply scheduleJob_invariant. exact Hs. }
  assert (Hs2 : trigger_invariant s2).
  { apply scheduleJob_invariant. exact Hs1. }
  assert (Hlive : live_triggers name s2 = [new_task cfg name e2 h2]).
  { apply live_after_scheduleJob; assumption. }
  split; [intros n; apply at_most_one_live; exact Hs|].
  split; [intros n; apply at_most_one_live; exact Hs1|].
  split; [intros n; apply at_most_one_live; exact Hs2|].
  split; [exact Hlive|].
  split; [|split].
  - subst s2. rewrite scheduleJob_valid by exact Hvalid. simpl.
    apply lookup_insert_eq.
  - subst s2. rewrite scheduleJob_valid by exact Hvalid. simpl.
    rewrite <- (stop_previous_length name s1).
    rewrite lookup_app_r by lia. rewrite Nat.sub_diag. reflexivity.
  - intros now Hmatch. rewrite fired_for_live, Hlive. simpl.
    rewrite Hmatch. reflexivity.
Qed.

Definition nine_on_weekdays : Expr :=
  {| e_minute := 0; e_hour := 9;
     e_days := DayList [Js.Int 1; Js.Int 2; Js.Int 3; Js.Int 4; Js.Int 5] |}.

Definition half_past_eight : Expr :=
  {| e_minute := 30; e_hour := 8;
     e_days := DayList [Js.Int 1; Js.Int 2; Js.Int 3; Js.Int 4; Js.Int 5] |}.

Lemma one_live_trigger_per_name_witness :
  let s := run_ops Config.default (Scheduler.init None)
             [OpStart; OpScheduleDailyUserSync; OpScheduleLogCleanup] in
  let s1 := snd (Scheduler.scheduleJob Config.default "morning_greeting"
                   nine_on_weekdays MorningGreetingTask s) in
  let s2 := snd (Scheduler.scheduleJob Config.default "morning_greeting"
                   half_past_eight MorningGreetingTask s1) in
  live_triggers "morning_greeting" s2 =
    [new_task Config.default "morning_greeting" half_past_eight
       MorningGreetingTask] /\
  fired_for "morning_greeting" s2
    {| w_minute := 30; w_hour := 8; w_weekday := 1 |} =
    [("morning_greeting"%string, MorningGreetingTask)].
Proof.
  destruct (one_live_trigger_per_name Config.default None
              [OpStart; OpScheduleDailyUserSync; OpScheduleLogCleanup]
              "morning_greeting" nine_on_weekdays half_past_eight
              MorningGreetingTask MorningGreetingTask eq_refl)
    as (_ & _ & _ & Hlive & _ & _ & Hfire).
  split; [exact Hlive|].
  apply Hfire. reflexivity.
Defined.

(** *** Invalid definitions *)


(** The pattern [scheduleMorningGreeting] builds from a settings row. *)
Definition pattern_of (hour minute : Z) (days_of_week : string) : Expr :=
  {| e_minute := minute; e_hour := hour;
     e_days := DayList (map (fun d => Js.parseInt (Js.trim d))
                            (Js.split "," days_of_week)) |}.





Definition active_row : Settings := {|
  s_hour := 9; s_minute := 0; s_days_of_week := Some "1,2,3,4,5"%string;
  s_timezone := Some "Europe/Moscow"%string; s_is_active := 1
|}.


(* ================================================================== *)
(** * Part III: further properties *)
(* ================================================================== *)

(** ** Pacing of a run *)

(** One recipient's processing never moves the clock back; the call it
    places, if any, completes at the instant the processing ends. *)
Lemma sendGreetingToUser_clock (env : Env) (cfg : Config.t)
    (u : UserRow) (w : World) (d : Greetings.Detail) (w' : World) :
  Greetings.sendGreetingToUser env cfg u w = (Normal d, w') ->
  clock w <= clock w' /\
  ((trace w' = trace w /\ clock w' = clock w) \/
   exists p r, trace w' = trace w ++ [EvCall p (clock w') r]).
Proof.
  unfold_step. simpl. intros H.
  split_cases; (split; [simpl; lia|]);
    first [ left; split; reflexivity | right; eexists _, _; reflexivity ].
Qed.

Lemma after_delay_clock (cfg : Config.t) (w : World) :
  clock w + Config.delayBetweenMessages (Config.bot cfg) <=
  clock (after_delay cfg w) /\
  clock w <= clock (after_delay cfg w).
Proof.
  unfold after_delay.
  destruct (0 <? Config.delayBetweenMessages (Config.bot cfg)) eqn:Hd; simpl.
  - apply Z.ltb_lt in Hd. lia.
  - apply Z.ltb_ge in Hd. lia.
Qed.

Lemma after_delay_events (cfg : Config.t) (w : World) :
  exists evs, trace (after_delay cfg w) = trace w ++ evs /\
              (evs = [] \/ exists ms, evs = [EvSleep ms]).
Proof.
  unfold after_delay. destruct (0 <? _); simpl.
  - eexists. split; [reflexivity|]. right. eexists. reflexivity.
  - exists []. rewrite app_nil_r. split; [reflexivity|]. left. reflexivity.
Qed.







(** ** A second run on the same day *)

Definition run_clocked (w0 : World) (pre : list UserRow)
    (res : Greetings.Results) (w : World) : Prop :=
  clock w0 <= clock w /\
  exists evs, trace w = trace w0 ++ evs /\
              forall p t r, EvCall p t r ∈ evs -> clock w0 <= t <= clock w.

Lemma run_clocked_iteration (env : Env) (cfg : Config.t) (w0 : World)
    (pre : list UserRow) (res : Greetings.Results) (w : World)
    (v : UserRow) (d : Greetings.Detail) (w' : World) :
  run_clocked w0 pre res w ->
  Greetings.sendGreetingToUser env cfg v w = (Normal d, w') ->
  run_clocked w0 (pre ++ [v]) (Greetings.record_result res d)
    (after_delay cfg w').
Proof.
  intros (Hclock & evs & Htrace & Hbound) Hstep.
  destruct (sendGreetingToUser_clock _ _ _ _ _ _ Hstep) as [Hmono Hcase].
  destruct (after_delay_clock cfg w') as [_ Hlater].
  destruct (after_delay_events cfg w') as (evs2 & Htrace2 & Hevs2).
  split; [lia|].
  destruct Hcase as [[Hsame _] | (p & r & Hcall)].
  - exists (evs ++ evs2).
    split; [rewrite Htrace2, Hsame, Htrace, app_assoc; reflexivity|].
    intros p t r Hin. apply elem_of_app in Hin. destruct Hin as [Hin | Hin].
    + specialize (Hbound p t r Hin). lia.
    + destruct Hevs2 as [-> | [ms ->]]; [inversion Hin|].
      apply list_elem_of_singleton in Hin. discriminate.
  - exists (evs ++ [EvCall p (clock w') r] ++ evs2).
    split; [rewrite Htrace2, Hcall, Htrace, <- !app_assoc; reflexivity|].
    intros p0 t0 r0 Hin. apply elem_of_app in Hin. destruct Hin as [Hin | Hin].
    + specialize (Hbound p0 t0 r0 Hin). lia.
    + apply elem_of_app in Hin. destruct Hin as [Hin | Hin].
      * apply list_elem_of_singleton in Hin. injection Hin as -> -> ->. lia.
      * destruct Hevs2 as [-> | [ms ->]]; [inversion Hin|].
        apply list_elem_of_singleton in Hin. discriminate.
Qed.

Lemma run_clocked_pause (cfg : Config.t) (w0 : World)
    (pre : list UserRow) (res : Greetings.Results) (w : World) :
  run_clocked w0 pre res w ->
  run_clocked w0 pre res
    (snd (Greetings.sleep (Config.delayBetweenMessages (Config.bot cfg) * 2) w)).
Proof.
  intros (Hclock & evs & Htrace & Hbound).
  set (ms := Config.delayBetweenMessages (Config.bot cfg) * 2).
  assert (Hc : clock (snd (Greetings.sleep ms w)) = clock w + Z.max ms 0)
    by reflexivity.
  assert (Ht : trace (snd (Greetings.sleep ms w)) = trace w ++ [EvSleep ms])
    by reflexivity.
  unfold run_clocked. rewrite Hc, Ht.
  split; [lia|].
  exists (evs ++ [EvSleep ms]).
  split; [rewrite Htrace, app_assoc; reflexivity|].
  intros p t r Hin. apply elem_of_app in Hin. destruct Hin as [Hin | Hin].
  - specialize (Hbound p t r Hin). lia.
  - apply list_elem_of_singleton in Hin. discriminate.
Qed.

Lemma toISODate_between (a t b : Z) :
  a <= t <= b -> Database.toISODate a = Database.toISODate b ->
  Database.DATE (t / 1000) = Database.toISODate a.
Proof.
  unfold Database.toISODate, Database.DATE. intros [Hat Htb] Hab.
  assert (a / 1000 / 86400 <= t / 1000 / 86400)
    by (apply Z.div_le_mono; [lia|]; apply Z.div_le_mono; lia).
  assert (t / 1000 / 86400 <= b / 1000 / 86400)
    by (apply Z.div_le_mono; [lia|]; apply Z.div_le_mono; lia).
  lia.
Qed.

(** The rows of the table after a run, with the outcomes and the time
    window of the run. *)
Lemma dispatch_rows_in_window (env : Env) (cfg : Config.t)
    (us : list UserRow) (w : World) :
  NoDup (map u_bitrix_id us) ->
  exists res w' evs,
    Greetings.dispatch env cfg us w = (Normal res, w') /\
    clock w <= clock w' /\
    map Greetings.userId (outcomes res) = map u_bitrix_id us /\
    trace w' = trace w ++ evs /\
    (forall p t r, EvCall p t r ∈ evs -> clock w <= t <= clock w') /\
    Forall2 (row_state (outcomes res) evs) (users w) (users w').
Proof.
  intros Hnodup.
  destruct us as [|u0 us].
  { eexists _, w, []. split; [reflexivity|]. split; [lia|].
    split; [reflexivity|]. rewrite app_nil_r. split; [reflexivity|].
    split; [intros p t r Hin; inversion Hin|].
    apply Forall2_same_length_lookup. split; [reflexivity|].
    intros i u u' Hu Hu'. rewrite Hu in Hu'. injection Hu' as <-.
    split; [reflexivity|]. left. split; [reflexivity|].
    intros d Hin. inversion Hin. }
  pose proof (dispatch_invariant env cfg
                (fun pre res w1 => rows_tracked w pre res w1 /\
                                   run_clocked w pre res w1)) as Hinv.
  destruct Hinv with (users := u0 :: us) (w := w)
    as (res & w1 & w' & Hrun & (Htracked & Hclock & evs' & Htrace' & Hbound) & Hsave).
  - intros pre res w1 v d w2 [Ht Hc] Hstep. split.
    + exact (rows_tracked_iteration env cfg w pre res w1 v d w2 Ht Hstep).
    + exact (run_clocked_iteration env cfg w pre res w1 v d w2 Hc Hstep).
  - intros pre res w1 [Ht Hc]. split.
    + exact (rows_tracked_pause cfg w pre res w1 Ht).
    + exact (run_clocked_pause cfg w pre res w1 Hc).
  - discriminate.
  - split.
    + intros _. exists [], []. simpl. rewrite app_nil_r.
      repeat split; try reflexivity.
      apply Forall2_same_length_lookup. split; [reflexivity|].
      intros i u u' Hu Hu'. rewrite Hu in Hu'. injection Hu' as <-.
      split; [reflexivity|]. left. split; [reflexivity|].
      intros d Hin. inversion Hin.
    + split; [lia|]. exists []. rewrite app_nil_r. split; [reflexivity|].
      intros p t r Hin. inversion Hin.
  - destruct (Htracked Hnodup) as (ds & evs & Hds & Hids & Htrace & Hrows).
    assert (evs' = evs) as ->
      by (rewrite Htrace in Htrace'; apply app_inv_head in Htrace'; congruence).
    destruct (saveGreetingStats_frame env res w1) as (w2 & Hsave' & Hu2 & Ht2 & Hc2).
    rewrite Hsave in Hsave'. injection Hsave' as <-.
    exists res, w', evs. split; [exact Hrun|].
    rewrite Hc2, Hu2, Ht2. unfold outcomes. rewrite Hds. simpl. auto 10.
Qed.

Lemma row_state_bitrix_id (ds : list Greetings.Detail) (evs : list Event)
    (u u' : UserRow) :
  row_state ds evs u u' -> u_bitrix_id u' = u_bitrix_id u.
Proof.
  intros [Hsame _]. unfold same_but_last_greeting in Hsame.
  apply (f_equal u_bitrix_id) in Hsame. exact Hsame.
Qed.

(** X2: a second query on the same UTC day.  After a run of
    [sendMorningGreetings], a query placed later on the UTC day on which
    the run began selects no recipient whose outcome was a success, and
    still selects every recipient whose outcome was a failure. *)
Theorem same_day_query_after_run (env : Env) (cfg : Config.t) (w : World) :
  isInitialized w = true ->
  Js.truthy (botId w) = true ->
  db_fault env (db_seq w) = None ->
  NoDup (map u_bitrix_id (users w)) ->
  exists res w',
    Greetings.sendMorningGreetings env cfg w = (Normal res, w') /\
    forall w2,
      users w2 = users w' ->
      clock w' <= clock w2 ->
      Database.toISODate (clock w2) = Database.toISODate (clock w) ->
      db_fault env (db_seq w2) = None ->
      exists rows2 w3,
        Users.getActiveUsersForGreeting env w2 = (Normal rows2, w3) /\
        forall d, d ∈ outcomes res ->
          if Greetings.success d
          then Greetings.userId d ∉ map u_bitrix_id rows2
          else Greetings.userId d ∈ map u_bitrix_id rows2.
Proof.
  intros Hinit Hbot Hdb Hnodup.
  rewrite (sendMorningGreetings_run env cfg w Hinit Hbot Hdb).
  set (today := Database.toISODate (clock w)).
  set (us := Database.order_by_name
               (List.filter (Database.where_morning_greeting today) (users w))).
  destruct (dispatch_rows_in_window env cfg us (set_db_seq (S (db_seq w)) w))
    as (res & w' & evs & Hrun & Hclock & Hids & Htrace & Hbound & Hrows).
  { apply eligible_rows_distinct. exact Hnodup. }
  simpl in Hclock, Hbound, Hrows.
  exists res, w'. split; [exact Hrun|].
  intros w2 Husers Hlater Hday Hdb2.
  rewrite (getActiveUsersForGreeting_run env w2 Hdb2).
  eexists _, _. split; [reflexivity|].
  rewrite Hday, Husers. fold today.
  intros d Hd.
  assert (Hsel : exists u, u ∈ us /\ u_bitrix_id u = Greetings.userId d).
  { assert (Hin : Greetings.userId d ∈ map u_bitrix_id us)
      by (rewrite <- Hids; apply elem_of_map; eauto).
    apply elem_of_map in Hin. destruct Hin as (u & Hu & Hin). eauto. }
  destruct Hsel as (u & Hu & Hid).
  assert (Hu0 : u ∈ users w /\ Database.where_morning_greeting today u = true).
  { unfold us in Hu. rewrite elem_of_order_by_name, list_elem_of_In, filter_In in Hu.
    rewrite list_elem_of_In. exact Hu. }
  destruct Hu0 as [Hu0 Hwhere].
  destruct (Greetings.success d) eqn:Hok.
  - intros Hin. apply elem_of_map in Hin. destruct Hin as (r & Hr & Hin).
    rewrite elem_of_order_by_name, list_elem_of_In, filter_In, <- list_elem_of_In in Hin.
    destruct Hin as [Hin Hwhere2].
    apply list_elem_of_lookup in Hin. destruct Hin as [i Hi].
    destruct (Forall2_lookup_r _ _ _ _ _ Hrows Hi) as (u1 & Hu1 & Hstate).
    pose proof (row_state_bitrix_id _ _ _ _ Hstate) as Hid1.
    destruct Hstate as [_ [(_ & Hfail) | (_ & _ & p & t & mid & Hev & _ & Hstamp)]].
    + rewrite (Hfail d Hd) in Hok; [discriminate | congruence].
    + unfold Database.where_morning_greeting in Hwhere2. rewrite Hstamp in Hwhere2.
      rewrite (toISODate_between (clock w) t (clock w2)) in Hwhere2.
      * fold today in Hwhere2. rewrite Z.ltb_irrefl, andb_false_r in Hwhere2.
        discriminate.
      * specialize (Hbound p t _ Hev). lia.
      * symmetry. exact Hday.
  - apply list_elem_of_lookup in Hu0. destruct Hu0 as [i Hi].
    destruct (Forall2_lookup_l _ _ _ _ _ Hrows Hi) as (r & Hr & Hstate).
    destruct Hstate as [_ [(Heq & _) | (_ & Hall & _)]].
    + subst r. apply elem_of_map. exists u. split; [symmetry; exact Hid|].
      rewrite elem_of_order_by_name, list_elem_of_In, filter_In, <- list_elem_of_In.
      split; [|exact Hwhere]. apply list_elem_of_lookup. eauto.
    + rewrite (Hall d Hd) in Hok; [discriminate | congruence].
Qed.

Lemma same_day_query_after_run_witness :
  exists res w',
    Greetings.sendMorningGreetings flaky_env Config.default twelve_world
      = (Normal res, w') /\
    forall w2,
      users w2 = users w' ->
      clock w' <= clock w2 ->
      Database.toISODate (clock w2) = Database.toISODate (clock twelve_world) ->
      db_fault flaky_env (db_seq w2) = None ->
      exists rows2 w3,
        Users.getActiveUsersForGreeting flaky_env w2 = (Normal rows2, w3) /\
        forall d, d ∈ outcomes res ->
          if Greetings.success d
          then Greetings.userId d ∉ map u_bitrix_id rows2
          else Greetings.userId d ∈ map u_bitrix_id rows2.
Proof.
  apply (same_day_query_after_run flaky_env Config.default twelve_world);
    [reflexivity | reflexivity | reflexivity |].
  apply (bool_decide_unpack _). vm_compute. exact I.
Defined.

(** ** Delivery and bookkeeping of one greeting *)

(** The composer touches nothing but the random source. *)
Lemma generateGreeting_frame (env : Env) (cfg : Config.t)
    (userName : string) (w : World) :
  exists n, snd (Greetings.generateGreeting env cfg userName w) = set_rng_seq n w.
Proof.
  unfold_step. simpl.
  destruct w. split_cases; eexists; reflexivity.
Qed.

(** X3: an answer of the platform that carries no message id is booked
    as a success.  The recipient is marked as greeted and the outcome
    is a success, although [sendMessage] wrote no ['sent'] row. *)
Theorem answer_without_id_counts_as_sent (env : Env) (cfg : Config.t)
    (u : UserRow) (w w1 : World) (message : string) :
  Js.truthy (botId w) = true ->
  Greetings.generateGreeting env cfg (Greetings.userName_of u) w
    = (Normal message, w1) ->
  (forall p, b24_callMethod env (net_seq w) p = Data 0) ->
  db_fault env (db_seq w) = None ->
  exists w' p t,
    Greetings.sendGreetingToUser env cfg u w =
      (Normal {| Greetings.success := true;
                 Greetings.userId := u_bitrix_id u;
                 Greetings.error := None |}, w') /\
    trace w' = trace w ++ [EvCall p t (Data 0)] /\
    message_history w' = message_history w /\
    users w' = stamp (u_bitrix_id u) (t / 1000) (users w).
Proof.
  intros Hbot Hmsg Hreply Hdb.
  destruct (generateGreeting_frame env cfg (Greetings.userName_of u) w) as [n Hw1].
  rewrite Hmsg in Hw1. simpl in Hw1. subst w1.
  unfold Greetings.sendGreetingToUser, try_catch.
  unfold bind at 1. rewrite Hmsg.
  unfold Bot.sendMessage, Bot.callMethod, Database.updateLastGreeting,
    Database.statement, try_catch, bind, get, ret, throw, modify.
  cbn. rewrite Hbot. cbn. rewrite Hreply. cbn. rewrite Hdb. cbn.
  eexists _, _, _. split; [reflexivity|]. auto.
Qed.
(** A platform that answers every call without a message id. *)
Definition mute_env : Env := {|
  b24_callMethod := fun _ _ => Data 0;
  net_latency := fun _ => 0%N;
  db_fault := fun _ => None;
  random := fun n => Z.of_nat n # 10;
  local_date := fun _ => {| getMonth := 5; getDate := 14 |};
  server_time_fault := None
|}.

Lemma answer_without_id_counts_as_sent_witness :
  exists w' p t,
    Greetings.sendGreetingToUser mute_env Config.default (recipient 1 "Анна")
      one_recipient_world =
      (Normal {| Greetings.success := true; Greetings.userId := "1";
                 Greetings.error := None |}, w') /\
    trace w' = trace one_recipient_world ++ [EvCall p t (Data 0)] /\
    message_history w' = message_history one_recipient_world /\
    users w' = stamp "1" (t / 1000) (users one_recipient_world).
Proof.
  eapply (answer_without_id_counts_as_sent mute_env Config.default
            (recipient 1 "Анна") one_recipient_world).
  - reflexivity.
  - vm_compute. reflexivity.
  - intros p. reflexivity.
  - reflexivity.
Defined.

(** X4: a message that was delivered but could not be recorded is
    booked as a failure.  When the platform accepts the message and the
    store then rejects one of the two statements that follow (the
    ['sent'] row, the time stamp), the outcome is a failure and the
    table is left as it was, so the recipient stays eligible. *)
Theorem delivered_but_unrecorded (env : Env) (cfg : Config.t)
    (u : UserRow) (w w1 : World) (message : string) (id : Z) :
  Js.truthy (botId w) = true ->
  Greetings.generateGreeting env cfg (Greetings.userName_of u) w
    = (Normal message, w1) ->
  (forall p, b24_callMethod env (net_seq w) p = Data id) ->
  id <> 0 ->
  db_fault env (db_seq w) <> None \/ db_fault env (S (db_seq w)) <> None ->
  exists w' p t e,
    Greetings.sendGreetingToUser env cfg u w =
      (Normal {| Greetings.success := false;
                 Greetings.userId := u_bitrix_id u;
                 Greetings.error := Some e |}, w') /\
    trace w' = trace w ++ [EvCall p t (Data id)] /\
    DIALOG_ID p = u_bitrix_id u /\ MESSAGE p = message /\
    users w' = users w.
Proof.
  intros Hbot Hmsg Hreply Hid Hdb.
  destruct (generateGreeting_frame env cfg (Greetings.userName_of u) w) as [n Hw1].
  rewrite Hmsg in Hw1. simpl in Hw1. subst w1.
  unfold Greetings.sendGreetingToUser, try_catch.
  unfold bind at 1. rewrite Hmsg.
  unfold Bot.sendMessage, Bot.callMethod, Database.updateLastGreeting,
    Database.saveMessageHistory, Database.statement, try_catch, bind, get,
    ret, throw, modify.
  cbn. rewrite Hbot. cbn. rewrite Hreply. cbn.
  apply Z.eqb_neq in Hid. rewrite Hid. cbn.
  destruct (db_fault env (db_seq w)) as [e1|] eqn:H1; cbn.
  - destruct (db_fault env (S (db_seq w))) as [e2|] eqn:H2; cbn.
    + eexists _, _, _, _. split; [reflexivity|]. auto.
    + destruct (existsb _ (users w)); cbn;
        eexists _, _, _, _; (split; [reflexivity|]); auto.
  - destruct Hdb as [Hdb | Hdb]; [congruence|].
    destruct (db_fault env (S (db_seq w))) as [e2|] eqn:H2; [|congruence].
    destruct (existsb _ (users w)); cbn; rewrite ?H2; cbn;
      eexists _, _, _, _; (split; [reflexivity|]); auto.
Qed.

(** A store that rejects its first statement. *)
Definition first_statement_fails : Env := {|
  b24_callMethod := fun _ _ => Data 1001;
  net_latency := fun _ => 250%N;
  db_fault := fun n => match n with
                       | O => Some "SQLITE_BUSY: database is locked"
                       | S _ => None
                       end;
  random := fun n => Z.of_nat n # 10;
  local_date := fun _ => {| getMonth := 5; getDate := 14 |};
  server_time_fault := None
|}.

Lemma delivered_but_unrecorded_witness :
  exists message w' p t e,
    Greetings.sendGreetingToUser first_statement_fails Config.default
      (recipient 1 "Анна") one_recipient_world =
      (Normal {| Greetings.success := false; Greetings.userId := "1";
                 Greetings.error := Some e |}, w') /\
    trace w' = trace one_recipient_world ++ [EvCall p t (Data 1001)] /\
    DIALOG_ID p = "1" /\ MESSAGE p = message /\
    users w' = users one_recipient_world.
Proof.
  eexists.
  eapply (delivered_but_unrecorded first_statement_fails Config.default
            (recipient 1 "Анна") one_recipient_world).
  - reflexivity.
  - vm_compute. reflexivity.
  - intros p. reflexivity.
  - discriminate.
  - left. discriminate.
Defined.

(** ** Messages outside a run *)

Lemma existsb_bitrix_id_false (id : string) (rows : list UserRow) :
  id ∉ map u_bitrix_id rows ->
  existsb (fun u => String.eqb (u_bitrix_id u) id) rows = false.
Proof.
  intros Hnot. destruct (existsb _ rows) eqn:Hex; [|reflexivity].
  exfalso. apply Hnot. apply existsb_exists in Hex.
  destruct Hex as (u & Hu & Heq). apply String.eqb_eq in Heq. subst id.
  apply elem_of_map. exists u. split; [reflexivity|].
  apply list_elem_of_In. exact Hu.
Qed.

(** What any [sendMessage] does to the world: it never touches the
    [users] table, places at most one call, to the dialog it was given,
    and writes at most one history row, for a known user. *)
Lemma sendMessage_frame (env : Env) (userId message : string)
    (keyboard : option Keyboard) (w : World) :
  exists r w',
    Bot.sendMessage env userId message keyboard w = (r, w') /\
    r <> Diverge /\
    users w' = users w /\
    clock w <= clock w' /\
    (exists evs, trace w' = trace w ++ evs /\
       (evs = [] \/
        exists p t reply, evs = [EvCall p t reply] /\ DIALOG_ID p = userId /\
                          MESSAGE p = message)) /\
    (message_history w' = message_history w \/
     exists h, message_history w' = message_history w ++ [h] /\
               h_user_id h = userId /\ userId ∈ map u_bitrix_id (users w)).
Proof.
  assert (Hfk : forall b, existsb (fun u => String.eqb (u_bitrix_id u) userId)
                            (users w) = b ->
                b = true -> userId ∈ map u_bitrix_id (users w)).
  { intros b Hb ->. apply existsb_exists in Hb. destruct Hb as (u & Hu & Heq).
    apply String.eqb_eq in Heq. subst userId. apply elem_of_map.
    exists u. split; [reflexivity|]. apply list_elem_of_In. exact Hu. }
  unfold Bot.sendMessage, Bot.callMethod, Database.saveMessageHistory,
    Database.statement, try_catch, bind, get, ret, throw, modify.
  pose proof (N2Z.is_nonneg (net_latency env (net_seq w))) as Hlat.
  split_cases;
    eexists _, _; (split; [reflexivity|]); (split; [discriminate|]);
    (split; [reflexivity|]); (split; [simpl; lia|]);
    (split;
     [ first [ exists []; rewrite app_nil_r; split; [reflexivity | left; reflexivity]
             | eexists; split; [reflexivity | right; eauto 10] ]
     | first [ left; reflexivity
             | right; eexists; split; [reflexivity|]; split; [reflexivity|];
               eapply Hfk; [eassumption | reflexivity] ] ]).
Qed.

(** X5: a message to a dialog that is no row of [users] is delivered
    and then reported as an error.  The platform receives the message,
    the ['sent'] row violates the foreign key of [message_history], the
    ['error'] row violates it as well, and [sendMessage] throws with no
    row written; so the webhook that greets a chat the bot has joined
    answers with an error after the greeting went out. *)
Theorem greeting_a_chat_reports_an_error (env : Env) (CHAT_ID : string)
    (w : World) (id : Z) :
  Js.truthy (botId w) = true ->
  ("chat" ++ CHAT_ID)%string ∉ map u_bitrix_id (users w) ->
  (forall p, DIALOG_ID p = ("chat" ++ CHAT_ID)%string ->
             b24_callMethod env (net_seq w) p = Data id) ->
  id <> 0 ->
  exists e w' p t,
    Api.onBotJoinChat env CHAT_ID w = (Normal (Api.WebhookError e), w') /\
    trace w' = trace w ++ [EvCall p t (Data id)] /\
    DIALOG_ID p = ("chat" ++ CHAT_ID)%string /\
    message_history w' = message_history w /\
    users w' = users w.
Proof.
  intros Hbot Hnot Hreply Hid.
  apply existsb_bitrix_id_false in Hnot.
  unfold Api.onBotJoinChat, Bot.sendMessage, Bot.callMethod,
    Database.saveMessageHistory, Database.statement, try_catch, bind, get,
    ret, throw, modify.
  cbn. rewrite Hbot. cbn. rewrite Hreply by reflexivity. cbn.
  apply Z.eqb_neq in Hid. rewrite Hid. cbn.
  destruct (db_fault env (db_seq w)); cbn; rewrite ?Hnot; cbn;
    destruct (db_fault env (S (db_seq w))); cbn; rewrite ?Hnot; cbn;
    eexists _, _, _, _; (split; [reflexivity|]); auto.
Qed.

Lemma greeting_a_chat_reports_an_error_witness :
  exists e w' p t,
    Api.onBotJoinChat flaky_env "7" twelve_world
      = (Normal (Api.WebhookError e), w') /\
    trace w' = trace twelve_world ++ [EvCall p t (Data 1001)] /\
    DIALOG_ID p = "chat7"%string /\
    message_history w' = message_history twelve_world /\
    users w' = users twelve_world.
Proof.
  apply (greeting_a_chat_reports_an_error flaky_env "7" twelve_world 1001).
  - reflexivity.
  - apply (bool_decide_unpack _). vm_compute. exact I.
  - intros p Hp. simpl. rewrite Hp. reflexivity.
  - discriminate.
Defined.

(** ** Connecting to the platform *)

Ltac unfold_initialize :=
  unfold Bot.initialize, Bot.loadBotId, Database.getActiveBotConfig,
    Database.statement, try_catch, bind, get, ret, throw, modify in *.

(** [initialize] reads the bot's id and sets the flag; it sends
    nothing and writes to no table. *)
Lemma initialize_frame (env : Env) (cfg : Config.t) (w : World) :
  exists r w',
    Bot.initialize env cfg w = (r, w') /\ r <> Diverge /\
    users w' = users w /\ message_history w' = message_history w /\
    trace w' = trace w /\ clock w' = clock w /\ net_seq w' = net_seq w /\
    (Js.truthy (bot_config w) = false ->
     Js.truthy (Config.bitrix_botId cfg) = false -> botId w' = botId w).
Proof.
  unfold_initialize. simpl.
  split_cases; eexists _, _; (split; [reflexivity|]);
    (split; [discriminate|]); repeat (split; [reflexivity|]);
    simpl; congruence.
Qed.

(** X6: [initialize] connects once.  After a call that returned, the
    flag is set and every later call returns [true] at once, leaving
    the world as it is; after a call that threw, the flag and the bot's
    id are as before, so that the next call tries again. *)
Theorem initialize_connects_once (env : Env) (cfg : Config.t) (w : World) :
  let (r, w1) := Bot.initialize env cfg w in
  match r with
  | Normal b =>
      b = true /\ isInitialized w1 = true /\
      Bot.initialize env cfg w1 = (Normal true, w1)
  | Abrupt e =>
      isInitialized w = false /\ isInitialized w1 = false /\
      botId w1 = botId w
  | Diverge => False
  end.
Proof.
  unfold_initialize. simpl.
  split_cases; simpl;
    repeat match goal with
           | Hinit : isInitialized ?w0 = _ |- context [isInitialized ?w0] =>
               rewrite Hinit
           end;
    auto.
Qed.
(** Nothing was sent and no table was written between [w] and [w']. *)
Definition quiet (w w' : World) : Prop :=
  users w' = users w /\ message_history w' = message_history w /\
  trace w' = trace w.

(** X7: without a bot id nothing is sent.  When neither the store nor
    the configuration holds a bot id and none is loaded, the morning
    run, the test greeting and the broadcast all throw, whatever the
    platform and the store do, without a call to the platform and
    without a row written. *)
Theorem unregistered_bot_sends_nothing (env : Env) (cfg : Config.t)
    (w : World) (userId message : string) (customMessage : option string)
    (userFilter : option Greetings.UserFilter) :
  Js.truthy (bot_config w) = false ->
  Js.truthy (Config.bitrix_botId cfg) = false ->
  Js.truthy (botId w) = false ->
  (exists e w', Greetings.sendMorningGreetings env cfg w = (Abrupt e, w') /\
                quiet w w') /\
  (exists e w', Greetings.sendTestGreeting env cfg userId customMessage w
                  = (Abrupt e, w') /\ quiet w w') /\
  (exists e w', Greetings.sendBroadcastMessage env cfg message userFilter w
                  = (Abrupt e, w') /\ quiet w w').
Proof.
  intros Hdb Hcfg Hbot.
  destruct (initialize_frame env cfg w)
    as (r & w1 & Hinit & Hr & Hu & Hh & Ht & _ & _ & Hid).
  specialize (Hid Hdb Hcfg).
  assert (Hbot1 : Js.truthy (botId w1) = false) by (rewrite Hid; exact Hbot).
  assert (Hquiet : quiet w w1) by (repeat split; assumption).
  split; [|split].
  - unfold Greetings.sendMorningGreetings, try_catch.
    unfold bind at 1. rewrite Hinit.
    destruct r as [b|e|]; [|eauto|congruence].
    unfold bind, get, throw. rewrite Hbot1. simpl. eauto.
  - unfold Greetings.sendTestGreeting, try_catch.
    unfold bind at 1. rewrite Hinit.
    destruct r as [b|e|]; [|eauto|congruence].
    unfold bind, get, throw. rewrite Hbot1. simpl. eauto.
  - unfold Greetings.sendBroadcastMessage, try_catch.
    unfold bind at 1. rewrite Hinit.
    destruct r as [b|e|]; [|eauto|congruence].
    unfold bind, get, throw. rewrite Hbot1. simpl. eauto.
Qed.

(** A fresh process: nothing in the store, not yet connected. *)
Definition unregistered_world : World := {|
  clock := 1704175200000;
  rng_seq := 0; net_seq := 0; db_seq := 0;
  botId := None; isInitialized := false; bot_config := None;
  users := [recipient 1 "Анна"]; message_history := []; trace := []
|}.

Lemma unregistered_bot_sends_nothing_witness :
  (exists e w', Greetings.sendMorningGreetings sample_env Config.default
                  unregistered_world = (Abrupt e, w') /\
                quiet unregistered_world w') /\
  (exists e w', Greetings.sendTestGreeting sample_env Config.default "1" None
                  unregistered_world = (Abrupt e, w') /\
                quiet unregistered_world w') /\
  (exists e w', Greetings.sendBroadcastMessage sample_env Config.default
                  "Собрание в 15:00" None unregistered_world
                  = (Abrupt e, w') /\
                quiet unregistered_world w').
Proof.
  apply (unregistered_bot_sends_nothing sample_env Config.default
           unregistered_world "1" "Собрание в 15:00" None None);
    reflexivity.
Defined.

(** ** The test greeting and the broadcast *)

Lemma statement_frame (env : Env) (w : World) :
  exists r w',
    Database.statement env w = (r, w') /\ r <> Diverge /\
    users w' = users w /\ message_history w' = message_history w /\
    trace w' = trace w /\ clock w' = clock w /\ botId w' = botId w.
Proof.
  unfold Database.statement.
  destruct (db_fault env (db_seq w)); eexists _, _;
    (split; [reflexivity|]); (split; [discriminate|]); auto.
Qed.

Lemma find_bitrix_id (userId : string) (rows : list UserRow) (u : UserRow) :
  List.find (Database.has_bitrix_id userId) rows = Some u ->
  u ∈ rows /\ u_bitrix_id u = userId.
Proof.
  intros Hfind. apply find_some in Hfind. destruct Hfind as [Hin Heq].
  split; [apply list_elem_of_In; exact Hin|].
  apply String.eqb_eq. exact Heq.
Qed.

(** X8: a test greeting does not use up the day's greeting.  Whatever
    its outcome, [sendTestGreeting] leaves every row of [users] as it
    was; it places at most one call, and only to a user of the table;
    a custom text is sent as it is. *)
Theorem test_greeting_leaves_table (env : Env) (cfg : Config.t)
    (userId : string) (customMessage : option string) (w : World) :
  let (r, w') := Greetings.sendTestGreeting env cfg userId customMessage w in
  r <> Diverge /\
  users w' = users w /\
  exists evs,
    trace w' = trace w ++ evs /\
    (evs = [] \/
     exists p t reply,
       evs = [EvCall p t reply] /\ DIALOG_ID p = userId /\
       userId ∈ map u_bitrix_id (users w) /\
       (Js.truthy customMessage = true -> Some (MESSAGE p) = customMessage)).
Proof.
  assert (Hquiet : forall (r : Completion Greetings.TestResult) w',
            r <> Diverge -> users w' = users w -> trace w' = trace w ->
            r <> Diverge /\ users w' = users w /\
            exists evs,
              trace w' = trace w ++ evs /\
              (evs = [] \/
               exists p t reply,
                 evs = [EvCall p t reply] /\ DIALOG_ID p = userId /\
                 userId ∈ map u_bitrix_id (users w) /\
                 (Js.truthy customMessage = true ->
                  Some (MESSAGE p) = customMessage))).
  { intros r w' Hr Hu Ht. split; [exact Hr|]. split; [exact Hu|].
    exists []. rewrite app_nil_r. auto. }
  unfold Greetings.sendTestGreeting, try_catch.
  unfold bind at 1.
  destruct (initialize_frame env cfg w)
    as (r0 & w0 & Hinit & Hr0 & Hu0 & _ & Ht0 & _ & _ & _).
  rewrite Hinit.
  destruct r0 as [b|e|]; [|apply Hquiet; congruence|congruence].
  unfold bind at 1, get at 1.
  destruct (negb (Js.truthy (botId w0)));
    [apply Hquiet; congruence|].
  unfold bind at 1. unfold Database.getUserByBitrixId.
  unfold bind at 1.
  destruct (statement_frame env w0) as (r1 & w1 & Hst & Hr1 & Hu1 & _ & Ht1 & _).
  rewrite Hst.
  destruct r1 as [[]|e|]; [|apply Hquiet; congruence|congruence].
  unfold bind at 1, get at 1, ret at 1.
  destruct (List.find (Database.has_bitrix_id userId) (users w1)) as [u|] eqn:Hfind;
    [|apply Hquiet; congruence].
  apply find_bitrix_id in Hfind. destruct Hfind as [Hin Hid].
  assert (Hknown : userId ∈ map u_bitrix_id (users w)).
  { rewrite <- Hu0, <- Hu1, <- Hid. apply elem_of_map. eauto. }
  unfold bind at 1.
  set (compose := if Js.truthy customMessage then ret (default "" customMessage)
                  else Greetings.generateGreeting env cfg (Greetings.userName_of u)).
  assert (Hcompose : exists r2 w2,
             compose w1 = (r2, w2) /\ r2 <> Diverge /\
             users w2 = users w1 /\ trace w2 = trace w1 /\
             forall m, r2 = Normal m -> Js.truthy customMessage = true ->
                       Some m = customMessage).
  { unfold compose. destruct (Js.truthy customMessage) eqn:Htruthy.
    - unfold ret. eexists _, _. split; [reflexivity|].
      split; [discriminate|]. repeat split.
      intros m Hm _. injection Hm as <-.
      destruct customMessage; [reflexivity | discriminate].
    - destruct (generateGreeting_frame env cfg (Greetings.userName_of u) w1)
        as [n Hn].
      destruct (Greetings.generateGreeting env cfg (Greetings.userName_of u) w1)
        as [r2 w2] eqn:Hgen.
      simpl in Hn. subst w2. eexists _, _. split; [reflexivity|].
      split; [|repeat split; discriminate].
      revert Hgen. unfold_step. simpl. intros Hgen. split_cases; discriminate. }
  destruct Hcompose as (r2 & w2 & Hc & Hr2 & Hu2 & Ht2 & Hcustom).
  rewrite Hc.
  destruct r2 as [m|e|]; [|apply Hquiet; congruence|congruence].
  unfold bind at 1.
  destruct (sendMessage_frame env userId m (Some Greetings.generateKeyboard) w2)
    as (r3 & w3 & Hsend & Hr3 & Hu3 & _ & (evs & Ht3 & Hevs) & _).
  rewrite Hsend.
  assert (Hgoal : users w3 = users w /\
            exists evs0, trace w3 = trace w ++ evs0 /\
              (evs0 = [] \/
               exists p t reply,
                 evs0 = [EvCall p t reply] /\ DIALOG_ID p = userId /\
                 userId ∈ map u_bitrix_id (users w) /\
                 (Js.truthy customMessage = true ->
                  Some (MESSAGE p) = customMessage))).
  { split; [congruence|]. exists evs.
    split; [rewrite Ht3, Ht2, Ht1, Ht0; reflexivity|].
    destruct Hevs as [-> | (p & t & reply & -> & Hd & Hm)]; [left; reflexivity|].
    right. exists p, t, reply. repeat split; try assumption.
    intros Htruthy. rewrite Hm. apply Hcustom; [reflexivity | exact Htruthy]. }
  destruct r3 as [mid|e|]; [| |congruence]; unfold ret, throw;
    (split; [discriminate | exact Hgoal]).
Qed.
Lemma broadcast_each_spec (env : Env) (cfg : Config.t) (message : string)
    (us : list UserRow) (sent errors : nat) (w : World) :
  exists sent' errors' w' evs,
    Greetings.broadcast_each env cfg message us sent errors w
      = (Normal (sent', errors'), w') /\
    (sent' + errors' = sent + errors + length us)%nat /\
    users w' = users w /\
    trace w' = trace w ++ evs /\
    (sent + length (pauses evs) = sent')%nat /\
    forall p t reply,
      EvCall p t reply ∈ evs ->
      MESSAGE p = message /\ DIALOG_ID p ∈ map u_bitrix_id us.
Proof.
  revert sent errors w.
  induction us as [|u us IH]; intros sent errors w; simpl.
  - unfold ret. exists sent, errors, w, []. rewrite app_nil_r.
    split; [reflexivity|]. split; [simpl; lia|]. split; [reflexivity|].
    split; [reflexivity|]. split; [simpl; lia|].
    intros p t reply Hin. inversion Hin.
  - unfold bind at 1, try_catch. unfold bind at 1.
    destruct (sendMessage_frame env (u_bitrix_id u) message None w)
      as (r & w1 & Hsend & Hr & Hu & _ & (evs1 & Ht & Hevs1) & _).
    rewrite Hsend.
    assert (Hcalls : forall p t reply,
              EvCall p t reply ∈ evs1 ->
              MESSAGE p = message /\ DIALOG_ID p = u_bitrix_id u).
    { intros p t reply Hin.
      destruct Hevs1 as [-> | (p1 & t1 & r1 & -> & Hd & Hm)]; [inversion Hin|].
      apply list_elem_of_singleton in Hin. injection Hin as -> -> ->. auto. }
    assert (Hp1 : pauses evs1 = []).
    { destruct Hevs1 as [-> | (p1 & t1 & r1 & -> & _)]; reflexivity. }
    destruct r as [mid|e|]; [| |congruence].
    + unfold bind at 1.
      set (delay := Config.delayBetweenMessages (Config.bot cfg)).
      change (Greetings.sleep delay w1)
        with (Normal tt, snd (Greetings.sleep delay w1)).
      cbv iota. unfold ret at 1.
      destruct (IH (S sent) errors (snd (Greetings.sleep delay w1)))
        as (s' & e' & w' & evs & Hrun & Hsum & Hu' & Ht' & Hp & Hcalls').
      exists s', e', w', (evs1 ++ [EvSleep delay] ++ evs).
      split; [exact Hrun|]. split; [lia|].
      split; [rewrite Hu'; exact Hu|].
      split; [rewrite Ht'; simpl; rewrite Ht, <- !app_assoc; reflexivity|].
      split; [rewrite !pauses_app, Hp1; simpl; simpl in Hp; lia|].
      intros p t reply Hin. apply elem_of_app in Hin. destruct Hin as [Hin | Hin].
      * destruct (Hcalls p t reply Hin) as [Hm Hd]. split; [exact Hm|].
        rewrite Hd. apply list_elem_of_here.
      * apply elem_of_cons in Hin. destruct Hin as [Hin | Hin]; [discriminate|].
        destruct (Hcalls' p t reply Hin) as [Hm Hd]. split; [exact Hm|].
        apply list_elem_of_further. exact Hd.
    + unfold ret at 1.
      destruct (IH sent (S errors) w1)
        as (s' & e' & w' & evs & Hrun & Hsum & Hu' & Ht' & Hp & Hcalls').
      exists s', e', w', (evs1 ++ evs).
      split; [exact Hrun|]. split; [lia|].
      split; [rewrite Hu'; exact Hu|].
      split; [rewrite Ht', Ht, <- app_assoc; reflexivity|].
      split; [rewrite pauses_app, Hp1; simpl; exact Hp|].
      intros p t reply Hin. apply elem_of_app in Hin. destruct Hin as [Hin | Hin].
      * destruct (Hcalls p t reply Hin) as [Hm Hd]. split; [exact Hm|].
        rewrite Hd. apply list_elem_of_here.
      * destruct (Hcalls' p t reply Hin) as [Hm Hd]. split; [exact Hm|].
        apply list_elem_of_further. exact Hd.
Qed.

(** X9: the broadcast accounts for every addressee and reaches only
    subscribers.  Whatever its outcome, [sendBroadcastMessage] leaves
    [users] as it was.  When it returns, every selected user is counted
    once, as sent or as an error; there is one pause per message
    counted as sent; and every call carries the given text to a user
    whose [is_active] is 1.  When it throws, nothing was sent. *)
Theorem broadcast_accounts_for_everyone (env : Env) (cfg : Config.t)
    (message : string) (userFilter : option Greetings.UserFilter)
    (w : World) :
  let (r, w') := Greetings.sendBroadcastMessage env cfg message userFilter w in
  users w' = users w /\
  match r with
  | Normal res =>
      (Greetings.b_sent res + Greetings.b_errors res = Greetings.b_total res)%nat /\
      Greetings.b_total res =
        length (List.filter (Greetings.where_broadcast userFilter) (users w)) /\
      exists evs,
        trace w' = trace w ++ evs /\
        length (pauses evs) = Greetings.b_sent res /\
        forall p t reply,
          EvCall p t reply ∈ evs ->
          MESSAGE p = message /\
          exists u, u ∈ users w /\ u_bitrix_id u = DIALOG_ID p /\
                    u_is_active u = 1
  | Abrupt e => trace w' = trace w
  | Diverge => False
  end.
Proof.
  unfold Greetings.sendBroadcastMessage, try_catch.
  unfold bind at 1.
  destruct (initialize_frame env cfg w)
    as (r0 & w0 & Hinit & Hr0 & Hu0 & _ & Ht0 & _ & _ & _).
  rewrite Hinit.
  destruct r0 as [b|e|]; [|split; assumption|congruence].
  unfold bind at 1, get at 1.
  destruct (negb (Js.truthy (botId w0))); [split; assumption|].
  unfold bind at 1.
  destruct (statement_frame env w0) as (r1 & w1 & Hst & Hr1 & Hu1 & _ & Ht1 & _).
  rewrite Hst.
  destruct r1 as [[]|e|]; [|split; congruence|congruence].
  unfold bind at 1, get at 1. unfold bind at 1.
  destruct (broadcast_each_spec env cfg message
              (List.filter (Greetings.where_broadcast userFilter) (users w1)) 0 0 w1)
    as (s' & e' & w' & evs & Hrun & Hsum & Hu' & Ht' & Hp & Hcalls).
  rewrite Hrun. unfold ret. simpl.
  split; [congruence|]. split; [lia|].
  split; [rewrite Hu1, Hu0; reflexivity|].
  exists evs. split; [rewrite Ht', Ht1, Ht0; reflexivity|].
  split; [exact Hp|].
  intros p t reply Hin. destruct (Hcalls p t reply Hin) as [Hm Hd].
  split; [exact Hm|].
  apply elem_of_map in Hd. destruct Hd as (u & Hd & Hu).
  apply list_elem_of_In, filter_In in Hu. destruct Hu as [Hu Hwhere].
  exists u. split; [rewrite <- Hu0, <- Hu1; apply list_elem_of_In; exact Hu|].
  split; [symmetry; exact Hd|].
  unfold Greetings.where_broadcast in Hwhere.
  apply andb_true_iff in Hwhere. destruct Hwhere as [Hactive _].
  apply Z.eqb_eq. exact Hactive.
Qed.

(** ** The users table *)

(** Every row of [rows] is still in [rows'], with its subscription
    state: the same [bitrix_id], [is_active] and [last_greeting_sent]. *)
Definition subscriptions_kept (rows rows' : list UserRow) : Prop :=
  forall u, u ∈ rows ->
    exists u', u' ∈ rows' /\
      u_bitrix_id u' = u_bitrix_id u /\
      u_is_active u' = u_is_active u /\
      u_last_greeting_sent u' = u_last_greeting_sent u /\
      u_created_at u' = u_created_at u.

Lemma subscriptions_kept_refl (rows : list UserRow) :
  subscriptions_kept rows rows.
Proof. intros u Hu. exists u. auto. Qed.

Lemma subscriptions_kept_trans (rows1 rows2 rows3 : list UserRow) :
  subscriptions_kept rows1 rows2 -> subscriptions_kept rows2 rows3 ->
  subscriptions_kept rows1 rows3.
Proof.
  intros H12 H23 u Hu.
  destruct (H12 u Hu) as (u2 & Hu2 & Hid2 & Ha2 & Hg2 & Hc2).
  destruct (H23 u2 Hu2) as (u3 & Hu3 & Hid3 & Ha3 & Hg3 & Hc3).
  exists u3. repeat split; congruence.
Qed.

Lemma subscriptions_kept_update (d : Database.UserData) (now : Z)
    (rows : list UserRow) :
  subscriptions_kept rows
    (map (fun u => if Database.has_bitrix_id (Database.d_bitrix_id d) u
                   then Database.update_profile d now u else u) rows).
Proof.
  intros u Hu.
  exists (if Database.has_bitrix_id (Database.d_bitrix_id d) u
          then Database.update_profile d now u else u).
  split; [apply elem_of_map; eauto|].
  destruct (Database.has_bitrix_id _ u); auto.
Qed.

Lemma subscriptions_kept_insert (rows : list UserRow) (u0 : UserRow) :
  subscriptions_kept rows (rows ++ [u0]).
Proof.
  intros u Hu. exists u. split; [apply elem_of_app; left; exact Hu|]. auto.
Qed.

(** What [saveUser] does to the world. *)
Lemma saveUser_frame (env : Env) (d : Database.UserData) (w : World) :
  exists r w',
    Database.saveUser env d w = (r, w') /\ r <> Diverge /\
    subscriptions_kept (users w) (users w') /\
    map u_bitrix_id (users w') ⊆ Database.d_bitrix_id d :: map u_bitrix_id (users w) /\
    (NoDup (map u_bitrix_id (users w)) -> NoDup (map u_bitrix_id (users w'))) /\
    message_history w' = message_history w /\ trace w' = trace w /\
    clock w' = clock w /\
    (r = Normal tt -> Database.d_bitrix_id d ∈ map u_bitrix_id (users w')).
Proof.
  unfold Database.saveUser, Database.statement, bind, get, ret, throw, modify.
  destruct (db_fault env (db_seq w)) as [e|].
  { eexists _, _. split; [reflexivity|]. split; [discriminate|].
    split; [apply subscriptions_kept_refl|].
    split; [apply list_subseteq_cons; reflexivity|].
    repeat split; auto; discriminate. }
  cbn.
  assert (Hids : forall now,
            map u_bitrix_id
              (map (fun u => if Database.has_bitrix_id (Database.d_bitrix_id d) u
                             then Database.update_profile d now u else u)
                   (users w))
            = map u_bitrix_id (users w)).
  { intros now. rewrite map_map. apply map_ext. intros u.
    destruct (Database.has_bitrix_id _ u); reflexivity. }
  destruct (List.find (Database.has_bitrix_id (Database.d_bitrix_id d)) (users w))
    as [u0|] eqn:Hfind; cbn;
    (destruct (db_fault env (S (db_seq w))) as [e|]; cbn;
     [ eexists _, _; split; [reflexivity|]; split; [discriminate|];
       split; [apply subscriptions_kept_refl|];
       split; [apply list_subseteq_cons; reflexivity|];
       repeat split; auto; discriminate |]).
  - eexists _, _. split; [reflexivity|]. split; [discriminate|].
    cbn [users message_history trace clock set_users set_db_seq].
    split; [apply subscriptions_kept_update|].
    rewrite Hids.
    split; [apply list_subseteq_cons; reflexivity|].
    repeat split; auto.
    intros _. apply find_bitrix_id in Hfind. destruct Hfind as [Hin <-].
    apply elem_of_map. eauto.
  - eexists _, _. split; [reflexivity|]. split; [discriminate|].
    cbn [users message_history trace clock set_users set_db_seq].
    split; [apply subscriptions_kept_insert|].
    rewrite map_app. simpl.
    split; [intros x Hx; apply elem_of_app in Hx; destruct Hx as [Hx | Hx];
            [apply list_elem_of_further; exact Hx
            |apply list_elem_of_singleton in Hx; subst x; apply list_elem_of_here]|].
    split.
    { intros Hnodup. apply NoDup_app. split; [exact Hnodup|].
      split; [|apply NoDup_singleton].
      intros x Hx Hx'. apply list_elem_of_singleton in Hx'. subst x.
      apply elem_of_map in Hx. destruct Hx as (u & Hid & Hu).
      pose proof (find_none _ _ Hfind u) as Hnone.
      rewrite <- list_elem_of_In in Hnone. specialize (Hnone Hu).
      unfold Database.has_bitrix_id in Hnone.
      apply String.eqb_neq in Hnone. congruence. }
    repeat split; auto.
    intros _. apply elem_of_app. right. apply list_elem_of_here.
Qed.

(** X10: saving a profile never changes a subscription.  Whatever the
    store does, after [saveUser] every row that was in [users] is still
    there with the same [is_active], [last_greeting_sent] and
    [created_at]; and nothing is sent or logged. *)
Theorem saveUser_keeps_subscriptions (env : Env) (d : Database.UserData)
    (w : World) :
  let (r, w') := Database.saveUser env d w in
  r <> Diverge /\
  subscriptions_kept (users w) (users w') /\
  message_history w' = message_history w /\ trace w' = trace w.
Proof.
  destruct (saveUser_frame env d w)
    as (r & w' & Hrun & Hr & Hkept & _ & _ & Hh & Ht & _).
  rewrite Hrun. auto.
Qed.
Lemma fold_left_max_le (ids : list Z) (i : Z) :
  i <= fold_left Z.max ids i /\ forall x, x ∈ ids -> x <= fold_left Z.max ids i.
Proof.
  revert i. induction ids as [|j ids IH]; intros i; simpl.
  - split; [lia|]. intros x Hx. inversion Hx.
  - destruct (IH (Z.max i j)) as [Hle Hall]. split; [lia|].
    intros x Hx. apply elem_of_cons in Hx. destruct Hx as [-> | Hx]; [lia|].
    apply Hall. exact Hx.
Qed.

Lemma next_rowid_fresh (rows : list UserRow) :
  Database.next_rowid rows ∉ map u_id rows.
Proof.
  unfold Database.next_rowid. intros Hin.
  destruct (map u_id rows) as [|i ids]; [inversion Hin|].
  destruct (fold_left_max_le ids i) as [Hle Hall].
  apply elem_of_cons in Hin. destruct Hin as [Hin | Hin]; [lia|].
  specialize (Hall _ Hin). lia.
Qed.

Lemma find_map_update (userId : string) (f : UserRow -> UserRow)
    (rows : list UserRow) (u0 : UserRow) :
  (forall u, u_bitrix_id (f u) = u_bitrix_id u) ->
  List.find (Database.has_bitrix_id userId) rows = Some u0 ->
  List.find (Database.has_bitrix_id userId)
    (map (fun u => if Database.has_bitrix_id userId u then f u else u) rows)
  = Some (f u0).
Proof.
  intros Hf. induction rows as [|u rows IH]; simpl; [discriminate|].
  destruct (Database.has_bitrix_id userId u) eqn:Hu.
  - intros [= <-]. unfold Database.has_bitrix_id in *. rewrite Hf, Hu. reflexivity.
  - rewrite Hu. exact IH.
Qed.

Lemma find_app_new (userId : string) (rows : list UserRow) (u0 : UserRow) :
  List.find (Database.has_bitrix_id userId) rows = None ->
  u_bitrix_id u0 = userId ->
  List.find (Database.has_bitrix_id userId) (rows ++ [u0]) = Some u0.
Proof.
  intros Hnone Hid. induction rows as [|u rows IH]; simpl in *.
  - unfold Database.has_bitrix_id. rewrite Hid, String.eqb_refl. reflexivity.
  - destruct (Database.has_bitrix_id userId u); [discriminate|]. auto.
Qed.

(** The profile columns of a row are those of [d]. *)
Definition has_profile (d : Database.UserData) (u : UserRow) : Prop :=
  u_bitrix_id u = Database.d_bitrix_id d /\
  u_name u = Database.d_name d /\
  u_first_name u = Database.d_first_name d /\
  u_last_name u = Database.d_last_name d /\
  u_email u = Database.d_email d /\
  u_work_position u = Database.d_work_position d /\
  u_department u = Database.d_department d.

(** X11: a saved profile is the one found afterwards, and a new user is
    eligible at once.  When the store accepts the two statements of
    [saveUser], the row that a lookup by [bitrix_id] finds afterwards
    carries the saved profile; if the id was not in the table, the row
    is new (its key is fresh), subscribed and never greeted, so that
    the next query for recipients selects it whatever the date. *)
Theorem saved_profile_is_found (env : Env) (d : Database.UserData)
    (w : World) :
  db_fault env (db_seq w) = None ->
  db_fault env (S (db_seq w)) = None ->
  exists w' u,
    Database.saveUser env d w = (Normal tt, w') /\
    List.find (Database.has_bitrix_id (Database.d_bitrix_id d)) (users w')
      = Some u /\
    has_profile d u /\
    (Database.d_bitrix_id d ∉ map u_bitrix_id (users w) ->
     users w' = users w ++ [u] /\
     (u_id u ∉ map u_id (users w)) /\
     forall today, Database.where_morning_greeting today u = true).
Proof.
  intros Hdb1 Hdb2.
  unfold Database.saveUser, Database.statement, bind, get, ret, throw, modify.
  rewrite Hdb1. cbn. 
  destruct (List.find (Database.has_bitrix_id (Database.d_bitrix_id d)) (users w))
    as [u0|] eqn:Hfind; cbn; rewrite Hdb2; cbn.
  - eexists _, _. split; [reflexivity|].
    cbn [users set_users set_db_seq].
    split; [apply (find_map_update _ (Database.update_profile d _));
            [reflexivity | exact Hfind]|].
    apply find_bitrix_id in Hfind. destruct Hfind as [Hin Hid].
    split; [repeat split; exact Hid|].
    intros Hnot. exfalso. apply Hnot. rewrite <- Hid. apply elem_of_map. eauto.
  - eexists _, _. split; [reflexivity|].
    cbn [users set_users set_db_seq].
    split; [apply find_app_new; [exact Hfind | reflexivity]|].
    split; [repeat split|].
    intros _. split; [reflexivity|].
    split; [apply next_rowid_fresh|]. reflexivity.
Qed.

Definition new_colleague : Database.UserData := {|
  Database.d_bitrix_id := "77";
  Database.d_name := Some "Пётр Иванов";
  Database.d_first_name := Some "Пётр";
  Database.d_last_name := Some "Иванов";
  Database.d_email := Some "petr@example.com";
  Database.d_work_position := Some "Инженер";
  Database.d_department := Some "5"
|}.

Lemma saved_profile_is_found_witness :
  exists w' u,
    Database.saveUser sample_env new_colleague one_recipient_world
      = (Normal tt, w') /\
    List.find (Database.has_bitrix_id "77") (users w') = Some u /\
    has_profile new_colleague u /\
    ("77" ∉ map u_bitrix_id (users one_recipient_world) ->
     users w' = users one_recipient_world ++ [u] /\
     (u_id u ∉ map u_id (users one_recipient_world)) /\
     forall today, Database.where_morning_greeting today u = true).
Proof.
  apply (saved_profile_is_found sample_env new_colleague one_recipient_world);
    reflexivity.
Defined.
Lemma subscriptions_kept_ids (rows rows' : list UserRow) (id : string) :
  subscriptions_kept rows rows' ->
  id ∈ map u_bitrix_id rows -> id ∈ map u_bitrix_id rows'.
Proof.
  intros Hkept Hin. apply elem_of_map in Hin. destruct Hin as (u & -> & Hu).
  destruct (Hkept u Hu) as (u' & Hu' & Hid & _).
  apply elem_of_map. exists u'. auto.
Qed.

Lemma sync_each_spec (env : Env) (bitrixUsers : list Users.BitrixUser)
    (synced errors : nat) (w : World) :
  exists synced' errors' w',
    Users.sync_each env bitrixUsers synced errors w
      = (Normal (synced', errors'), w') /\
    (synced' + errors' = synced + errors + length bitrixUsers)%nat /\
    subscriptions_kept (users w) (users w') /\
    (NoDup (map u_bitrix_id (users w)) -> NoDup (map u_bitrix_id (users w'))) /\
    message_history w' = message_history w /\ trace w' = trace w /\
    ((forall n, db_fault env n = None) ->
     errors' = errors /\
     forall b, b ∈ bitrixUsers -> Users.ID b ∈ map u_bitrix_id (users w')).
Proof.
  revert synced errors w.
  induction bitrixUsers as [|b bs IH]; intros synced errors w; simpl.
  - unfold ret. exists synced, errors, w.
    split; [reflexivity|]. split; [lia|].
    split; [apply subscriptions_kept_refl|]. repeat split; auto.
    intros b Hb. inversion Hb.
  - unfold bind at 1, try_catch. unfold bind at 1.
    destruct (saveUser_frame env (Users.profile_of b) w)
      as (r & w1 & Hsave & Hr & Hkept & _ & Hnodup & Hh & Ht & _ & Hsaved).
    rewrite Hsave.
    assert (Hok : (forall n, db_fault env n = None) -> r = Normal tt).
    { intros Hdb. revert Hsave.
      unfold Database.saveUser, Database.statement, bind, get, ret, throw, modify.
      rewrite Hdb. cbn.
      destruct (List.find _ (users w)); cbn; rewrite Hdb; cbn; congruence. }
    destruct r as [[]|e|]; [| |congruence]; unfold ret at 1.
    + destruct (IH (S synced) errors w1)
        as (s' & e' & w' & Hrun & Hsum & Hkept' & Hnodup' & Hh' & Ht' & Hall).
      exists s', e', w'. split; [exact Hrun|]. split; [lia|].
      split; [eapply subscriptions_kept_trans; eassumption|].
      split; [auto|]. split; [congruence|]. split; [congruence|].
      intros Hdb. destruct (Hall Hdb) as [He Hin]. split; [exact He|].
      intros b0 Hb0. apply elem_of_cons in Hb0. destruct Hb0 as [-> | Hb0]; [|auto].
      apply (subscriptions_kept_ids (users w1)); [exact Hkept'|].
      apply Hsaved. reflexivity.
    + destruct (IH synced (S errors) w1)
        as (s' & e' & w' & Hrun & Hsum & Hkept' & Hnodup' & Hh' & Ht' & Hall).
      exists s', e', w'. split; [exact Hrun|]. split; [lia|].
      split; [eapply subscriptions_kept_trans; eassumption|].
      split; [auto|]. split; [congruence|]. split; [congruence|].
      intros Hdb. specialize (Hok Hdb). discriminate.
Qed.

(** X12: a synchronisation accounts for every employee and changes no
    subscription.  Whatever the platform and the store do, when
    [syncUsers] returns, each employee of the answer is counted once,
    as synced or as an error; every row that was in [users] is still
    there with its [is_active] and [last_greeting_sent]; nothing is
    sent.  When it throws, the table is as it was. *)
Theorem sync_accounts_for_everyone (env : Env) (cfg : Config.t)
    (reply : Users.UserGetReply) (w : World) :
  let (r, w') := Users.syncUsers env cfg reply w in
  subscriptions_kept (users w) (users w') /\
  message_history w' = message_history w /\ trace w' = trace w /\
  match r with
  | Normal res =>
      (Users.synced res + Users.sync_errors res = Users.sync_total res)%nat /\
      exists data,
        reply = Users.UserList data /\
        Users.sync_total res = length (List.filter Users.is_employee data)
  | Abrupt e => users w' = users w
  | Diverge => False
  end.
Proof.
  unfold Users.syncUsers, Users.fetchUsersFromBitrix, try_catch.
  unfold bind at 1. unfold bind at 1.
  destruct (initialize_frame env cfg w)
    as (r0 & w0 & Hinit & Hr0 & Hu0 & Hh0 & Ht0 & _).
  rewrite Hinit.
  assert (Hsame : subscriptions_kept (users w) (users w0))
    by (rewrite Hu0; apply subscriptions_kept_refl).
  destruct r0 as [b|e|]; [|repeat split; assumption|congruence].
  destruct reply as [data|e]; [|unfold throw; repeat split; assumption].
  unfold ret at 1. unfold bind at 1.
  destruct (sync_each_spec env (List.filter Users.is_employee data) 0 0 w0)
    as (s' & e' & w' & Hrun & Hsum & Hkept & _ & Hh & Ht & _).
  rewrite Hrun. unfold ret. simpl.
  split; [eapply subscriptions_kept_trans; eassumption|].
  split; [congruence|]. split; [congruence|].
  split; [lia|]. exists data. split; reflexivity.
Qed.

(** X13: with a store that answers, a synchronisation leaves a row for
    every employee.  When the platform answers with a list of users and
    no statement fails, no error is counted, every employee of the list
    has a row in [users] afterwards, and no two rows share a [bitrix_id]
    if none did before. *)
Theorem sync_registers_every_employee (env : Env) (cfg : Config.t)
    (data : list Users.BitrixUser) (w : World) :
  (forall n, db_fault env n = None) ->
  server_time_fault env = None ->
  NoDup (map u_bitrix_id (users w)) ->
  exists res w',
    Users.syncUsers env cfg (Users.UserList data) w = (Normal res, w') /\
    Users.sync_errors res = 0%nat /\
    Users.synced res = length (List.filter Users.is_employee data) /\
    NoDup (map u_bitrix_id (users w')) /\
    forall b, b ∈ data -> Users.is_employee b = true ->
              Users.ID b ∈ map u_bitrix_id (users w').
Proof.
  intros Hdb Hserver Hnodup.
  unfold Users.syncUsers, Users.fetchUsersFromBitrix, try_catch.
  unfold bind at 1. unfold bind at 1.
  destruct (initialize_frame env cfg w)
    as (r0 & w0 & Hinit & Hr0 & Hu0 & _).
  assert (Hready : exists b, r0 = Normal b).
  { pose proof (Hdb (db_seq w)) as Hdb0. clear Hdb.
    revert Hinit. unfold_initialize. simpl.
    split_cases; intros; simplify_eq; eauto. }
  destruct Hready as [b ->]. rewrite Hinit.
  unfold ret at 1. unfold bind at 1.
  destruct (sync_each_spec env (List.filter Users.is_employee data) 0 0 w0)
    as (s' & e' & w' & Hrun & Hsum & _ & Hnodup' & _ & _ & Hall).
  rewrite Hrun. unfold ret. simpl.
  destruct (Hall Hdb) as [He Hin].
  eexists _, _. split; [reflexivity|]. simpl.
  split; [exact He|]. split; [lia|].
  split; [apply Hnodup'; rewrite Hu0; exact Hnodup|].
  intros b0 Hb0 Hemp. apply Hin.
  apply list_elem_of_In, filter_In. split; [apply list_elem_of_In; exact Hb0 | exact Hemp].
Qed.
Definition platform_users : list Users.BitrixUser :=
  [ {| Users.ID := "1"; Users.NAME := Some "Анна"; Users.LAST_NAME := Some "Орлова";
       Users.EMAIL := Some "anna@example.com"; Users.WORK_POSITION := None;
       Users.UF_DEPARTMENT := Users.DepartmentList [1; 22];
       Users.ACTIVE := true |};
    {| Users.ID := "77"; Users.NAME := Some "Пётр"; Users.LAST_NAME := None;
       Users.EMAIL := None; Users.WORK_POSITION := Some "Инженер";
       Users.UF_DEPARTMENT := Users.DepartmentValue None;
       Users.ACTIVE := true |};
    {| Users.ID := "90"; Users.NAME := Some "Робот"; Users.LAST_NAME := None;
       Users.EMAIL := Some "bot@example.com"; Users.WORK_POSITION := None;
       Users.UF_DEPARTMENT := Users.DepartmentValue None;
       Users.ACTIVE := true |} ].

Lemma sync_registers_every_employee_witness :
  exists res w',
    Users.syncUsers sample_env Config.default (Users.UserList platform_users)
      one_recipient_world = (Normal res, w') /\
    Users.sync_errors res = 0%nat /\
    Users.synced res = length (List.filter Users.is_employee platform_users) /\
    NoDup (map u_bitrix_id (users w')) /\
    forall b, b ∈ platform_users -> Users.is_employee b = true ->
              Users.ID b ∈ map u_bitrix_id (users w').
Proof.
  apply (sync_registers_every_employee sample_env Config.default
           platform_users one_recipient_world).
  - intros n. reflexivity.
  - reflexivity.
  - apply (bool_decide_unpack _). vm_compute. exact I.
Defined.

(** X14: [updateUser] changes only the fields it is given, of the rows
    it is aimed at.  With no field given it answers [false] and leaves
    the world exactly as it was, without a statement.  Otherwise, and
    whatever the store does, rows with another [bitrix_id] are
    untouched, and no row changes its key, its [bitrix_id], its names,
    its department, its [last_greeting_sent] or its [created_at]. *)
Theorem updateUser_touches_only_its_fields (env : Env) (userId : string)
    (updates : Users.Updates) (w : World) :
  let (r, w') := Users.updateUser env userId updates w in
  r <> Diverge /\
  (Users.no_updates updates = true -> r = Normal false /\ w' = w) /\
  Forall2
    (fun u u' =>
       (u_bitrix_id u <> userId -> u' = u) /\
       u_id u' = u_id u /\ u_bitrix_id u' = u_bitrix_id u /\
       u_first_name u' = u_first_name u /\ u_last_name u' = u_last_name u /\
       u_department u' = u_department u /\
       u_last_greeting_sent u' = u_last_greeting_sent u /\
       u_created_at u' = u_created_at u /\
       (Users.up_is_active updates = None -> u_is_active u' = u_is_active u))
    (users w) (users w') /\
  message_history w' = message_history w /\ trace w' = trace w.
Proof.
  assert (Hrefl : Forall2
    (fun u u' =>
       (u_bitrix_id u <> userId -> u' = u) /\
       u_id u' = u_id u /\ u_bitrix_id u' = u_bitrix_id u /\
       u_first_name u' = u_first_name u /\ u_last_name u' = u_last_name u /\
       u_department u' = u_department u /\
       u_last_greeting_sent u' = u_last_greeting_sent u /\
       u_created_at u' = u_created_at u /\
       (Users.up_is_active updates = None -> u_is_active u' = u_is_active u))
    (users w) (users w)).
  { apply Forall2_same_length_lookup. split; [reflexivity|].
    intros i u u' Hu Hu'. rewrite Hu in Hu'. injection Hu' as <-.
    repeat split; reflexivity. }
  unfold Users.updateUser, try_catch.
  destruct (Users.no_updates updates) eqn:Hnone.
  { unfold ret. split; [discriminate|]. split; [auto|]. auto. }
  unfold Database.statement, bind, get, ret, throw, modify.
  destruct (db_fault env (db_seq w)) as [e|]; cbn [users message_history trace set_users set_db_seq].
  { split; [discriminate|]. split; [discriminate|]. auto. }
  split; [discriminate|]. split; [discriminate|].
  split; [|auto].
  apply Forall2_fmap_r.
  apply Forall2_same_length_lookup. split; [reflexivity|].
  intros i u u' Hu Hu'. rewrite Hu in Hu'. injection Hu' as <-.
  unfold Database.has_bitrix_id, compose. cbv beta.
  destruct (String.eqb (u_bitrix_id u) userId) eqn:Heq.
  - apply String.eqb_eq in Heq. simpl.
    split; [congruence|]. do 7 (split; [reflexivity|]).
    intros ->. reflexivity.
  - repeat split; reflexivity.
Qed.
(** ** Commands *)

Lemma reply_to_frame (env : Env) (userId text : string) (w : World) :
  exists r w',
    Bot.reply_to env userId text w = (r, w') /\ r <> Diverge /\
    users w' = users w.
Proof.
  unfold Bot.reply_to. unfold bind at 1.
  destruct (sendMessage_frame env userId text None w)
    as (r & w' & Hsend & Hr & Hu & _).
  rewrite Hsend. destruct r as [mid|e|]; [| |congruence];
    eexists _, _; (split; [reflexivity|]); (split; [discriminate | exact Hu]).
Qed.

(** The table after [UPDATE users SET is_active = a WHERE bitrix_id = userId]. *)
Definition with_is_active (a : Z) (userId : string) (rows : list UserRow)
  : list UserRow :=
  map (fun u => if Database.has_bitrix_id userId u
                then Database.set_is_active a u else u) rows.

Lemma subscribe_command_users (env : Env) (a : Z) (userId text : string)
    (w : World) :
  db_fault env (db_seq w) = None ->
  exists r w',
    (let* _ := Database.setUserActive env a userId in
     Bot.reply_to env userId text)%eff w = (r, w') /\
    r <> Diverge /\ users w' = with_is_active a userId (users w).
Proof.
  intros Hdb. unfold bind at 1.
  unfold Database.setUserActive, Database.statement, bind, modify.
  rewrite Hdb.
  match goal with
  | |- context [Bot.reply_to env userId text ?w1] =>
      destruct (reply_to_frame env userId text w1) as (r & w' & Hrun & Hr & Hu)
  end.
  exists r, w'. split; [exact Hrun|]. split; [exact Hr|].
  rewrite Hu. reflexivity.
Qed.

(** X15: [/stop] takes its sender out of every later run.  When a
    message whose command is [stop] arrives at the webhook and the
    store accepts the update, the sender's rows get [is_active = 0],
    whether or not the confirmation could then be sent, and a later
    query for recipients does not select the sender, whatever the
    date. *)
Theorem stop_command_unsubscribes (env : Env) (MESSAGE params userId : string)
    (w : World) :
  Api.text_command MESSAGE = Some ("stop"%string, params) ->
  db_fault env (db_seq w) = None ->
  exists r w',
    Api.onBotMessageAdd env MESSAGE userId w = (Normal r, w') /\
    users w' = with_is_active 0 userId (users w) /\
    forall w2,
      users w2 = users w' ->
      db_fault env (db_seq w2) = None ->
      exists rows w3,
        Users.getActiveUsersForGreeting env w2 = (Normal rows, w3) /\
        userId ∉ map u_bitrix_id rows.
Proof.
  intros Hcmd Hdb.
  unfold Api.onBotMessageAdd, try_catch. rewrite Hcmd.
  unfold bind at 1.
  change (Bot.handleCommand env "stop" params userId)
    with (let* _ := Database.setUserActive env 0 userId in
          Bot.reply_to env userId
            "✅ Вы отписались от утренних приветствий. Чтобы подписаться снова, используйте команду /start")%eff.
  destruct (subscribe_command_users env 0 userId
              "✅ Вы отписались от утренних приветствий. Чтобы подписаться снова, используйте команду /start"
              w Hdb) as (r & w' & Hrun & Hr & Hu).
  rewrite Hrun.
  assert (Hlater : forall w2,
            users w2 = users w' ->
            db_fault env (db_seq w2) = None ->
            exists rows w3,
              Users.getActiveUsersForGreeting env w2 = (Normal rows, w3) /\
              userId ∉ map u_bitrix_id rows).
  { intros w2 Hw2 Hdb2. rewrite (getActiveUsersForGreeting_run env w2 Hdb2).
    eexists _, _. split; [reflexivity|].
    intros Hin. apply elem_of_map in Hin. destruct Hin as (u & Hid & Hin).
    rewrite elem_of_order_by_name, list_elem_of_In, filter_In, <- list_elem_of_In in Hin.
    destruct Hin as [Hin Hwhere]. rewrite Hw2, Hu in Hin.
    unfold with_is_active in Hin. apply elem_of_map in Hin.
    destruct Hin as (u0 & -> & _).
    unfold Database.has_bitrix_id in *.
    destruct (String.eqb (u_bitrix_id u0) userId) eqn:Heq.
    - unfold Database.where_morning_greeting in Hwhere. simpl in Hwhere. discriminate.
    - apply String.eqb_neq in Heq. congruence. }
  destruct r as [[]|e|]; [| |congruence]; unfold ret;
    eexists _, _; (split; [reflexivity|]); (split; [exact Hu | exact Hlater]).
Qed.

Lemma stop_command_unsubscribes_witness :
  exists r w',
    Api.onBotMessageAdd flaky_env "/stop пожалуйста" "2" twelve_world
      = (Normal r, w') /\
    users w' = with_is_active 0 "2" (users twelve_world) /\
    forall w2,
      users w2 = users w' ->
      db_fault flaky_env (db_seq w2) = None ->
      exists rows w3,
        Users.getActiveUsersForGreeting flaky_env w2 = (Normal rows, w3) /\
        "2"%string ∉ map u_bitrix_id rows.
Proof.
  apply (stop_command_unsubscribes flaky_env "/stop пожалуйста" "пожалуйста" "2"
           twelve_world).
  - vm_compute. reflexivity.
  - reflexivity.
Defined.
Lemma with_is_active_twice (a b : Z) (userId : string) (rows : list UserRow) :
  with_is_active b userId (with_is_active a userId rows)
  = with_is_active b userId rows.
Proof.
  unfold with_is_active. rewrite map_map. apply map_ext. intros u.
  unfold Database.has_bitrix_id.
  destruct (String.eqb (u_bitrix_id u) userId) eqn:Heq; simpl; rewrite Heq;
    reflexivity.
Qed.

(** X16: unsubscribing and subscribing again does not earn a second
    greeting.  After [stop] and then [start] from the same user, with a
    store that answers, every row has the [last_greeting_sent] it had,
    and a row that was subscribed ([is_active = 1]) is exactly as it
    was. *)
Theorem resubscribing_keeps_the_stamp (env : Env) (p1 p2 userId : string)
    (w : World) :
  (forall n, db_fault env n = None) ->
  let w1 := snd (Bot.handleCommand env "stop" p1 userId w) in
  let w2 := snd (Bot.handleCommand env "start" p2 userId w1) in
  users w2 = with_is_active 1 userId (users w) /\
  Forall2 (fun u u' =>
             u_last_greeting_sent u' = u_last_greeting_sent u /\
             (u_is_active u = 1 -> u' = u))
          (users w) (users w2).
Proof.
  intros Hdb w1 w2.
  assert (Husers : users w2 = with_is_active 1 userId (users w)).
  { subst w1 w2.
    change (Bot.handleCommand env "stop" p1 userId)
      with (let* _ := Database.setUserActive env 0 userId in
            Bot.reply_to env userId
              "✅ Вы отписались от утренних приветствий. Чтобы подписаться снова, используйте команду /start")%eff.
    change (Bot.handleCommand env "start" p2 userId)
      with (let* _ := Database.setUserActive env 1 userId in
            Bot.reply_to env userId
              "✅ Вы подписались на утренние приветствия! Увидимся завтра утром! 🌅")%eff.
    destruct (subscribe_command_users env 0 userId
                "✅ Вы отписались от утренних приветствий. Чтобы подписаться снова, используйте команду /start"
                w (Hdb _)) as (r1 & w1 & Hrun1 & _ & Hu1).
    rewrite Hrun1. simpl.
    destruct (subscribe_command_users env 1 userId
                "✅ Вы подписались на утренние приветствия! Увидимся завтра утром! 🌅"
                w1 (Hdb _)) as (r2 & w2 & Hrun2 & _ & Hu2).
    rewrite Hrun2. simpl.
    rewrite Hu2, Hu1. apply with_is_active_twice. }
  split; [exact Husers|]. rewrite Husers.
  unfold with_is_active. apply Forall2_fmap_r.
  apply Forall2_same_length_lookup. split; [reflexivity|].
  intros i u u' Hu Hu'. rewrite Hu in Hu'. injection Hu' as <-.
  unfold compose. cbv beta.
  destruct (Database.has_bitrix_id userId u); [|auto].
  split; [reflexivity|]. intros Hactive. destruct u. simpl in *. subst. reflexivity.
Qed.

Lemma resubscribing_keeps_the_stamp_witness :
  let w1 := snd (Bot.handleCommand sample_env "stop" "" "1" morning_world) in
  let w2 := snd (Bot.handleCommand sample_env "start" "" "1" w1) in
  users w2 = with_is_active 1 "1" (users morning_world) /\
  Forall2 (fun u u' =>
             u_last_greeting_sent u' = u_last_greeting_sent u /\
             (u_is_active u = 1 -> u' = u))
          (users morning_world) (users w2).
Proof.
  apply (resubscribing_keeps_the_stamp sample_env "" "" "1" morning_world).
  intros n. reflexivity.
Defined.

(** ** Starting, stopping and rescheduling *)

(** X17: the scheduler starts once, even when starting fails.  A
    fresh scheduler that is started is marked as running whatever
    happens next, and every later [start] returns at once without
    scheduling anything.  If the first [start] returned, the morning
    trigger is the only task and the map holds it; if it threw, there
    is no task and no job at all. *)
Theorem start_latches (cfg : Config.t) (row : option Settings) :
  let (r, s1) := Scheduler.start cfg (Scheduler.init row) in
  isRunning s1 = true /\
  Scheduler.start cfg s1 = (Normal tt, s1) /\
  match r with
  | Normal _ =>
      exists e h,
        valid e = true /\
        tasks s1 = [new_task cfg "morning_greeting" e h] /\
        jobs s1 = {[ "morning_greeting"%string := 0%nat ]}
  | Abrupt _ => tasks s1 = [] /\ jobs s1 = ∅
  | Diverge => False
  end.
Proof.
  assert (Hjob : forall e h s0,
            tasks s0 = [] -> jobs s0 = ∅ -> isRunning s0 = true ->
            let (r, s1) := Scheduler.scheduleJob cfg "morning_greeting" e h s0 in
            isRunning s1 = true /\
            Scheduler.start cfg s1 = (Normal tt, s1) /\
            match r with
            | Normal _ =>
                exists e h,
                  valid e = true /\
                  tasks s1 = [new_task cfg "morning_greeting" e h] /\
                  jobs s1 = {[ "morning_greeting"%string := 0%nat ]}
            | Abrupt _ => tasks s1 = [] /\ jobs s1 = ∅
            | Diverge => False
            end).
  { intros e h s0 Htasks Hjobs Hrunning.
    assert (Hprev : stop_previous "morning_greeting" s0 = s0).
    { unfold stop_previous. rewrite Hjobs, lookup_empty. reflexivity. }
    destruct (valid e) eqn:Hvalid.
    - rewrite (scheduleJob_valid cfg _ e h s0 Hvalid), Hprev, Htasks, Hjobs.
      split; [exact Hrunning|].
      split; [unfold Scheduler.start, bind, get, ret; simpl; rewrite Hrunning;
              reflexivity|].
      exists e, h. split; [exact Hvalid|]. split; reflexivity.
    - rewrite (scheduleJob_invalid cfg _ e h s0 Hvalid), Hprev.
      split; [exact Hrunning|].
      split; [unfold Scheduler.start, bind, get, ret; rewrite Hrunning;
              reflexivity|].
      split; assumption. }
  unfold Scheduler.start, bind at 1, get at 1.
  change (isRunning (Scheduler.init row)) with false. cbv iota.
  unfold bind at 1, modify at 1.
  unfold bind at 1, Scheduler.getScheduleSettings, bind at 1, get at 1, ret at 1.
  set (s0 := set_isRunning true (Scheduler.init row)).
  destruct (match schedule_settings s0 with
            | Some row0 => if s_is_active row0 =? 1 then Some row0 else None
            | None => None
            end) as [row0|].
  - unfold Scheduler.scheduleMorningGreeting.
    destruct (s_days_of_week row0) as [days|].
    + apply (Hjob _ _ s0); reflexivity.
    + unfold throw. split; [reflexivity|]. split; [reflexivity|].
      split; reflexivity.
  - unfold Scheduler.scheduleMorningGreetingFromConfig.
    apply (Hjob _ _ s0); reflexivity.
Qed.

(** X18: shutting down silences every trigger.  In every state the
    scheduler can reach, after [stopAll] no task is live, so no handler
    is invoked at any minute; the map is empty and the scheduler may be
    started again. *)
Theorem stopAll_silences_everything (cfg : Config.t) (row : option Settings)
    (ops : list Op) :
  let s := run_ops cfg (Scheduler.init row) ops in
  exists s',
    Scheduler.stopAll s = (Normal tt, s') /\
    jobs s' = ∅ /\ isRunning s' = false /\
    (forall t, t ∈ tasks s' -> t_running t = false) /\
    forall now, due tasks s' now = [].
Proof.
  intros s.
  assert (Hs : trigger_invariant s).
  { apply run_ops_invariant. apply init_invariant. }
  unfold Scheduler.stopAll, bind, get, modify.
  destruct (stop_each_spec (map_to_list (jobs s)) s)
    as (s' & Hrun & Hjobs & Htasks).
  rewrite Hrun. eexists. split; [reflexivity|].
  cbn [jobs isRunning tasks set_jobs set_isRunning].
  split; [reflexivity|]. split; [reflexivity|].
  assert (Hdead : forall t, t ∈ tasks s' -> t_running t = false).
  { intros t Hin. destruct (t_running t) eqn:Hlive; [|reflexivity].
    exfalso. apply list_elem_of_lookup in Hin. destruct Hin as [k Hk].
    destruct (Htasks k t Hk Hlive) as [Hold Hnotin].
    apply (Hnotin (t_label t)). apply elem_of_map_to_list.
    exact (Hs k t Hold Hlive). }
  split; [exact Hdead|].
  intros now. unfold due. cbn [tasks set_jobs set_isRunning].
  match goal with
  | |- map _ ?fl = [] => destruct fl as [|t ts] eqn:Hf
  end; [reflexivity|].
  exfalso. assert (Hin : In t (t :: ts)) by (left; reflexivity).
  rewrite <- Hf in Hin. apply filter_In in Hin. destruct Hin as [Hin Hcond].
  apply andb_true_iff in Hcond. destruct Hcond as [Hlive _].
  apply list_elem_of_In in Hin. rewrite (Hdead t Hin) in Hlive. discriminate.
Qed.





(** ** Text commands and day lists *)

Lemma split_not_nil (sep : ascii) (s : string) : Js.split sep s <> [].
Proof.
  destruct s as [|c rest]; simpl; [discriminate|].
  destruct (Ascii.eqb c sep); [discriminate|].
  destruct (Js.split sep rest); discriminate.
Qed.

(** [s.split(sep).join(sep)] is [s]. *)
Lemma join_split (sep : ascii) (s : string) :
  Js.join (String sep "") (Js.split sep s) = s.
Proof.
  induction s as [|c rest IH]; simpl; [reflexivity|].
  pose proof (split_not_nil sep rest) as Hne.
  destruct (Ascii.eqb c sep) eqn:Hc.
  - apply Ascii.eqb_eq in Hc. subst c.
    destruct (Js.split sep rest) as [|p ps]; [congruence|].
    simpl in *. rewrite IH. reflexivity.
  - destruct (Js.split sep rest) as [|p ps]; [congruence|].
    destruct ps as [|q qs]; simpl in *; rewrite <- IH; reflexivity.
Qed.

(** No piece of [s.split(sep)] contains the separator. *)
Lemma split_pieces (sep : ascii) (s : string) (piece : string) :
  piece ∈ Js.split sep s -> String.index 0 (String sep "") piece = None.
Proof.
  revert piece. induction s as [|c rest IH]; simpl; intros piece Hin.
  - apply list_elem_of_singleton in Hin. subst piece. reflexivity.
  - destruct (Ascii.eqb c sep) eqn:Hc.
    + apply elem_of_cons in Hin. destruct Hin as [-> | Hin]; [reflexivity|].
      apply IH. exact Hin.
    + pose proof (split_not_nil sep rest) as Hne.
      destruct (Js.split sep rest) as [|p ps]; [congruence|].
      apply elem_of_cons in Hin. destruct Hin as [-> | Hin].
      * specialize (IH p (list_elem_of_here _ _)).
        simpl. apply Ascii.eqb_neq in Hc.
        destruct (ascii_dec sep c) as [Heq | _]; [congruence|].
        simpl in IH. rewrite IH. reflexivity.
      * apply IH. apply list_elem_of_further. exact Hin.
Qed.

Lemma substring_all (s : string) : substring 0 (String.length s) s = s.
Proof. induction s as [|c s IH]; simpl; [reflexivity|]. rewrite IH. reflexivity. Qed.

(** X21: the command and the parameters of a text command make up the
    message.  A message is taken for a command exactly when it starts
    with a slash; then the message is the slash, the command and, if
    the message holds a space, a space and the parameters; and the
    command holds no space. *)
Theorem text_command_recomposes (MESSAGE : string) :
  match Api.text_command MESSAGE with
  | Some (command, params) =>
      Js.startsWith "/" MESSAGE = true /\
      String.index 0 " " command = None /\
      ((MESSAGE = "/" ++ command /\ params = "") \/
       MESSAGE = "/" ++ command ++ " " ++ params)%string
  | None => Js.startsWith "/" MESSAGE = false
  end.
Proof.
  unfold Api.text_command.
  destruct (Js.startsWith "/" MESSAGE) eqn:Hstart; [|reflexivity].
  split; [reflexivity|].
  destruct MESSAGE as [|c rest]; [discriminate|].
  unfold Js.startsWith in Hstart. cbn [String.prefix] in Hstart.
  destruct (ascii_dec "/" c) as [<- | ]; [|discriminate]. clear Hstart.
  pose proof (join_split " " (String "/" rest)) as Hjoin.
  pose proof (split_pieces " " (String "/" rest)) as Hpieces.
  pose proof (split_not_nil " " rest) as Hne.
  simpl in Hjoin, Hpieces |- *.
  destruct (Js.split " " rest) as [|p ps]; [congruence|].
  simpl.
  assert (Hdrop : Js.drop_str 1 (String "/" p) = p).
  { unfold Js.drop_str. simpl. rewrite Nat.sub_0_r. apply substring_all. }
  rewrite Hdrop.
  split.
  - specialize (Hpieces (String "/" p) (list_elem_of_here _ _)).
    simpl in Hpieces. destruct (String.index 0 " " p); [discriminate | reflexivity].
  - destruct ps as [|q qs]; simpl in *.
    + left. split; [symmetry; exact Hjoin | reflexivity].
    + right. symmetry. exact Hjoin.
Qed.
Lemma single_digit (d : Z) :
  0 <= d <= 9 ->
  exists c, Js.string_of_int d = String c "" /\
            Ascii.eqb c "," = false /\
            Js.parseInt (Js.trim (String c "")) = Js.Int d.
Proof.
  intros Hd.
  assert (Hcases : d = 0 \/ d = 1 \/ d = 2 \/ d = 3 \/ d = 4 \/
                   d = 5 \/ d = 6 \/ d = 7 \/ d = 8 \/ d = 9) by lia.
  repeat (destruct Hcases as [-> | Hcases];
          [eexists; split; [vm_compute; reflexivity|]; split; reflexivity|]).
  subst d. eexists. split; [vm_compute; reflexivity|]. split; reflexivity.
Qed.

Lemma split_join_digits (ds : list Z) :
  ds <> [] -> Forall (fun d => 0 <= d <= 9) ds ->
  Js.split "," (Js.join "," (map Js.string_of_int ds))
  = map Js.string_of_int ds.
Proof.
  intros Hne Hall. induction Hall as [|d ds Hd Hall IH]; [congruence|].
  destruct (single_digit d Hd) as (c & Hc & Hsep & _).
  destruct ds as [|d' ds].
  - simpl. rewrite Hc. simpl. rewrite Hsep. reflexivity.
  - specialize (IH ltac:(discriminate)).
    change (map Js.string_of_int (d :: d' :: ds))
      with (Js.string_of_int d :: map Js.string_of_int (d' :: ds)).
    change (Js.join "," (Js.string_of_int d :: map Js.string_of_int (d' :: ds)))
      with (Js.string_of_int d ++ "," ++
            Js.join "," (map Js.string_of_int (d' :: ds)))%string.
    rewrite Hc.
    change (String c "" ++ "," ++ Js.join "," (map Js.string_of_int (d' :: ds)))%string
      with (String c (String "," (Js.join "," (map Js.string_of_int (d' :: ds))))).
    cbn [Js.split]. rewrite Hsep, Ascii.eqb_refl, IH. reflexivity.
Qed.

(** X22: a list of weekdays written with commas is read back as it
    was.  For a non-empty list of one-digit numbers, the pattern
    [scheduleMorningGreeting] builds from the comma-joined text has
    exactly these numbers, in order, as its days of the week; it is the
    pattern [scheduleMorningGreetingFromConfig] builds from the list
    itself. *)
Theorem weekday_list_reads_back (hour minute : Z) (ds : list Z) :
  ds <> [] -> Forall (fun d => 0 <= d <= 9) ds ->
  pattern_of hour minute (Js.join "," (map Js.string_of_int ds))
  = {| e_minute := minute; e_hour := hour;
       e_days := DayList (map Js.Int ds) |}.
Proof.
  intros Hne Hall. unfold pattern_of. f_equal. f_equal.
  rewrite (split_join_digits ds Hne Hall). rewrite map_map.
  clear Hne. induction Hall as [|d ds Hd Hall IH]; [reflexivity|].
  simpl. rewrite IH. f_equal.
  destruct (single_digit d Hd) as (c & Hc & _ & Hparse).
  rewrite Hc. exact Hparse.
Qed.

Lemma weekday_list_reads_back_witness :
  pattern_of 9 0 (Js.join "," (map Js.string_of_int [1; 2; 3; 4; 5]))
  = {| e_minute := 0; e_hour := 9;
       e_days := DayList (map Js.Int [1; 2; 3; 4; 5]) |}.
Proof.
  apply (weekday_list_reads_back 9 0 [1; 2; 3; 4; 5]).
  - discriminate.
  - repeat constructor; lia.
Defined.

(** ** The holiday table *)

(** The holiday greeting chosen on day [d] of month [m] (1-12), as the
    composer reads the default table: its keys are taken as [MM-DD]. *)
Definition holiday_on (m d : Z) : option string :=
  match m, d with
  | 1, 1 => Some "🎄 С Новым годом, {name}! Пусть этот год будет полон успехов!"
  | 1, 5 => Some "🌺 С праздником Весны и Труда, {name}!"
  | 4, 11 => Some "🤝 С Днём народного единства, {name}!"
  | 8, 3 => Some "🌷 С Международным женским днём, {name}!"
  | 9, 5 => Some "🎗️ С Днём Победы, {name}!"
  | 12, 6 => Some "🇷🇺 С Днём России, {name}!"
  | _, _ => None
  end%string.

Definition holiday_checked (m d : Z) : bool :=
  bool_decide
    (Config.holidays (Config.messages Config.default)
       !! Greetings.monthDay {| getMonth := m - 1; getDate := d |}
     = holiday_on m d).

Lemma holidays_checked :
  forallb (fun m => forallb (holiday_checked m) (seqZ 1 31)) (seqZ 1 12) = true.
Proof. vm_compute. reflexivity. Qed.

(** X23: the holiday table is read month first.  With the default
    configuration, on any calendar date the composer finds a holiday
    greeting exactly on 1 January, 5 January, 11 April, 3 August,
    5 September and 6 December; the greeting stored under [23-02] is
    found on no date.  On those six dates the greeting is the stored
    text with the name filled in, and the random source is not
    consulted. *)
Theorem holiday_table_is_read_month_first (env : Env) (w : World)
    (userName : string) :
  let today := local_date env (clock w) in
  0 <= getMonth today <= 11 ->
  1 <= getDate today <= 31 ->
  Config.holidays (Config.messages Config.default) !! Greetings.monthDay today
    = holiday_on (getMonth today + 1) (getDate today) /\
  forall text,
    holiday_on (getMonth today + 1) (getDate today) = Some text ->
    Greetings.generateGreeting env Config.default userName w
      = (Normal (Js.replace "{name}" userName text), w).
Proof.
  intros today Hm Hd.
  assert (Hlookup :
            Config.holidays (Config.messages Config.default)
              !! Greetings.monthDay today
            = holiday_on (getMonth today + 1) (getDate today)).
  { pose proof holidays_checked as Hall.
    rewrite forallb_forall in Hall.
    specialize (Hall (getMonth today + 1)).
    rewrite <- list_elem_of_In, elem_of_seqZ in Hall.
    specialize (Hall ltac:(lia)).
    rewrite forallb_forall in Hall.
    specialize (Hall (getDate today)).
    rewrite <- list_elem_of_In, elem_of_seqZ in Hall.
    specialize (Hall ltac:(lia)).
    unfold holiday_checked in Hall. apply bool_decide_eq_true in Hall.
    replace (getMonth today + 1 - 1) with (getMonth today) in Hall by lia.
    destruct today as [m d]. exact Hall. }
  split; [exact Hlookup|].
  intros text Htext.
  unfold Greetings.generateGreeting, Greetings.today_local, bind, get, ret.
  fold today. rewrite Hlookup, Htext.
  assert (Htruthy : Js.truthy (Some text) = true).
  { revert Htext. unfold holiday_on.
    repeat case_match; intros; simplify_eq; reflexivity. }
  rewrite Htruthy. reflexivity.
Qed.

Lemma holiday_table_is_read_month_first_witness :
  let today := local_date new_year_env (clock empty_world) in
  Config.holidays (Config.messages Config.default) !! Greetings.monthDay today
    = holiday_on (getMonth today + 1) (getDate today) /\
  forall text,
    holiday_on (getMonth today + 1) (getDate today) = Some text ->
    Greetings.generateGreeting new_year_env Config.default "Анна" empty_world
      = (Normal (Js.replace "{name}" "Анна" text), empty_world).
Proof.
  apply (holiday_table_is_read_month_first new_year_env empty_world "Анна");
    simpl; lia.
Defined.

(** ** What a command may change *)

(** The calls of [evs] all go to the dialog [userId]. *)
Definition calls_to (userId : string) (evs : list Event) : Prop :=
  forall p t reply, EvCall p t reply ∈ evs -> DIALOG_ID p = userId.

Lemma calls_to_app (userId : string) (evs1 evs2 : list Event) :
  calls_to userId evs1 -> calls_to userId evs2 ->
  calls_to userId (evs1 ++ evs2).
Proof.
  intros H1 H2 p t reply Hin. apply elem_of_app in Hin.
  destruct Hin as [Hin | Hin]; eauto.
Qed.

Lemma reply_to_events (env : Env) (userId text : string) (w : World) :
  exists r w' evs,
    Bot.reply_to env userId text w = (r, w') /\ r <> Diverge /\
    users w' = users w /\ trace w' = trace w ++ evs /\ calls_to userId evs.
Proof.
  unfold Bot.reply_to. unfold bind at 1.
  destruct (sendMessage_frame env userId text None w)
    as (r & w' & Hsend & Hr & Hu & _ & (evs & Ht & Hevs) & _).
  rewrite Hsend.
  assert (Hcalls : calls_to userId evs).
  { intros p t reply Hin.
    destruct Hevs as [-> | (p1 & t1 & r1 & -> & Hd & _)]; [inversion Hin|].
    apply list_elem_of_singleton in Hin. injection Hin as -> -> ->. exact Hd. }
  destruct r as [mid|e|]; [| |congruence];
    eexists _, _, evs; (split; [reflexivity|]); (split; [discriminate|]); auto.
Qed.

(** What a command left of the table: every row is as it was but for
    [is_active], and rows of other users are untouched. *)
Definition only_subscription_of (userId : string) (rows rows' : list UserRow)
  : Prop :=
  Forall2 (fun u u' =>
             Database.set_is_active 0 u' = Database.set_is_active 0 u /\
             (u_bitrix_id u <> userId -> u' = u))
          rows rows'.

Lemma only_subscription_of_refl (userId : string) (rows : list UserRow) :
  only_subscription_of userId rows rows.
Proof.
  apply Forall2_same_length_lookup. split; [reflexivity|].
  intros i u u' Hu Hu'. rewrite Hu in Hu'. injection Hu' as <-. auto.
Qed.

Lemma only_subscription_of_update (a : Z) (userId : string)
    (rows : list UserRow) :
  only_subscription_of userId rows
    (map (fun u => if Database.has_bitrix_id userId u
                   then Database.set_is_active a u else u) rows).
Proof.
  unfold only_subscription_of. apply Forall2_fmap_r.
  apply Forall2_same_length_lookup. split; [reflexivity|].
  intros i u u' Hu Hu'. rewrite Hu in Hu'. injection Hu' as <-.
  unfold compose, Database.has_bitrix_id. cbv beta.
  destruct (String.eqb (u_bitrix_id u) userId) eqn:Heq; [|auto].
  apply String.eqb_eq in Heq. split; [reflexivity | congruence].
Qed.

Lemma subscribe_command_frame (env : Env) (a : Z) (userId text : string)
    (w : World) :
  exists r w' evs,
    (let* _ := Database.setUserActive env a userId in
     Bot.reply_to env userId text)%eff w = (r, w') /\
    r <> Diverge /\ only_subscription_of userId (users w) (users w') /\
    trace w' = trace w ++ evs /\ calls_to userId evs.
Proof.
  unfold bind at 1.
  unfold Database.setUserActive, Database.statement, bind, modify.
  destruct (db_fault env (db_seq w)) as [e|].
  - eexists _, _, []. split; [reflexivity|]. split; [discriminate|].
    split; [apply only_subscription_of_refl|].
    rewrite app_nil_r. split; [reflexivity|].
    intros p t reply Hin. inversion Hin.
  - match goal with
    | |- context [Bot.reply_to env userId text ?w1] =>
        destruct (reply_to_events env userId text w1)
          as (r & w' & evs & Hrun & Hr & Hu & Ht & Hcalls)
    end.
    exists r, w', evs. split; [exact Hrun|]. split; [exact Hr|].
    split; [rewrite Hu; apply only_subscription_of_update|].
    split; [exact Ht | exact Hcalls].
Qed.

(** X24: a command writes nothing but its sender's subscription.
    Whatever the command and whatever the platform and the store do,
    [handleCommand] leaves every row of another user untouched and
    changes no field but [is_active] of the sender's rows; any command
    other than [stop] and [start] leaves the whole table as it was; and
    every call it places goes to the sender. *)
Theorem commands_write_only_the_subscription (env : Env)
    (command params userId : string) (w : World) :
  let (r, w') := Bot.handleCommand env command params userId w in
  r <> Diverge /\
  only_subscription_of userId (users w) (users w') /\
  (command <> "stop"%string -> command <> "start"%string ->
   users w' = users w) /\
  exists evs, trace w' = trace w ++ evs /\ calls_to userId evs.
Proof.
  assert (Hreply : forall text w0,
            users w0 = users w ->
            (exists evs0, trace w0 = trace w ++ evs0 /\ calls_to userId evs0) ->
            let (r, w') := Bot.reply_to env userId text w0 in
            r <> Diverge /\
            only_subscription_of userId (users w) (users w') /\
            (command <> "stop"%string -> command <> "start"%string ->
             users w' = users w) /\
            exists evs, trace w' = trace w ++ evs /\ calls_to userId evs).
  { intros text w0 Hu0 (evs0 & Ht0 & Hc0).
    destruct (reply_to_events env userId text w0)
      as (r & w' & evs & Hrun & Hr & Hu & Ht & Hcalls).
    rewrite Hrun. split; [exact Hr|].
    split; [rewrite Hu, Hu0; apply only_subscription_of_refl|].
    split; [intros _ _; congruence|].
    exists (evs0 ++ evs). split; [rewrite Ht, Ht0, app_assoc; reflexivity|].
    apply calls_to_app; assumption. }
  assert (Hstart : exists evs0, trace w = trace w ++ evs0 /\ calls_to userId evs0).
  { exists []. rewrite app_nil_r. split; [reflexivity|].
    intros p t reply Hin. inversion Hin. }
  assert (Hsub : forall a text,
            (command = "stop"%string \/ command = "start"%string) ->
            let (r, w') :=
              (let* _ := Database.setUserActive env a userId in
               Bot.reply_to env userId text)%eff w in
            r <> Diverge /\
            only_subscription_of userId (users w) (users w') /\
            (command <> "stop"%string -> command <> "start"%string ->
             users w' = users w) /\
            exists evs, trace w' = trace w ++ evs /\ calls_to userId evs).
  { intros a text Hcmd.
    destruct (subscribe_command_frame env a userId text w)
      as (r & w' & evs & Hrun & Hr & Hu & Ht & Hcalls).
    rewrite Hrun. split; [exact Hr|]. split; [exact Hu|].
    split; [intros H1 H2; destruct Hcmd; contradiction|]. eauto. }
  unfold Bot.handleCommand.
  destruct (String.eqb command "thanks"); [apply Hreply; auto|].
  destruct (String.eqb command "tasks").
  { unfold bind at 1.
    destruct (reply_to_events env userId "Загружаю ваши задачи на сегодня..." w)
      as (r & w1 & evs & Hrun & Hr & Hu & Ht & Hcalls).
    rewrite Hrun.
    destruct r as [[]|e|]; [|unfold throw|congruence].
    - apply Hreply; [exact Hu | eauto].
    - split; [discriminate|].
      split; [rewrite Hu; apply only_subscription_of_refl|].
      split; [intros _ _; exact Hu | eauto]. }
  destruct (String.eqb command "help"); [apply Hreply; auto|].
  destruct (String.eqb command "stop") eqn:Hstop.
  { apply String.eqb_eq in Hstop. apply Hsub. auto. }
  destruct (String.eqb command "start") eqn:Hstart'.
  { apply String.eqb_eq in Hstart'. apply Hsub. auto. }
  destruct (String.eqb command "status"); [|apply Hreply; auto].
  unfold bind at 1. unfold Database.getUserByBitrixId. unfold bind at 1.
  destruct (statement_frame env w) as (r1 & w1 & Hst & Hr1 & Hu1 & _ & Ht1 & _).
  rewrite Hst.
  assert (Hstart1 : exists evs0, trace w1 = trace w ++ evs0 /\ calls_to userId evs0).
  { rewrite Ht1. exact Hstart. }
  destruct r1 as [[]|e|]; [| |congruence].
  - unfold bind at 1, get at 1, ret at 1.
    destruct (List.find (Database.has_bitrix_id userId) (users w1)) as [u|].
    + destruct (negb (u_is_active u =? 0)); apply Hreply; assumption.
    + apply Hreply; assumption.
  - split; [discriminate|].
    split; [rewrite Hu1; apply only_subscription_of_refl|].
    split; [intros _ _; exact Hu1 | exact Hstart1].
Qed.

(** ** Start-up *)

(** What [start] makes of a fresh scheduler. *)
Definition started (cfg : Config.t) (s0 : State)
    (result : Completion unit * State) : Prop :=
  (exists e h,
     valid e = true /\
     result =
       (Normal tt,
        set_jobs {[ "morning_greeting"%string := 0%nat ]}
          (set_tasks [new_task cfg "morning_greeting" e h] s0))) \/
  (exists err, result = (Abrupt err, s0)).

Lemma start_fresh (cfg : Config.t) (row : option Settings) :
  started cfg (set_isRunning true (Scheduler.init row))
    (Scheduler.start cfg (Scheduler.init row)).
Proof.
  set (s0 := set_isRunning true (Scheduler.init row)).
  assert (Hjob : forall e h,
            started cfg s0 (Scheduler.scheduleJob cfg "morning_greeting" e h s0)).
  { intros e h. destruct (valid e) eqn:Hvalid.
    - left. exists e, h. split; [exact Hvalid|].
      rewrite (scheduleJob_valid cfg _ e h s0 Hvalid). reflexivity.
    - right. exists InvalidSchedule.
      rewrite (scheduleJob_invalid cfg _ e h s0 Hvalid). reflexivity. }
  unfold Scheduler.start, bind at 1, get at 1.
  change (isRunning (Scheduler.init row)) with false. cbv iota.
  unfold bind at 1, modify at 1.
  unfold bind at 1, Scheduler.getScheduleSettings, bind at 1, get at 1, ret at 1.
  fold s0.
  destruct (match schedule_settings s0 with
            | Some row0 => if s_is_active row0 =? 1 then Some row0 else None
            | None => None
            end) as [row0|].
  - unfold Scheduler.scheduleMorningGreeting.
    destruct (s_days_of_week row0) as [days|]; [apply Hjob|].
    right. eexists. reflexivity.
  - unfold Scheduler.scheduleMorningGreetingFromConfig. apply Hjob.
Qed.

(** X25: start-up leaves three jobs, one trigger each.  When [start]
    returns on a fresh scheduler and the daily synchronisation and the
    log clean-up are scheduled after it, as [startServer] does, the
    cron library holds exactly three tasks, all live: the morning
    greeting, the synchronisation at 02:00 every day and the clean-up
    at 03:00 on Sundays; and the map holds each under its name. *)
Theorem startup_schedules_three_jobs (cfg : Config.t) (row : option Settings) :
  let s1 := snd (Scheduler.start cfg (Scheduler.init row)) in
  let s2 := snd (Scheduler.scheduleDailyUserSync cfg s1) in
  let s3 := snd (Scheduler.scheduleLogCleanup cfg s2) in
  fst (Scheduler.start cfg (Scheduler.init row)) = Normal tt ->
  exists e h,
    valid e = true /\
    tasks s3 =
      [ new_task cfg "morning_greeting" e h;
        new_task cfg "user_sync"
          {| e_minute := 0; e_hour := 2; e_days := AnyDay |} UserSyncTask;
        new_task cfg "log_cleanup"
          {| e_minute := 0; e_hour := 3; e_days := DayList [Js.Int 0] |}
          LogCleanupTask ] /\
    jobs s3 !! "morning_greeting"%string = Some 0%nat /\
    jobs s3 !! "user_sync"%string = Some 1%nat /\
    jobs s3 !! "log_cleanup"%string = Some 2%nat /\
    isRunning s3 = true.
Proof.
  intros s1 s2 s3 Hok.
  destruct (start_fresh cfg row) as [(e & h & Hvalid & Hstart) | (err & Hstart)];
    [|rewrite Hstart in Hok; simpl in Hok; discriminate].
  exists e, h. split; [exact Hvalid|].
  subst s3 s2 s1. rewrite Hstart.
  unfold Scheduler.scheduleDailyUserSync, Scheduler.scheduleLogCleanup.
  cbn [snd].
  rewrite scheduleJob_valid by reflexivity.
  cbn [snd].
  rewrite scheduleJob_valid by reflexivity.
  cbn [snd].
  assert (H1 : stop_previous "user_sync"
                 (set_jobs {[ "morning_greeting"%string := 0%nat ]}
                    (set_tasks [new_task cfg "morning_greeting" e h]
                       (set_isRunning true (Scheduler.init row))))
               = set_jobs {[ "morning_greeting"%string := 0%nat ]}
                    (set_tasks [new_task cfg "morning_greeting" e h]
                       (set_isRunning true (Scheduler.init row)))) by reflexivity.
  rewrite H1. cbn [jobs tasks set_jobs set_tasks set_isRunning app length].
  match goal with
  | |- context [stop_previous "log_cleanup" ?s] =>
      assert (H2 : stop_previous "log_cleanup" s = s) by reflexivity;
      rewrite H2
  end.
  cbn [jobs tasks set_jobs set_tasks set_isRunning isRunning Scheduler.init
       app length].
  split; [reflexivity|].
  split; [reflexivity|]. split; [reflexivity|]. split; reflexivity.
Qed.

Lemma startup_schedules_three_jobs_witness :
  let s1 := snd (Scheduler.start Config.default (Scheduler.init (Some active_row))) in
  let s2 := snd (Scheduler.scheduleDailyUserSync Config.default s1) in
  let s3 := snd (Scheduler.scheduleLogCleanup Config.default s2) in
  exists e h,
    valid e = true /\
    tasks s3 =
      [ new_task Config.default "morning_greeting" e h;
        new_task Config.default "user_sync"
          {| e_minute := 0; e_hour := 2; e_days := AnyDay |} UserSyncTask;
        new_task Config.default "log_cleanup"
          {| e_minute := 0; e_hour := 3; e_days := DayList [Js.Int 0] |}
          LogCleanupTask ] /\
    jobs s3 !! "morning_greeting"%string = Some 0%nat /\
    jobs s3 !! "user_sync"%string = Some 1%nat /\
    jobs s3 !! "log_cleanup"%string = Some 2%nat /\
    isRunning s3 = true.
Proof.
  intros s1 s2 s3.
  apply (startup_schedules_three_jobs Config.default (Some active_row)).
  reflexivity.
Defined.
